(** * adr-reservation: a shallow embedding of the booking application

    The development follows the layout of the repository:
    - [Js]                the fragment of the JavaScript runtime the code relies on
    - [EmailService]      src/lib/emailService.js
    - [HumanVerification] src/lib/humanVerification.js
    - [RateLimiter]       src/lib/rateLimiter.js
    - [CalendarUtils]     src/lib/calendarUtils.js
    - [Slot], [Reservation], [Setting], [Backend]
                          the tables of supabase/init.sql and the query client
    - [Supabase]          src/lib/supabase.js and [cancelReservation] of
                          src/lib/userService.js
    - [Auth]              src/lib/auth.js
    - [Validation]        src/lib/validationUtils.js
    - [BookingPage]       src/pages/BookingPage.jsx (handlers and effects)
    - [Challenges]        generating challenges (src/lib/humanVerification.js)
                          and src/components/HumanVerification.jsx
    - [SupabaseRest]      [createReservation] and [checkSlotsExist] of
                          src/lib/supabase.js
    - [UserService]       [registerUser] of src/lib/userService.js
    - [AuthSession]       setup and session of src/lib/auth.js
    - [Calendar]          src/components/calendar/Calendar.jsx
    - [Pattern], [Stated], [Scenario], [Session], [Cases]
                          the vocabulary of the properties and the concrete
                          situations they are tried on

    Definitions come first; the properties follow in the second half of the
    file.  Asynchronous calls are embedded by what they settle to: a
    returned value or a thrown error. *)

From Stdlib Require Import ZArith String Ascii List Bool Lia.
From Stdlib Require Import DecimalString HexadecimalString.
From Stdlib Require Import Sorting.Sorted Sorting.Permutation.
From stdpp Require Import gmap strings list.
Import ListNotations.

Open Scope string_scope.
Open Scope Z_scope.

(* ===================================================================== *)
(** * The JavaScript fragment *)
(* ===================================================================== *)

Module Js.

(** JavaScript strings are sequences of code units.  They are embedded as
    Rocq strings, one [ascii] per code unit, so the embedding covers the
    code units 0..255.  The empty string is the only falsy string. *)

Definition truthy (s : string) : bool := negb (String.eqb s "").

(** [a || b] on strings. *)
Definition or_else (a b : string) : string := if truthy a then a else b.

(** A thrown value, or the [error] member of a backend response: the two
    properties the code ever reads are [message] and [code]; an absent
    property is the empty string. *)
Record Error := mkError { message : string; code : string }.

Definition TypeError (msg : string) : Error := mkError msg "".

(** Completion of a call: it returns a value or throws. *)
Inductive Completion (A : Type) : Type :=
| Returned (a : A)
| Thrown (e : Error).
Arguments Returned {A} a.
Arguments Thrown {A} e.

Definition bind {A B} (c : Completion A) (k : A -> Completion B) : Completion B :=
  match c with
  | Returned a => k a
  | Thrown e => Thrown e
  end.

(** [try { c } catch (e) { h e }] *)
Definition try_catch {A} (c : Completion A) (h : Error -> Completion A) : Completion A :=
  match c with
  | Returned a => Returned a
  | Thrown e => h e
  end.

Definition isReturned {A} (c : Completion A) : bool :=
  match c with Returned _ => true | Thrown _ => false end.

Declare Scope js_scope.
Delimit Scope js_scope with js.
Notation "'let*' x ':=' c 'in' k" := (bind c (fun x => k))
  (at level 10, x name, c at level 100, k at level 200) : js_scope.

(** ** 32-bit integer operators *)

(** ToInt32: reduction modulo 2^32 into the signed range. *)
Definition toInt32 (z : Z) : Z := (z + 2147483648) mod 4294967296 - 2147483648.

(** [a << n] *)
Definition shl (a n : Z) : Z := toInt32 (Z.shiftl (toInt32 a) (n mod 32)).

(** [a & b] *)
Definition band (a b : Z) : Z := toInt32 (Z.land (toInt32 a) (toInt32 b)).

(** ** Numbers to strings (integers only) *)

(** [n.toString()] *)
Definition toString (n : Z) : string :=
  DecimalString.NilZero.string_of_int (Z.to_int n).

(** [n.toString(16)]: lower-case digits, a leading minus sign for a
    negative number. *)
Definition toString16 (n : Z) : string :=
  HexadecimalString.NilZero.string_of_int (Z.to_hex_int n).

(** ** String methods *)

Fixpoint repeat_char (c : ascii) (n : nat) : string :=
  match n with
  | O => EmptyString
  | S k => String c (repeat_char c k)
  end.

(** [s.padStart(n, c)] with a one-character filler. *)
Definition padStart (s : string) (n : nat) (c : ascii) : string :=
  repeat_char c (n - String.length s) ++ s.

(** [s.charAt(i)]: the empty string out of range. *)
Definition charAt (s : string) (i : Z) : string :=
  if i <? 0 then ""
  else match String.get (Z.to_nat i) s with
       | Some c => String c EmptyString
       | None => ""
       end.

(** [s.charCodeAt(i)] for an index in range, per code unit. *)
Definition charCode (c : ascii) : Z := Z.of_nat (nat_of_ascii c).

(** The code units of a string, as [charCodeAt] enumerates them. *)
Definition codeUnits (s : string) : list Z := List.map charCode (list_ascii_of_string s).

(** White space recognised by [trim] among the code units 0..255:
    TAB, LF, VT, FF, CR, SPACE and NBSP. *)
Definition isWhiteSpace (c : ascii) : bool :=
  let n := nat_of_ascii c in
  ((9 <=? n)%nat && (n <=? 13)%nat) || (n =? 32)%nat || (n =? 160)%nat.

Fixpoint trimStart (s : string) : string :=
  match s with
  | EmptyString => EmptyString
  | String c r => if isWhiteSpace c then trimStart r else s
  end.

Fixpoint trimEnd (s : string) : string :=
  match s with
  | EmptyString => EmptyString
  | String c r =>
      match trimEnd r with
      | EmptyString => if isWhiteSpace c then EmptyString else String c EmptyString
      | r' => String c r'
      end
  end.

(** [s.trim()] *)
Definition trim (s : string) : string := trimEnd (trimStart s).

Definition lowerChar (c : ascii) : ascii :=
  let n := nat_of_ascii c in
  if ((65 <=? n)%nat && (n <=? 90)%nat) then ascii_of_nat (n + 32) else c.

(** [s.toLowerCase()] on the ASCII letters. *)
Fixpoint toLowerCase (s : string) : string :=
  match s with
  | EmptyString => EmptyString
  | String c r => String (lowerChar c) (toLowerCase r)
  end.

(** [s.includes(t)] *)
Fixpoint includes (s t : string) : bool :=
  String.prefix t s ||
  match s with
  | EmptyString => false
  | String _ r => includes r t
  end.

End Js.

(* ===================================================================== *)
(** * src/lib/emailService.js *)
(* ===================================================================== *)

Module EmailService.
Import Js.
Local Open Scope js_scope.

(** The fields of [new Date()] that the module reads (local time):
    [getFullYear()], [getMonth()] (0..11) and [getDate()] (1..31). *)
Record LocalDate := mkLocalDate { fullYear : Z; month : Z; date : Z }.

Definition characters : string := "ABCDEFGHIJKLMNOPQRSTUVWXYZ0123456789".

(** The loop [for (let i = 0; i < 4; i++) suffix += characters.charAt(...)].
    [pick i] is the value of [Math.floor(Math.random() * characters.length)]
    in iteration [i]; [Math.random()] lies in [0, 1), so that value lies
    in 0..35. *)
Fixpoint suffixLoop (pick : nat -> Z) (i : nat) (n : nat) (suffix : string) : string :=
  match n with
  | O => suffix
  | S k => suffixLoop pick (S i) k (suffix ++ charAt characters (pick i))
  end.

Definition datePart (now : LocalDate) : string :=
  toString (fullYear now) ++
  padStart (toString (month now + 1)) 2 "0" ++
  padStart (toString (date now)) 2 "0".

Definition generateBookingReference (now : LocalDate) (pick : nat -> Z) : string :=
  let suffix := suffixLoop pick 0 4 "" in
  "ADR-" ++ datePart now ++ "-" ++ suffix.

(** ** Configuration read from [import.meta.env] (unset = empty string) *)
Record EmailEnv := mkEmailEnv {
  VITE_EMAILJS_SERVICE_ID : string;
  VITE_EMAILJS_TEMPLATE_ID : string;
  VITE_EMAILJS_PUBLIC_KEY : string
}.

Definition EMAIL_SERVICE_ID (env : EmailEnv) : string :=
  or_else (VITE_EMAILJS_SERVICE_ID env) "service_default".
Definition EMAIL_TEMPLATE_ID (env : EmailEnv) : string :=
  or_else (VITE_EMAILJS_TEMPLATE_ID env) "template_default".
Definition EMAIL_PUBLIC_KEY (env : EmailEnv) : string :=
  or_else (VITE_EMAILJS_PUBLIC_KEY env) "".

(** ** Booking data handed over by the booking page
    An absent string property is the empty string; an absent object is
    [None]. *)
Record SlotInfo := mkSlotInfo {
  slot_date : string;
  slot_start_time : string;
  slot_duration : string
}.

Record UserData := mkUserData {
  name : string;
  email : string;
  groupId : string;
  notes : string
}.

Record BookingData := mkBookingData {
  userData : option UserData;
  slot : option SlotInfo;
  reference : string
}.

Record TemplateParams := mkTemplateParams {
  to_name : string;
  to_email : string;
  booking_reference : string;
  booking_date : string;
  booking_time : string;
  booking_duration : string;
  booking_notes : string;
  group_id : string
}.

(** What the function hands back: [{ success, error?, reference? }]. *)
Record EmailResult := mkEmailResult {
  success : bool;
  error : option string;
  result_reference : option string
}.

(** The runtime services the function calls: the clock, the random
    source, date parsing and formatting, and [emailjs.send], which
    resolves with a response status or rejects. *)
Record Runtime := mkRuntime {
  today : LocalDate;
  pick : nat -> Z;
  todayISO : string;
  parseDate : string -> option Z;
  toLocaleDateString : Z -> string;
  toLocaleTimeString : Z -> string;
  emailjs_send : string -> string -> TemplateParams -> Completion Z
}.

(** Property access on a possibly absent object. *)
Definition read {A} (o : option A) (prop : string) : Completion A :=
  match o with
  | Some a => Returned a
  | None => Thrown (TypeError ("Cannot read properties of undefined (reading '" ++ prop ++ "')"))
  end.

(** The inner [try] block: the three ways of finding the booking date. *)
Definition formatBookingDate (rt : Runtime) (bookingData : BookingData)
  : Completion (string * string) :=
  let* sl := read (slot bookingData) "date" in
  let bookingDate :=
    if truthy (slot_date sl) && truthy (slot_start_time sl) then
      parseDate rt (slot_date sl ++ " " ++ slot_start_time sl)
    else if truthy (slot_start_time sl) && includes (slot_start_time sl) "T" then
      parseDate rt (slot_start_time sl)
    else if truthy (slot_start_time sl) then
      parseDate rt (todayISO rt ++ "T" ++ slot_start_time sl)
    else None in
  match bookingDate with
  | Some t => Returned (toLocaleDateString rt t, toLocaleTimeString rt t)
  | None => Returned ("Date not available", "Time not available")
  end.

Definition sendBookingConfirmationEmail (env : EmailEnv) (rt : Runtime)
    (bookingData : option BookingData) : Completion EmailResult :=
  try_catch
    (if negb (truthy (EMAIL_SERVICE_ID env)) || negb (truthy (EMAIL_TEMPLATE_ID env))
        || negb (truthy (EMAIL_PUBLIC_KEY env))
     then Returned (mkEmailResult false (Some "Email service not configured") None)
     else
       let* bd := read bookingData "reference" in
       let bookingReference :=
         or_else (reference bd) (generateBookingReference (today rt) (pick rt)) in
       let* formatted :=
         try_catch (formatBookingDate rt bd)
                   (fun dateError => Returned ("Date not available", "Time not available")) in
       let* ud := read (userData bd) "name" in
       let* sl := read (slot bd) "duration" in
       let templateParams :=
         {| to_name := or_else (name ud) "Valued Customer";
            to_email := email ud;
            booking_reference := bookingReference;
            booking_date := fst formatted;
            booking_time := snd formatted;
            booking_duration :=
              if truthy (slot_duration sl) then slot_duration sl ++ " minutes"
              else "Duration not specified";
            booking_notes := or_else (notes ud) "No additional notes";
            group_id := or_else (groupId ud) "Not specified" |} in
       let* status := emailjs_send rt (EMAIL_SERVICE_ID env) (EMAIL_TEMPLATE_ID env) templateParams in
       if status =? 200 then
         Returned (mkEmailResult true None (Some bookingReference))
       else
         Thrown (mkError ("Email service returned status: " ++ toString status) ""))
    (fun error =>
       Returned (mkEmailResult false
                   (Some (or_else (message error) "Unknown error sending email")) None)).

End EmailService.

(* ===================================================================== *)
(** * src/lib/humanVerification.js *)
(* ===================================================================== *)

Module HumanVerification.
Import Js.

Record Challenge := mkChallenge {
  question : string;
  answer : string;
  timestamp : Z
}.

Record Verdict := mkVerdict { success : bool; error : option string }.

(** [verifyMathChallenge] returns the bare boolean [false] from its first
    guard and an object everywhere else. *)
Inductive MathVerdict :=
| BareFalse
| Object (v : Verdict).

Definition fiveMinutes : Z := 5 * 60 * 1000.

(** [now] is the value of [Date.now()] at the call. *)
Definition verifyMathChallenge (now : Z) (challenge : option Challenge)
    (userAnswer : string) : MathVerdict :=
  match challenge with
  | None => BareFalse
  | Some challenge =>
      if negb (truthy userAnswer) then BareFalse
      else if now - timestamp challenge >? fiveMinutes then
        Object (mkVerdict false (Some "Verification expired. Please try again."))
      else if String.eqb (trim userAnswer) (answer challenge) then
        Object (mkVerdict true None)
      else
        Object (mkVerdict false (Some "Incorrect answer. Please try again."))
  end.

Definition verifyImageChallenge (now : Z) (challenge : option Challenge)
    (userAnswer : string) : Verdict :=
  match challenge with
  | None => mkVerdict false (Some "Invalid challenge or answer")
  | Some challenge =>
      if negb (truthy userAnswer) then
        mkVerdict false (Some "Invalid challenge or answer")
      else if now - timestamp challenge >? fiveMinutes then
        mkVerdict false (Some "Verification expired. Please try again.")
      else if String.eqb (toLowerCase (trim userAnswer)) (toLowerCase (answer challenge)) then
        mkVerdict true None
      else
        mkVerdict false (Some "Incorrect answer. Please try again.")
  end.

(** [verifyChallenge]: dispatch on the wording of the question. *)
Definition verifyChallenge (now : Z) (challenge : option Challenge)
    (userAnswer : string) : MathVerdict :=
  match challenge with
  | None => Object (mkVerdict false (Some "Invalid challenge"))
  | Some c =>
      if includes (question c) "What is" then verifyMathChallenge now challenge userAnswer
      else Object (verifyImageChallenge now challenge userAnswer)
  end.

End HumanVerification.

(* ===================================================================== *)
(** * src/lib/rateLimiter.js *)
(* ===================================================================== *)

Module RateLimiter.
Import Js.

(** The value kept per identifier: [{ attempts: [...], lastReset }]. *)
Record UserAttempts := mkUserAttempts { attempts : list Z; lastReset : Z }.

(** [attemptStore] is a [Map] from identifiers to such values.  One object
    is created per identifier and never shared between two keys, so the
    in-place updates of the source are updates of the entry. *)
Abbreviation AttemptStore := (gmap string UserAttempts).

Definition RATE_LIMIT_WINDOW : Z := 60 * 60 * 1000.
Definition MAX_ATTEMPTS : Z := 5.

(** The object handed back: [{ limited: false }] without an identifier,
    the four-field status otherwise. *)
Inductive RateLimit :=
| Unidentified
| Status (limited : bool) (remainingAttempts timeUntilReset resetTime : Z).

Definition limited (r : RateLimit) : bool :=
  match r with
  | Unidentified => false
  | Status l _ _ _ => l
  end.

Definition timeUntilReset (r : RateLimit) : Z :=
  match r with
  | Unidentified => 0
  | Status _ _ t _ => t
  end.

Definition lookupAttempts (now : Z) (identifier : string) (store : AttemptStore)
  : UserAttempts :=
  match store !! identifier with
  | Some u => u
  | None => mkUserAttempts [] now
  end.

(** [now] is the value of [Date.now()] at the call. *)
Definition checkRateLimit (now : Z) (identifier : string) (store : AttemptStore)
  : RateLimit * AttemptStore :=
  if negb (truthy identifier) then (Unidentified, store)
  else
    let userAttempts := lookupAttempts now identifier store in
    let validAttempts :=
      List.filter (fun timestamp => now - timestamp <? RATE_LIMIT_WINDOW)
                  (attempts userAttempts) in
    let userAttempts :=
      if now - lastReset userAttempts >=? RATE_LIMIT_WINDOW
      then mkUserAttempts [] now
      else mkUserAttempts validAttempts (lastReset userAttempts) in
    let count := Z.of_nat (length (attempts userAttempts)) in
    let isLimited := count >=? MAX_ATTEMPTS in
    let remainingAttempts := Z.max 0 (MAX_ATTEMPTS - count) in
    let resetTime := lastReset userAttempts + RATE_LIMIT_WINDOW in
    let timeUntilReset := Z.max 0 (resetTime - now) in
    (Status isLimited remainingAttempts timeUntilReset resetTime,
     <[identifier := userAttempts]> store).

Definition recordAttempt (now : Z) (identifier : string) (store : AttemptStore)
  : AttemptStore :=
  if negb (truthy identifier) then store
  else
    let userAttempts := lookupAttempts now identifier store in
    <[identifier := mkUserAttempts (attempts userAttempts ++ [now])
                                   (lastReset userAttempts)]> store.

Definition plural (n : Z) : string := if n >? 1 then "s" else "".

Definition formatTimeUntilReset (milliseconds : Z) : string :=
  let seconds := milliseconds / 1000 in
  let minutes := seconds / 60 in
  let hours := minutes / 60 in
  if hours >? 0 then toString hours ++ " hour" ++ plural hours
  else if minutes >? 0 then toString minutes ++ " minute" ++ plural minutes
  else toString seconds ++ " second" ++ (if seconds =? 1 then "" else "s").

Definition clearRateLimit (identifier : string) (store : AttemptStore) : AttemptStore :=
  if truthy identifier then delete identifier store else store.

(** The timestamps of an identifier that fall inside the window ending at
    [now]. *)
Definition recentAttempts (now : Z) (identifier : string) (store : AttemptStore)
  : list Z :=
  match store !! identifier with
  | Some u => List.filter (fun timestamp => now - timestamp <? RATE_LIMIT_WINDOW) (attempts u)
  | None => []
  end.

End RateLimiter.

(* ===================================================================== *)
(** * src/lib/calendarUtils.js *)
(* ===================================================================== *)

Module CalendarUtils.

(** Instants are milliseconds since the epoch.  The local time zone is a
    fixed offset from UTC, in milliseconds: local = instant + offset. *)
Record Clock := mkClock { now : Z; tzOffset : Z }.

Definition msPerHour : Z := 3600000.

(** [d.setMinutes(0, 0, 0)]: minutes, seconds and milliseconds of the
    local time are cleared. *)
Definition setMinutes000 (tz : Z) (d : Z) : Z :=
  (d + tz) / msPerHour * msPerHour - tz.

(** [d.setHours(d.getHours() + 1)] *)
Definition addOneHour (d : Z) : Z := d + msPerHour.

Definition oneHourFromNow (clock : Clock) : Z :=
  let currentHour := setMinutes000 (tzOffset clock) (now clock) in
  addOneHour currentHour.

(** [startTime] is the instant [new Date(startTime)] denotes; the column
    is a NOT NULL timestamp, so a start time that does not parse is left
    out of the embedding. *)
Definition isSlotDisabled (clock : Clock) (startTime : Z) : bool :=
  let slotStart := startTime in
  slotStart <=? oneHourFromNow clock.

End CalendarUtils.

(* ===================================================================== *)
(** * The hosted backend: tables, clients, responses *)
(* ===================================================================== *)

Module Slot.
(** A row of [slots].  Timestamps are instants in milliseconds. *)
Record t := mk {
  id : string;
  start_time : Z;
  end_time : Z;
  is_available : bool
}.

Definition setAvailable (b : bool) (s : t) : t :=
  mk (id s) (start_time s) (end_time s) b.
End Slot.

Module Reservation.
(** A row of [reservations]; [slot_id] is empty when the column is null. *)
Record t := mk {
  id : string;
  slot_id : string;
  user_name : string;
  user_email : string;
  group_id : string;
  notes : string;
  reference : string;
  status : string;
  status_reason : string
}.

Definition setStatus (st reason : string) (r : t) : t :=
  mk (id r) (slot_id r) (user_name r) (user_email r) (group_id r) (notes r)
     (reference r) st reason.
End Reservation.

Module Setting.
(** A row of [settings]. *)
Record t := mk { key : string; value : string }.
End Setting.

Module Backend.
Import Js.

Record Database := mkDatabase {
  slots : list Slot.t;
  reservations : list Reservation.t;
  settings : list Setting.t
}.

(** The two credential sets: the anonymous key and the service key. *)
Inductive Client := Anon | Service.

(** Row-level security as it bears on the calls below: which slots a
    select through the anonymous key may see, and which reservations a
    delete through it may remove.  The service key bypasses both. *)
Record Policies := mkPolicies {
  anon_select_slot : Slot.t -> bool;
  anon_delete_reservation : Reservation.t -> bool
}.

Definition canSelectSlot (p : Policies) (c : Client) (s : Slot.t) : bool :=
  match c with
  | Service => true
  | Anon => anon_select_slot p s
  end.

Definition canDeleteReservation (p : Policies) (c : Client) (r : Reservation.t) : bool :=
  match c with
  | Service => true
  | Anon => anon_delete_reservation p r
  end.

(** The world a call runs in: the tables, the policies, whether
    [VITE_SUPABASE_SERVICE_KEY] is set (so that [adminSupabase] is not
    null), and the fate of the coming requests: [Some e] makes the next
    request answer with the error [e] and leave the tables alone. *)
Record World := mkWorld {
  db : Database;
  rls : Policies;
  serviceKey : bool;
  faults : list (option Error)
}.

(** [{ data, error }] as the query client resolves it. *)
Record Response (A : Type) := mkResponse { data : option A; error : option Error }.
Arguments mkResponse {A} data error.
Arguments data {A} r.
Arguments error {A} r.

Definition ok {A} (a : A) : Response A := mkResponse (Some a) None.
Definition failed {A} (e : Error) : Response A := mkResponse None (Some e).

(** Calls thread the world and may throw. *)
Definition M (A : Type) : Type := World -> Completion A * World.

Definition ret {A} (a : A) : M A := fun w => (Returned a, w).
Definition throw {A} (e : Error) : M A := fun w => (Thrown e, w).

Definition bindM {A B} (m : M A) (k : A -> M B) : M B := fun w =>
  match m w with
  | (Returned a, w') => k a w'
  | (Thrown e, w') => (Thrown e, w')
  end.

(** [try { m } catch (err) { h err }] *)
Definition catchM {A} (m : M A) (h : Error -> M A) : M A := fun w =>
  match m w with
  | (Returned a, w') => (Returned a, w')
  | (Thrown e, w') => h e w'
  end.

Declare Scope backend_scope.
Delimit Scope backend_scope with backend.
Notation "'let*' x ':=' c 'in' k" := (bindM c (fun x => k))
  (at level 10, x name, c at level 100, k at level 200) : backend_scope.

Definition getServiceKey : M bool := fun w => (Returned (serviceKey w), w).

(** The error the next request is going to answer with, if any. *)
Definition nextFault (w : World) : option Error :=
  match faults w with
  | Some e :: _ => Some e
  | _ => None
  end.

(** One request: it consumes the next fault, if any, and otherwise runs
    the query on the tables. *)
Definition request {A} (q : Policies -> Database -> Response A * Database)
  : M (Response A) := fun w =>
  match faults w with
  | Some e :: rest =>
      (Returned (failed e), mkWorld (db w) (rls w) (serviceKey w) rest)
  | None :: rest =>
      let '(r, d) := q (rls w) (db w) in
      (Returned r, mkWorld d (rls w) (serviceKey w) rest)
  | [] =>
      let '(r, d) := q (rls w) (db w) in
      (Returned r, mkWorld d (rls w) (serviceKey w) [])
  end.

(** [.single()]: exactly one row, or the error PGRST116. *)
Definition single {A} (rows : list A) : Response A :=
  match rows with
  | [row] => ok row
  | _ => failed (mkError "JSON object requested, multiple (or no) rows returned" "PGRST116")
  end.

(** [.order('start_time')] *)
Fixpoint insertByStart (s : Slot.t) (l : list Slot.t) : list Slot.t :=
  match l with
  | [] => [s]
  | x :: r =>
      if Slot.start_time s <=? Slot.start_time x then s :: l
      else x :: insertByStart s r
  end.

Fixpoint orderByStart (l : list Slot.t) : list Slot.t :=
  match l with
  | [] => []
  | x :: r => insertByStart x (orderByStart r)
  end.

(** A select of all columns of [slots], with the filters of the query
    as a predicate. *)
Definition selectSlots (c : Client) (where_ : Slot.t -> bool)
  : Policies -> Database -> list Slot.t :=
  fun p d => List.filter (fun s => canSelectSlot p c s && where_ s) (slots d).

(** [from('slots').update({ is_available: b }).eq('id', slotId)] through
    the service key. *)
Definition updateSlotAvailability (slotId : string) (b : bool) (d : Database) : Database :=
  mkDatabase
    (List.map (fun s => if String.eqb (Slot.id s) slotId then Slot.setAvailable b s else s)
              (slots d))
    (reservations d) (settings d).

(** The order that [.order('start_time')] establishes. *)
Definition startsBefore (a b : Slot.t) : Prop := Slot.start_time a <= Slot.start_time b.

Definition slotOf (d : Database) (slotId : string) : option Slot.t :=
  List.find (fun s => String.eqb (Slot.id s) slotId) (slots d).

End Backend.

(* ===================================================================== *)
(** * src/lib/supabase.js and the reservation helper of src/lib/userService.js *)
(* ===================================================================== *)

Module Supabase.
Import Js Backend.
Local Open Scope backend_scope.

Definition inRange (startDate endDate : Z) (s : Slot.t) : bool :=
  (startDate <=? Slot.start_time s) && (Slot.end_time s <=? endDate).

(** The query of [getAvailableSlots], through either client: all columns,
    [.gte('start_time', startDate).lte('end_time', endDate)
     .order('start_time')]. *)
Definition querySlotsInRange (c : Client) (startDate endDate : Z)
  : M (Response (list Slot.t)) :=
  request (fun p d =>
    (ok (orderByStart (selectSlots c (inRange startDate endDate) p d)), d)).

Definition getAvailableSlots (startDate endDate : Z) : M (option (list Slot.t)) :=
  catchM
    (let* r := querySlotsInRange Anon startDate endDate in
     match error r with
     | Some error =>
         let* admin := getServiceKey in
         if String.eqb (code error) "42501" && admin then
           let* ra := querySlotsInRange Service startDate endDate in
           match Backend.error ra with
           | Some adminError => throw adminError
           | None => ret (data ra)
           end
         else throw error
     | None => ret (data r)
     end)
    (fun err => throw err).

(** [.select('is_available').eq('id', slotId).single()] *)
Definition queryIsAvailable (c : Client) (slotId : string) : M (Response bool) :=
  request (fun p d =>
    (single (List.map Slot.is_available
               (selectSlots c (fun s => String.eqb (Slot.id s) slotId) p d)), d)).

(** Reading [x.is_available] off the [data] of a response. *)
Definition readIsAvailable (r : Response bool) : M bool :=
  match data r with
  | Some b => ret b
  | None => throw (TypeError "Cannot read properties of null (reading 'is_available')")
  end.

Definition verifySlotAvailability (slotId : string) : M bool :=
  catchM
    (let* r := queryIsAvailable Anon slotId in
     match error r with
     | Some error =>
         let* admin := getServiceKey in
         if String.eqb (code error) "42501" && admin then
           let* ra := queryIsAvailable Service slotId in
           match Backend.error ra with
           | Some adminError => throw adminError
           | None => readIsAvailable ra
           end
         else throw error
     | None => readIsAvailable r
     end)
    (fun err => throw err).

(** [now] and [futureDate] are [new Date()] and the same date one month
    later. *)
Definition getClosestAvailableSlot (now futureDate : Z) : M (option Slot.t) :=
  let* r := request (fun p d =>
         (ok (firstn 1 (orderByStart
                (selectSlots Anon
                   (fun s => (now <=? Slot.start_time s) && (Slot.start_time s <=? futureDate)
                             && Bool.eqb (Slot.is_available s) true) p d))), d)) in
  match error r with
  | Some error => throw error
  | None =>
      match data r with
      | Some (s :: _) => ret (Some s)
      | _ => ret None
      end
  end.

Definition resetSlotAvailability (slotId : string) : M (option Slot.t) :=
  let* admin := getServiceKey in
  if negb admin then
    throw (mkError "Admin access is required to reset slot availability. Service key not configured." "")
  else
    let* r := request (fun p d =>
           let d' := updateSlotAvailability slotId true d in
           (ok (List.filter (fun s => String.eqb (Slot.id s) slotId) (slots d')), d')) in
    match error r with
    | Some error => throw error
    | None =>
        match data r with
        | Some rows => ret (head rows)
        | None => throw (TypeError "Cannot read properties of null (reading '0')")
        end
    end.

(** A reservation with the row of its slot embedded, as the select with
    the embedded [slots] resource returns it. *)
Definition Joined : Type := Reservation.t * option Slot.t.

Definition join (d : Database) (r : Reservation.t) : Joined :=
  (r, slotOf d (Reservation.slot_id r)).

Definition hasId (reservationId : string) (r : Reservation.t) : bool :=
  String.eqb (Reservation.id r) reservationId.

Definition updateReservationStatus (reservationId status reason : string)
  : M (option Joined) :=
  let* admin := getServiceKey in
  if negb admin then
    throw (mkError "Admin access is required to update reservation status. Service key not configured." "")
  else
    catchM
      (let* r := request (fun p d =>
              let d' := mkDatabase (slots d)
                          (List.map (fun x => if hasId reservationId x
                                              then Reservation.setStatus status reason x
                                              else x) (reservations d))
                          (settings d) in
              (ok (List.map (join d') (List.filter (hasId reservationId) (reservations d'))),
               d')) in
       match error r with
       | Some error => throw error
       | None =>
           match data r with
           | Some rows => ret (head rows)
           | None => throw (TypeError "Cannot read properties of null (reading '0')")
           end
       end)
      (fun err => throw err).

Definition deleteReservation (reservationId : string) : M Joined :=
  let* admin := getServiceKey in
  if negb admin then
    throw (mkError "Admin access is required to delete reservations. Service key not configured." "")
  else
    catchM
      (let* fetched := request (fun p d =>
                    (single (List.map (join d)
                               (List.filter (hasId reservationId) (reservations d))), d)) in
       match error fetched with
       | Some fetchError => throw fetchError
       | None =>
           let* deleted := request (fun p d =>
                        (ok tt,
                         mkDatabase (slots d)
                           (List.filter (fun x => negb (hasId reservationId x)) (reservations d))
                           (settings d))) in
           match error deleted with
           | Some deleteError => throw deleteError
           | None =>
               match data fetched with
               | None => throw (TypeError "Cannot read properties of null (reading 'slot_id')")
               | Some reservation =>
                   if truthy (Reservation.slot_id (fst reservation)) then
                     let* reset := resetSlotAvailability (Reservation.slot_id (fst reservation)) in
                     ret reservation
                   else ret reservation
               end
           end
       end)
      (fun err => throw err).

(** ** src/lib/userService.js: the user's own cancellation *)

Record CancelResult := mkCancelResult { success : bool; cancel_error : option string }.

Definition cancelReservation (reservationId : string) : M CancelResult :=
  catchM
    (let* r := request (fun p d =>
            (ok tt,
             mkDatabase (slots d)
               (List.filter (fun x => negb (hasId reservationId x
                                            && canDeleteReservation p Anon x))
                            (reservations d))
               (settings d))) in
     match error r with
     | Some error => ret (mkCancelResult false (Some (message error)))
     | None => ret (mkCancelResult true None)
     end)
    (fun error => ret (mkCancelResult false (Some (message error)))).

End Supabase.

(* ===================================================================== *)
(** * src/lib/auth.js *)
(* ===================================================================== *)

Module Auth.
Import Js Backend.
Local Open Scope backend_scope.

(** [import.meta.env.VITE_JWT_SECRET || 'admin-secret-key'] *)
Definition JWT_SECRET (VITE_JWT_SECRET : string) : string :=
  or_else VITE_JWT_SECRET "admin-secret-key".

Definition TOKEN_KEY : string := "admin_token".
Definition ADMIN_PASSWORD_KEY : string := "admin_password_hash".

(** The password is the one string whose code units the code reads as
    numbers ([charCodeAt]); it is given by the list of its code units, so
    that every JavaScript string is covered. *)
Abbreviation Password := (list Z).

(** One iteration of the loop of [hashPassword], [char] being
    [password.charCodeAt(i)]:
    [hash = ((hash << 5) - hash) + char; hash = hash & hash]. *)
Definition hashStep (hash : Z) (char : Z) : Z :=
  let hash := (shl hash 5 - hash) + char in
  band hash hash.

Definition rollingHash (password : Password) : Z :=
  fold_left hashStep password 0.

Definition hashPassword (password : Password) : string :=
  toString16 (rollingHash password).

(** A signed token, by what went into it: the payload, the protected
    header, the issue and expiration times (seconds) and the key. *)
Record Jwt := mkJwt {
  role : string;
  alg : string;
  iat : Z;
  exp : Z;
  signedWith : string
}.

(** [new jose.SignJWT({ role }).setProtectedHeader({ alg: 'HS256' })
     .setIssuedAt().setExpirationTime(span).sign(secret)], with the span
    in seconds; [nowMs] is the clock in milliseconds. *)
Definition signJWT (nowMs : Z) (role secret : string) (spanSeconds : Z) : Jwt :=
  let issued := nowMs / 1000 in
  mkJwt role "HS256" issued (issued + spanSeconds) secret.

Definition oneHour : Z := 60 * 60.

Abbreviation LocalStorage := (gmap string Jwt).

Record LoginResult := mkLoginResult {
  success : bool;
  token : option Jwt;
  message : option string
}.

Definition failure (msg : string) : LoginResult := mkLoginResult false None (Some msg).

(** [.from('settings').select('value').eq('key', ADMIN_PASSWORD_KEY).single()]
    through the service key. *)
Definition queryPasswordHash : M (Response string) :=
  request (fun p d =>
    (single (List.map Setting.value
               (List.filter (fun r => String.eqb (Setting.key r) ADMIN_PASSWORD_KEY)
                            (settings d))), d)).

Definition loginAdmin (secretEnv : string) (nowMs : Z) (password : Password)
    (storage : LocalStorage) : M (LoginResult * LocalStorage) :=
  catchM
    (let* admin := getServiceKey in
     if negb admin then ret (failure "Admin access not available", storage)
     else
       let* r := queryPasswordHash in
       match error r with
       | Some error => ret (failure "Error retrieving admin credentials", storage)
       | None =>
           match data r with
           | None => ret (failure "Admin account not set up", storage)
           | Some value =>
               if negb (truthy value) then ret (failure "Admin account not set up", storage)
               else
                 let storedHash := value in
                 let hashedPassword := hashPassword password in
                 if String.eqb hashedPassword storedHash then
                   let secret := JWT_SECRET secretEnv in
                   let token := signJWT nowMs "admin" secret oneHour in
                   ret (mkLoginResult true (Some token) None,
                        <[TOKEN_KEY := token]> storage)
                 else ret (failure "Invalid password", storage)
           end
       end)
    (fun err => ret (failure "Authentication error", storage)).

End Auth.

(* ===================================================================== *)
(** * src/lib/validationUtils.js *)
(* ===================================================================== *)

Module Validation.
Import Js.

Record Result := mkResult { success : bool; error : string; field : string }.

Definition valid : Result := mkResult true "" "".
Definition invalid (error field : string) : Result := mkResult false error field.

Definition all (p : ascii -> bool) (s : string) : bool :=
  forallb p (list_ascii_of_string s).

Definition isAt (c : ascii) : bool := Ascii.eqb c "@".
Definition isDot (c : ascii) : bool := Ascii.eqb c ".".

(** The class [[^\s@]]. *)
Definition notSpaceNorAt (c : ascii) : bool := negb (isWhiteSpace c) && negb (isAt c).

Fixpoint beforeAt (s : string) : string :=
  match s with
  | EmptyString => EmptyString
  | String c r => if isAt c then EmptyString else String c (beforeAt r)
  end.

(** What follows the first [@], if there is one. *)
Fixpoint afterAt (s : string) : option string :=
  match s with
  | EmptyString => None
  | String c r => if isAt c then Some r else afterAt r
  end.

(** A dot with at least one character on either side. *)
Fixpoint hasInnerDot (s : string) : bool :=
  match s with
  | String _ ((String c (String _ _)) as r) => isDot c || hasInnerDot r
  | _ => false
  end.

(** [/^[^\s@]+@[^\s@]+\.[^\s@]+$/.test(email)]: one [@], no white space,
    a non-empty local part, and a dot inside what follows the [@]. *)
Definition emailRegex_test (email : string) : bool :=
  match afterAt email with
  | None => false
  | Some domain =>
      let l := beforeAt email in
      truthy l && all notSpaceNorAt l && all notSpaceNorAt domain && hasInnerDot domain
  end.

Definition isLetter (c : ascii) : bool :=
  let n := nat_of_ascii c in
  ((65 <=? n)%nat && (n <=? 90)%nat) || ((97 <=? n)%nat && (n <=? 122)%nat).

Definition isDigit (c : ascii) : bool :=
  let n := nat_of_ascii c in (48 <=? n)%nat && (n <=? 57)%nat.

(** [/^[a-zA-Z\s'-]+$/.test(name)] *)
Definition nameRegex_test (name : string) : bool :=
  truthy name &&
  all (fun c => isLetter c || isWhiteSpace c || Ascii.eqb c "'" || Ascii.eqb c "-") name.

(** [/^[a-zA-Z0-9_-]+$/.test(groupId)] *)
Definition groupIdRegex_test (groupId : string) : bool :=
  truthy groupId &&
  all (fun c => isLetter c || isDigit c || Ascii.eqb c "_" || Ascii.eqb c "-") groupId.

Definition blank (s : string) : bool := negb (truthy s) || String.eqb (trim s) "".

Definition validateEmail (email : string) : Result :=
  if blank email then invalid "Email is required" "email"
  else if negb (emailRegex_test email) then
    invalid "Please enter a valid email address" "email"
  else valid.

Definition validateName (name : string) : Result :=
  if blank name then invalid "Name is required" "name"
  else if (String.length (trim name) <? 2)%nat then
    invalid "Name must be at least 2 characters" "name"
  else if negb (nameRegex_test name) then
    invalid "Name contains invalid characters" "name"
  else valid.

Definition validateGroupId (groupId : string) : Result :=
  if blank groupId then valid
  else if negb (groupIdRegex_test groupId) then
    invalid "Group ID contains invalid characters" "groupId"
  else valid.

Definition validateNotes (notes : string) : Result :=
  if blank notes then valid
  else if (500 <? String.length notes)%nat then
    invalid "Notes must be less than 500 characters" "notes"
  else valid.

Definition validateBookingForm (formData : EmailService.UserData) : Result :=
  let emailValidation := validateEmail (EmailService.email formData) in
  if negb (success emailValidation) then emailValidation
  else
    let nameValidation := validateName (EmailService.name formData) in
    if negb (success nameValidation) then nameValidation
    else
      let groupIdValidation := validateGroupId (EmailService.groupId formData) in
      if negb (success groupIdValidation) then groupIdValidation
      else
        let notesValidation := validateNotes (EmailService.notes formData) in
        if negb (success notesValidation) then notesValidation
        else valid.

End Validation.

(* ===================================================================== *)
(** * src/pages/BookingPage.jsx *)
(* ===================================================================== *)

Module BookingPage.
Import Js.

Abbreviation FormData := EmailService.UserData.

(** [{ success, count }] as [getUserReservationCount] resolves it. *)
Record ReservationCount := mkReservationCount { count_success : bool; count : Z }.

(** [{ success, error }] as [registerUser] resolves it. *)
Record Registration := mkRegistration { reg_success : bool; reg_error : string }.

Record ConfirmedBooking := mkConfirmedBooking {
  cb_slot : Slot.t;
  cb_userData : FormData;
  cb_reference : string
}.

(** The component state (the [useState] cells). *)
Record State := mkState {
  selectedSlot : option Slot.t;
  formData : FormData;
  formErrors : gmap string string;
  submitting : bool;
  submitError : option string;
  submitSuccess : bool;
  confirmedBooking : option ConfirmedBooking;
  isQuickLoading : bool;
  isHumanVerified : bool;
  rateLimitInfo : option RateLimiter.RateLimit;
  userReservationCount : option ReservationCount
}.

Definition setSelectedSlot (v : option Slot.t) (s : State) : State :=
  mkState v (formData s) (formErrors s) (submitting s) (submitError s) (submitSuccess s)
          (confirmedBooking s) (isQuickLoading s) (isHumanVerified s) (rateLimitInfo s)
          (userReservationCount s).
Definition setFormErrors (v : gmap string string) (s : State) : State :=
  mkState (selectedSlot s) (formData s) v (submitting s) (submitError s) (submitSuccess s)
          (confirmedBooking s) (isQuickLoading s) (isHumanVerified s) (rateLimitInfo s)
          (userReservationCount s).
Definition setSubmitting (v : bool) (s : State) : State :=
  mkState (selectedSlot s) (formData s) (formErrors s) v (submitError s) (submitSuccess s)
          (confirmedBooking s) (isQuickLoading s) (isHumanVerified s) (rateLimitInfo s)
          (userReservationCount s).
Definition setSubmitError (v : option string) (s : State) : State :=
  mkState (selectedSlot s) (formData s) (formErrors s) (submitting s) v (submitSuccess s)
          (confirmedBooking s) (isQuickLoading s) (isHumanVerified s) (rateLimitInfo s)
          (userReservationCount s).
Definition setSubmitSuccess (v : bool) (s : State) : State :=
  mkState (selectedSlot s) (formData s) (formErrors s) (submitting s) (submitError s) v
          (confirmedBooking s) (isQuickLoading s) (isHumanVerified s) (rateLimitInfo s)
          (userReservationCount s).
Definition setConfirmedBooking (v : option ConfirmedBooking) (s : State) : State :=
  mkState (selectedSlot s) (formData s) (formErrors s) (submitting s) (submitError s)
          (submitSuccess s) v (isQuickLoading s) (isHumanVerified s) (rateLimitInfo s)
          (userReservationCount s).
Definition setIsQuickLoading (v : bool) (s : State) : State :=
  mkState (selectedSlot s) (formData s) (formErrors s) (submitting s) (submitError s)
          (submitSuccess s) (confirmedBooking s) v (isHumanVerified s) (rateLimitInfo s)
          (userReservationCount s).
Definition setRateLimitInfo (v : option RateLimiter.RateLimit) (s : State) : State :=
  mkState (selectedSlot s) (formData s) (formErrors s) (submitting s) (submitError s)
          (submitSuccess s) (confirmedBooking s) (isQuickLoading s) (isHumanVerified s) v
          (userReservationCount s).
Definition setUserReservationCount (v : option ReservationCount) (s : State) : State :=
  mkState (selectedSlot s) (formData s) (formErrors s) (submitting s) (submitError s)
          (submitSuccess s) (confirmedBooking s) (isQuickLoading s) (isHumanVerified s)
          (rateLimitInfo s) v.

(** The calls a handler makes to the other modules and to the router, in
    the order it makes them. *)
Inductive Call :=
| GetUserReservationCount (email : string)
| VerifySlotAvailability (slotId : string)
| RegisterUser (name email groupId : string)
| CreateReservation (slotId : string) (formData : FormData)
| SendBookingConfirmationEmail (userData : FormData) (slot : Slot.t) (reference : string)
| Navigate (path : string)
| RemoveQuickBookSlot.

(** What the awaited calls of [handleSubmit] resolve to, and the clock
    readings of the rate limiter. *)
Record Env := mkEnv {
  nowAtCheck : Z;
  nowAtRecord : Z;
  reservationCount : Completion ReservationCount;
  slotAvailability : Completion bool;
  registration : Completion Registration;
  reservation : Completion Reservation.t
}.

(** The calls that register the user or create a reservation. *)
Definition registersOrCreates (c : Call) : bool :=
  match c with
  | RegisterUser _ _ _ | CreateReservation _ _ => true
  | _ => false
  end.

(** What a run of a handler leaves behind. *)
Record Run := mkRun {
  state : State;
  store : RateLimiter.AttemptStore;
  calls : list Call
}.

(** The [catch] block of [handleSubmit]. *)
Definition onBookingError (err : Error) (st : State) : State :=
  if truthy (message err) && includes (message err) "Service key not configured" then
    setSubmitError (Some "Admin permissions required. Please add a service key in your .env.local file to complete bookings.") st
  else if String.eqb (code err) "42501" then
    setSubmitError (Some "Permission denied. The application lacks necessary database permissions for completing bookings.") st
  else
    setSubmitError
      (Some (or_else (message err) "There was an error creating your booking. Please try again.")) st.

(** A completed [try] statement: the [catch] block runs on a throw, the
    [finally] block always. *)
Definition settle (c : Completion unit) (r : Run) : Run :=
  let st := match c with
            | Returned _ => state r
            | Thrown err => onBookingError err (state r)
            end in
  mkRun (setSubmitting false st) (store r) (calls r).

(** From the availability check to the end of the [try] block.  [closure]
    holds the values of the state cells the handler was created with;
    [st] collects the updates. *)
Definition submitFromVerification (env : Env) (closure : State)
    (store : RateLimiter.AttemptStore) (trace : list Call) (st : State)
  : Completion unit * Run :=
  match selectedSlot closure with
  | None =>
      (Thrown (TypeError "Cannot read properties of null (reading 'id')"),
       mkRun st store trace)
  | Some slot =>
      let trace := (trace ++ [VerifySlotAvailability (Slot.id slot)])%list in
      match slotAvailability env with
      | Thrown err => (Thrown err, mkRun st store trace)
      | Returned isAvailable =>
          if negb isAvailable then
            (Returned tt,
             mkRun (setSubmitting false
                      (setSelectedSlot None
                         (setSubmitError (Some "This slot has just been booked by someone else. Please select another time slot.") st)))
                   store trace)
          else
            let form := formData closure in
            let store :=
              if truthy (EmailService.email form)
              then RateLimiter.recordAttempt (nowAtRecord env) (EmailService.email form) store
              else store in
            let trace := (trace ++ [RegisterUser (EmailService.name form)
                                      (EmailService.email form) (EmailService.groupId form)])%list in
            match registration env with
            | Thrown err => (Thrown err, mkRun st store trace)
            | Returned registrationResult =>
                if negb (reg_success registrationResult) then
                  (Thrown (mkError (or_else (reg_error registrationResult)
                                            "Failed to register user") ""),
                   mkRun st store trace)
                else
                  let trace := (trace ++ [CreateReservation (Slot.id slot) form])%list in
                  match reservation env with
                  | Thrown err => (Thrown err, mkRun st store trace)
                  | Returned reservationData =>
                      let reference := Reservation.reference reservationData in
                      let trace := (trace ++ [SendBookingConfirmationEmail form slot reference])%list in
                      (Returned tt,
                       mkRun (setSubmitSuccess true
                                (setConfirmedBooking
                                   (Some (mkConfirmedBooking slot form reference)) st))
                             store trace)
                  end
            end
      end
  end.

(** The [try] block of [handleSubmit]. *)
Definition submitBody (env : Env) (closure : State)
    (store : RateLimiter.AttemptStore) (st : State) : Completion unit * Run :=
  let form := formData closure in
  let validation := Validation.validateBookingForm form in
  if negb (Validation.success validation) then
    (Returned tt,
     mkRun (setSubmitting false
              (setFormErrors {[ Validation.field validation := Validation.error validation ]}
                 (setSubmitError (Some (Validation.error validation)) st)))
           store [])
  else if negb (isHumanVerified closure) then
    (Returned tt,
     mkRun (setSubmitting false
              (setSubmitError (Some "Please complete the human verification challenge before booking.") st))
           store [])
  else if truthy (EmailService.email form) then
    let '(rateLimit, store) :=
      RateLimiter.checkRateLimit (nowAtCheck env) (EmailService.email form) store in
    let st := setRateLimitInfo (Some rateLimit) st in
    if RateLimiter.limited rateLimit then
      let resetTime := RateLimiter.formatTimeUntilReset (RateLimiter.timeUntilReset rateLimit) in
      (Returned tt,
       mkRun (setSubmitting false
                (setSubmitError
                   (Some ("You've reached the maximum number of booking attempts. Please try again in "
                          ++ resetTime ++ ".")) st))
             store [])
    else
      let trace := [GetUserReservationCount (EmailService.email form)] in
      match reservationCount env with
      | Thrown err => (Thrown err, mkRun st store trace)
      | Returned reservationCount =>
          let st := setUserReservationCount (Some reservationCount) st in
          if count_success reservationCount && (count reservationCount >=? 1) then
            (Returned tt,
             mkRun (setSubmitting false
                      (setSubmitError (Some "You already have an active reservation. Please cancel your existing reservation before making a new one. You can manage your reservations in your profile page.") st))
                   store trace)
          else submitFromVerification env closure store trace st
      end
  else submitFromVerification env closure store [] st.

(** [handleSubmit]: the handler reads the state cells of its closure and
    issues updates; [Run] gives the state once they are applied. *)
Definition handleSubmit (env : Env) (store : RateLimiter.AttemptStore) (closure : State) : Run :=
  let st := setFormErrors ∅ (setSubmitError None (setSubmitting true closure)) in
  let '(completion, run) := submitBody env closure store st in
  settle completion run.


(** [handleSlotSelect]; [hasQuick] is [searchParams.has('quick')] and
    [availability] what [verifySlotAvailability] settles to. *)
Definition handleSlotSelect (clock : CalendarUtils.Clock) (hasQuick : bool)
    (availability : Completion bool) (slot : option Slot.t) (st : State)
  : State * list Call :=
  match slot with
  | None => (st, [])
  | Some slot =>
      if negb (truthy (Slot.id slot)) then (st, [])
      else if CalendarUtils.isSlotDisabled clock (Slot.start_time slot) then
        (setSubmitError (Some "Cannot select a slot in the past or within the next hour. Please select a future time slot.") st, [])
      else
        let trace := ((if hasQuick then [Navigate "/book"] else [])
                      ++ [VerifySlotAvailability (Slot.id slot)])%list in
        match availability with
        | Returned isAvailable =>
            if isAvailable
            then (setSubmitError None (setSelectedSlot (Some slot) st), trace)
            else (setSubmitError (Some "This slot is no longer available. Please select another time slot.") st, trace)
        | Thrown err =>
            (setSubmitError (Some "Error verifying slot availability. Please try again.") st, trace)
        end
  end.

(** The effect that runs on [searchParams]: with [quick=true] it picks up
    the slot that the quick-book button left in the session storage.
    [isQuickBook] is [searchParams.get('quick') === 'true'], [storedSlot]
    the parsed item. *)
Definition quickBookEffect (isQuickBook : bool) (storedSlot : option Slot.t)
    (availability : Completion bool) (st : State) : State * list Call :=
  if isQuickBook then
    let st := setIsQuickLoading true st in
    match storedSlot with
    | Some slot =>
        let trace := [RemoveQuickBookSlot; VerifySlotAvailability (Slot.id slot)] in
        match availability with
        | Returned isAvailable =>
            let st := if isAvailable then setSelectedSlot (Some slot) st
                      else setSubmitError (Some "The slot is no longer available. Please select another time slot.") st in
            (setIsQuickLoading false st, trace)
        | Thrown err =>
            (setIsQuickLoading false
               (setSubmitError (Some "Error verifying slot availability. Please try again.") st),
             trace)
        end
    | None => (setIsQuickLoading false st, [])
    end
  else (st, []).

End BookingPage.

(* ===================================================================== *)
(** * src/lib/humanVerification.js: generating challenges;
      src/components/HumanVerification.jsx: submitting an answer *)
(* ===================================================================== *)

Module Challenges.
Import Js HumanVerification.

(** [generateMathChallenge]; [r1] and [r2] are the two values of
    [Math.floor(Math.random() * 10)], which lie in 0..9, and [now] is
    [Date.now()]. *)
Definition generateMathChallenge (r1 r2 : Z) (now : Z) : Challenge :=
  let num1 := r1 + 1 in
  let num2 := r2 + 1 in
  mkChallenge ("What is " ++ toString num1 ++ " + " ++ toString num2 ++ "?")
              (toString (num1 + num2))
              now.

(** The table of [generateImageChallenge].  The shapes in the questions
    take three [ascii] each here (their UTF-8 bytes) instead of one code
    unit; the questions are only ever searched for the ASCII text
    'What is'. *)
Definition challenges : list (string * string) :=
  [ ("Select the number of circles in this image: ○○○", "3");
    ("Select the number of squares in this image: □□", "2");
    ("Select the number of triangles in this image: △△△△", "4");
    ("What shape is this? ○", "circle");
    ("What shape is this? □", "square");
    ("What shape is this? △", "triangle") ].

(** [generateImageChallenge]; [randomIndex] is
    [Math.floor(Math.random() * challenges.length)], in 0..5.  Outside the
    table the spread of [undefined] leaves the timestamp alone. *)
Definition generateImageChallenge (randomIndex : Z) (now : Z) : Challenge :=
  match (if randomIndex <? 0 then None else nth_error challenges (Z.to_nat randomIndex)) with
  | Some (q, a) => mkChallenge q a now
  | None => mkChallenge "" "" now
  end.

(** [getRandomChallenge]; [useMathChallenge] is [Math.random() > 0.5]. *)
Definition getRandomChallenge (useMathChallenge : bool) (r1 r2 randomIndex : Z) (now : Z)
  : Challenge :=
  if useMathChallenge then generateMathChallenge r1 r2 now
  else generateImageChallenge randomIndex now.

(** The [success] and [error] members of what [verifyChallenge] returned,
    read off the bare boolean as off an object. *)
Definition resultSuccess (r : MathVerdict) : bool :=
  match r with
  | BareFalse => false
  | Object v => success v
  end.

Definition resultError (r : MathVerdict) : option string :=
  match r with
  | BareFalse => None
  | Object v => error v
  end.

(** The state of the component and what it tells its parent through
    [onVerificationComplete]. *)
Record Widget := mkWidget {
  challenge : option Challenge;
  w_answer : string;
  w_error : string;
  isVerified : bool
}.

Record Completed := mkCompleted { c_success : bool; c_error : option string }.

(** [handleSubmit] of the component; [fresh] is the challenge that
    [getRandomChallenge] hands out if a new one is needed. *)
Definition widgetSubmit (now : Z) (fresh : Challenge) (w : Widget)
  : Widget * option Completed :=
  if negb (truthy (trim (w_answer w))) then
    (mkWidget (challenge w) (w_answer w) "Please provide an answer" (isVerified w), None)
  else
    let result := verifyChallenge now (challenge w) (w_answer w) in
    if resultSuccess result then
      (mkWidget (challenge w) (w_answer w) "" true, Some (mkCompleted true None))
    else
      (mkWidget (Some fresh) "" "" false,
       Some (mkCompleted false (resultError result))).

(** The booking page's [onVerificationComplete]:
    [setIsHumanVerified(result.success)]. *)
Definition onVerificationComplete (c : option Completed) (isHumanVerified : bool) : bool :=
  match c with
  | Some c => c_success c
  | None => isHumanVerified
  end.

End Challenges.

(* ===================================================================== *)
(** * src/lib/supabase.js: creating reservations, counting slots *)
(* ===================================================================== *)

Module SupabaseRest.
Import Js Backend Supabase.
Local Open Scope backend_scope.

(** The row that [createReservation] sends.  [rowId] is the id that the
    table assigns to the new row ([uuid_generate_v4()]). *)
Definition reservationRow (rowId slotId : string) (userData : EmailService.UserData)
    (bookingReference : string) : Reservation.t :=
  Reservation.mk rowId slotId (EmailService.name userData) (EmailService.email userData)
                 (EmailService.groupId userData) (EmailService.notes userData)
                 bookingReference "confirmed" "".

(** An insert into [reservations] followed by a select of the new row with
    its slot.  A violated constraint or a trigger that raises is an error
    of the request, that is, a fault of the world. *)
Definition insertReservation (row : Reservation.t)
  : Policies -> Database -> Response (list Joined) * Database :=
  fun p d =>
    let d' := mkDatabase (slots d) (reservations d ++ [row])%list (settings d) in
    (ok [join d' row], d').

(** [createReservation] (the version that sits with
    [updateReservationStatus] and [deleteReservation]); [today] and [pick]
    are the clock and the random picks of [generateBookingReference]. *)
Definition createReservation (rowId : string) (today : EmailService.LocalDate)
    (pick : nat -> Z) (slotId : string) (userData : EmailService.UserData) : M Joined :=
  let* admin := getServiceKey in
  if negb admin then
    throw (mkError "Admin access is required to complete reservations. Service key not configured." "")
  else
    let bookingReference := EmailService.generateBookingReference today pick in
    let reservationData := reservationRow rowId slotId userData bookingReference in
    catchM
      (let* r := request (insertReservation reservationData) in
       match error r with
       | Some error => throw error
       | None =>
           match data r with
           | None => throw (TypeError "Cannot read properties of null (reading '0')")
           | Some rows =>
               let* u := request (fun p d => (ok tt, updateSlotAvailability slotId false d)) in
               match error u with
               | Some updateError => throw updateError
               | None =>
                   match head rows with
                   | None =>
                       throw (TypeError "Cannot read properties of undefined (reading 'reference')")
                   | Some reservation =>
                       if negb (truthy (Reservation.reference (fst reservation))) then
                         ret (Reservation.mk
                                (Reservation.id (fst reservation))
                                (Reservation.slot_id (fst reservation))
                                (Reservation.user_name (fst reservation))
                                (Reservation.user_email (fst reservation))
                                (Reservation.group_id (fst reservation))
                                (Reservation.notes (fst reservation))
                                bookingReference
                                (Reservation.status (fst reservation))
                                (Reservation.status_reason (fst reservation)),
                              snd reservation)
                       else ret reservation
                   end
               end
           end
       end)
      (fun err => throw err).

(** The filters of [checkSlotsExist] and of [getClosestAvailableSlot]. *)
Definition upcomingAvailable (now : Z) (s : Slot.t) : bool :=
  (now <=? Slot.start_time s) && Bool.eqb (Slot.is_available s) true.

(** [checkSlotsExist]: an exact count through the anonymous key. *)
Definition checkSlotsExist (now : Z) : M bool :=
  let* r := request (fun p d =>
              (ok (Z.of_nat (length (selectSlots Anon (upcomingAvailable now) p d))), d)) in
  match error r with
  | Some error => throw error
  | None =>
      match data r with
      | Some count => ret (count >? 0)
      | None => ret false
      end
  end.

End SupabaseRest.

(* ===================================================================== *)
(** * src/lib/userService.js: registering the visitor *)
(* ===================================================================== *)

Module UserService.
Import Js Backend.
Local Open Scope backend_scope.

(** [registerUser].  The table of users is not part of the tables kept
    here: [lookupAndStore] stands for what the function does once it has
    found the admin client (the select on [users], the update or the
    insert, the token), within the same [try] block.  Whatever is thrown
    in the block ends as a failure that carries the message of the
    error. *)
Definition registerUser (lookupAndStore : M BookingPage.Registration)
  : M BookingPage.Registration :=
  catchM
    (let* admin := getServiceKey in
     if negb admin then
       throw (mkError "Admin access is required to register users. Service key not configured." "")
     else lookupAndStore)
    (fun error => ret (BookingPage.mkRegistration false (message error))).

End UserService.

(* ===================================================================== *)
(** * src/lib/auth.js: setting the password up, the session *)
(* ===================================================================== *)

Module AuthSession.
Import Js Backend Auth.
Local Open Scope backend_scope.

(** [isFirstTimeSetup]: every failure counts as a first-time setup. *)
Definition isFirstTimeSetup : M bool :=
  catchM
    (let* admin := getServiceKey in
     if negb admin then ret true
     else
       let* r := queryPasswordHash in
       match error r with
       | Some error => ret true
       | None =>
           match data r with
           | None => ret true
           | Some value => ret (negb (truthy value))
           end
       end)
    (fun err => ret true).

(** [.from('settings').update({ value }).eq('key', ADMIN_PASSWORD_KEY)]
    through the service key. *)
Definition storePasswordHash (hashedPassword : string) (d : Database) : Database :=
  mkDatabase (slots d) (reservations d)
    (List.map (fun r => if String.eqb (Setting.key r) ADMIN_PASSWORD_KEY
                        then Setting.mk (Setting.key r) hashedPassword
                        else r)
              (settings d)).

Definition setupAdminPassword (password : Password) : M bool :=
  catchM
    (let* admin := getServiceKey in
     if negb admin then ret false
     else
       let hashedPassword := hashPassword password in
       let* r := request (fun p d => (ok tt, storePasswordHash hashedPassword d)) in
       match error r with
       | Some error => ret false
       | None => ret true
       end)
    (fun err => ret false).

Definition logoutAdmin (storage : LocalStorage) : LocalStorage := delete TOKEN_KEY storage.

Definition getAuthToken (storage : LocalStorage) : option Jwt := storage !! TOKEN_KEY.

(** [jose.jwtVerify(token, secret)] resolves when the token was signed
    with [secret] and its [exp] lies after the clock, in seconds; it
    rejects otherwise. *)
Definition jwtVerify (nowMs : Z) (token : Jwt) (secret : string) : bool :=
  String.eqb (signedWith token) secret && (nowMs / 1000 <? exp token).

(** [isAdminAuthenticated]: a token that fails the verification is removed
    from the local storage. *)
Definition isAdminAuthenticated (secretEnv : string) (nowMs : Z) (storage : LocalStorage)
  : bool * LocalStorage :=
  match storage !! TOKEN_KEY with
  | None => (false, storage)
  | Some token =>
      let secret := JWT_SECRET secretEnv in
      if jwtVerify nowMs token secret then (true, storage)
      else (false, delete TOKEN_KEY storage)
  end.

End AuthSession.

(* ===================================================================== *)
(** * src/components/calendar/Calendar.jsx *)
(* ===================================================================== *)

Module Calendar.

(** A change pushed by the subscription on [slots]: the event type with
    the new row, or with the id of the old one. *)
Inductive Payload :=
| UPDATE (new : Slot.t)
| INSERT (new : Slot.t)
| DELETE (oldId : string).

(** The callback given to [subscribeToSlots], on the list of slots the
    component holds.  The new row of an update carries every column, so
    spreading it over the old one yields the new one. *)
Definition onSlotChange (payload : Payload) (currentSlots : list Slot.t) : list Slot.t :=
  match payload with
  | UPDATE new =>
      List.map (fun slot => if String.eqb (Slot.id slot) (Slot.id new) then new else slot)
               currentSlots
  | INSERT new => (currentSlots ++ [new])%list
  | DELETE oldId =>
      List.filter (fun slot => negb (String.eqb (Slot.id slot) oldId)) currentSlots
  end.

(** The filter of [handleSlotClick]. *)
Definition coversClick (clickedDate : Z) (slot : Slot.t) : bool :=
  if negb (Slot.is_available slot) then false
  else (Slot.start_time slot <=? clickedDate) && (clickedDate <? Slot.end_time slot).

(** [handleSlotClick]: the slot handed to [onSlotSelect], or [None] when
    the component shows 'No available slot at the selected time'. *)
Definition handleSlotClick (clickedDate : Z) (slots : list Slot.t) : option Slot.t :=
  head (List.filter (coversClick clickedDate) slots).

(** An entry of the [events] list. *)
Record Event := mkEvent {
  ev_id : string;
  ev_title : string;
  ev_start : Z;
  ev_end : Z;
  ev_isAvailable : bool;
  ev_interactive : bool
}.

Definition toEvent (slot : Slot.t) : Event :=
  mkEvent (Slot.id slot)
          (if Slot.is_available slot then "Available" else "Booked")
          (Slot.start_time slot) (Slot.end_time slot)
          (Slot.is_available slot) (Slot.is_available slot).

(** The [events] the calendar renders. *)
Definition events (clock : CalendarUtils.Clock) (slots : list Slot.t) : list Event :=
  List.map toEvent
    (List.filter (fun slot => negb (CalendarUtils.isSlotDisabled clock (Slot.start_time slot)))
                 slots).

(** [handleEventClick]: the slot handed to [onSlotSelect], if any. *)
Definition handleEventClick (event : Event) (slots : list Slot.t) : option Slot.t :=
  if negb (ev_isAvailable event) then None
  else List.find (fun s => String.eqb (Slot.id s) (ev_id event)) slots.

(** A click on the calendar, wired to the booking page through
    [onSlotSelect={handleSlotSelect}]. *)
Inductive Click :=
| OnDate (clickedDate : Z)
| OnEvent (event : Event).

Definition clicked (c : Click) (slots : list Slot.t) : option Slot.t :=
  match c with
  | OnDate clickedDate => handleSlotClick clickedDate slots
  | OnEvent event => handleEventClick event slots
  end.

Definition click (clock : CalendarUtils.Clock) (hasQuick : bool)
    (availability : Js.Completion bool) (c : Click) (slots : list Slot.t)
    (st : BookingPage.State) : BookingPage.State * list BookingPage.Call :=
  match clicked c slots with
  | Some slot => BookingPage.handleSlotSelect clock hasQuick availability (Some slot) st
  | None => (st, [])
  end.

End Calendar.

(* ===================================================================== *)
(** * Vocabulary of the properties *)
(* ===================================================================== *)

Module Pattern.

(** The shape [ADR-YYYYMMDD-XXXX] of a booking reference, read off a
    string from left to right. *)

Definition isDigit (c : ascii) : bool :=
  let n := nat_of_ascii c in (48 <=? n)%nat && (n <=? 57)%nat.

Definition isUpper (c : ascii) : bool :=
  let n := nat_of_ascii c in (65 <=? n)%nat && (n <=? 90)%nat.

Definition isUpperOrDigit (c : ascii) : bool := isUpper c || isDigit c.

Fixpoint allChars (p : ascii -> bool) (s : string) : bool :=
  match s with
  | EmptyString => true
  | String c r => p c && allChars p r
  end.

(** Exactly [n] characters of the class [p], then the rest. *)
Fixpoint eat (p : ascii -> bool) (n : nat) (s : string) : option string :=
  match n with
  | O => Some s
  | S k =>
      match s with
      | String c r => if p c then eat p k r else None
      | EmptyString => None
      end
  end.

Fixpoint eatLiteral (l s : string) : option string :=
  match l with
  | EmptyString => Some s
  | String c l' =>
      match s with
      | String d r => if Ascii.eqb c d then eatLiteral l' r else None
      | EmptyString => None
      end
  end.

Definition matchesReferencePattern (s : string) : bool :=
  match eatLiteral "ADR-" s with
  | Some afterPrefix =>
      match eat isDigit 8 afterPrefix with
      | Some afterDate =>
          match eatLiteral "-" afterDate with
          | Some suffix =>
              match eat isUpperOrDigit 4 suffix with
              | Some EmptyString => true
              | _ => false
              end
          | None => false
          end
      | None => false
      end
  | None => false
  end.

(** The number a string of decimal digits denotes. *)
Definition decimalValue (s : string) : Z :=
  fold_left (fun acc c => acc * 10 + (Z.of_nat (nat_of_ascii c) - 48))
            (list_ascii_of_string s) 0.

(** [n] digits denoting [v]. *)
Definition digitsOf (n : nat) (v : Z) (s : string) : bool :=
  (String.length s =? n)%nat && allChars isDigit s && (decimalValue s =? v).

(** A check over the integers [lo], [lo + 1], ..., [lo + n - 1]. *)
Fixpoint allFrom (lo : Z) (n : nat) (p : Z -> bool) : bool :=
  match n with
  | O => true
  | S k => p lo && allFrom (lo + 1) k p
  end.

Definition oneCharOf (p : ascii -> bool) (s : string) : bool :=
  match s with
  | String c EmptyString => p c
  | _ => false
  end.

End Pattern.

Module Stated.

(** Sentences of the specification that the code does not bear out as
    they stand, in the terms of the embedding. *)

(** Past the five minutes, verification reports the expiry whatever the
    answer. *)
Definition expiry_reported_for_every_answer : Prop :=
  forall (now : Z) (challenge : HumanVerification.Challenge) (userAnswer : string),
    now - HumanVerification.timestamp challenge > HumanVerification.fiveMinutes ->
    HumanVerification.verifyMathChallenge now (Some challenge) userAnswer
      = HumanVerification.Object
          (HumanVerification.mkVerdict false (Some "Verification expired. Please try again."))
    /\
    HumanVerification.verifyImageChallenge now (Some challenge) userAnswer
      = HumanVerification.mkVerdict false (Some "Verification expired. Please try again.").

(** Five attempts inside the rolling hour block the identifier. *)
Definition five_recent_attempts_block : Prop :=
  forall (now : Z) (identifier : string) (store : RateLimiter.AttemptStore),
    identifier <> "" ->
    (5 <= length (RateLimiter.recentAttempts now identifier store))%nat ->
    RateLimiter.limited (fst (RateLimiter.checkRateLimit now identifier store)) = true.

(** The availability query of the calendar returns available slots
    only. *)
Definition only_available_slots_returned : Prop :=
  forall (startDate endDate : Z) (w w' : Backend.World) (l : list Slot.t),
    Supabase.getAvailableSlots startDate endDate w = (Js.Returned (Some l), w') ->
    forall s : Slot.t, In s l -> Slot.is_available s = true.


(** [loginAdmin] decides by the stored value alone: it succeeds exactly
    when the hash of the password equals the value stored in the
    settings, and on a mismatch it answers 'Invalid password'. *)
Definition login_decided_by_stored_hash : Prop :=
  forall (secretEnv : string) (nowMs : Z) (password : Auth.Password) (stored : string)
         (storage : Auth.LocalStorage) (w : Backend.World),
    Backend.serviceKey w = true ->
    Backend.nextFault w = None ->
    List.map Setting.value
      (List.filter (fun r => String.eqb (Setting.key r) Auth.ADMIN_PASSWORD_KEY)
                   (Backend.settings (Backend.db w))) = [stored] ->
    exists (r : Auth.LoginResult) (storage' : Auth.LocalStorage),
      fst (Auth.loginAdmin secretEnv nowMs password storage w) = Js.Returned (r, storage') /\
      (Auth.success r = true <-> Auth.hashPassword password = stored) /\
      (Auth.hashPassword password <> stored ->
       r = Auth.mkLoginResult false None (Some "Invalid password")).

End Stated.

Module Scenario.

(** The settings table after the admin password "admin" was set up. *)
Definition adminWorld : Backend.World :=
  Backend.mkWorld
    (Backend.mkDatabase [] [] [Setting.mk "admin_password_hash" "586034f"])
    (Backend.mkPolicies Slot.is_available (fun _ => false))
    true [].

Definition minute : Z := 60 * 1000.
Definition hour : Z := 60 * minute.

(** Two slots on one morning; the first one is booked by a confirmed
    reservation. *)
Definition bookedSlot : Slot.t := Slot.mk "slot-1" (9 * hour) (10 * hour) false.
Definition freeSlot : Slot.t := Slot.mk "slot-2" (10 * hour) (11 * hour) true.

Definition booking : Reservation.t :=
  Reservation.mk "res-1" "slot-1" "Ada" "ada@example.org" "G1" "" "ADR-20250409-AJS1"
                 "confirmed" "".

Definition morning : Backend.Database :=
  Backend.mkDatabase [bookedSlot; freeSlot] [booking] [].

(** The policies of supabase/init.sql for the anonymous key: available
    slots are readable, reservations are not deletable. *)
Definition initPolicies : Backend.Policies :=
  Backend.mkPolicies Slot.is_available (fun _ => false).

(** Policies that let the anonymous key read every slot and delete
    reservations. *)
Definition openPolicies : Backend.Policies :=
  Backend.mkPolicies (fun _ => true) (fun _ => true).

Definition permissionDenied : Js.Error :=
  Js.mkError "permission denied for table slots" "42501".

(** The anonymous read is refused, the service key is configured. *)
Definition deniedWorld : Backend.World :=
  Backend.mkWorld morning initPolicies true [Some permissionDenied].

Definition openWorld : Backend.World :=
  Backend.mkWorld morning openPolicies true [].

Definition initWorld : Backend.World :=
  Backend.mkWorld morning initPolicies true [].

(** The booking page as it is first rendered. *)
Definition initialState : BookingPage.State :=
  BookingPage.mkState None (EmailService.mkUserData "" "" "" "") ∅ false None false None
                      false false None None.

Definition adaForm : EmailService.UserData :=
  EmailService.mkUserData "Ada Lovelace" "ada@example.org" "G1" "".

(** The form filled in, the challenge passed and the free slot selected. *)
Definition readyState : BookingPage.State :=
  BookingPage.mkState (Some freeSlot) adaForm ∅ false None false None
                      false true None None.

(** Half past nine, UTC. *)
Definition halfPastNine : CalendarUtils.Clock :=
  CalendarUtils.mkClock (9 * hour + 30 * minute) 0.

Definition confirmedReservation : Reservation.t :=
  Reservation.mk "res-2" "slot-2" "Ada Lovelace" "ada@example.org" "G1" ""
                 "ADR-20250409-AJS1" "confirmed" "".



(** Everything goes through. *)
Definition smoothEnv : BookingPage.Env :=
  BookingPage.mkEnv 0 1
    (Js.Returned (BookingPage.mkReservationCount true 0))
    (Js.Returned true)
    (Js.Returned (BookingPage.mkRegistration true ""))
    (Js.Returned confirmedReservation).

(** An email service without its public key, and one that is set up. *)
Definition noEmailEnv : EmailService.EmailEnv := EmailService.mkEmailEnv "" "" "".
Definition emailEnv : EmailService.EmailEnv :=
  EmailService.mkEmailEnv "service_adr" "template_adr" "public-key".

(** A runtime whose mail gateway answers every send with [response]. *)
Definition runtime (response : Js.Completion Z) : EmailService.Runtime :=
  EmailService.mkRuntime (EmailService.mkLocalDate 2025 3 9) (fun _ => 0) "2025-04-09"
    (fun _ => None) (fun _ => "") (fun _ => "") (fun _ _ _ => response).

(** The visitor already holds a reservation. *)
Definition returningEnv : BookingPage.Env :=
  BookingPage.mkEnv 0 1
    (Js.Returned (BookingPage.mkReservationCount true 1))
    (Js.Returned true)
    (Js.Returned (BookingPage.mkRegistration true ""))
    (Js.Returned confirmedReservation).

(** A visitor whose first submission, at time 0, went through the rate
    check but recorded no attempt, and who then made five recorded
    attempts between the 50th and the 54th minute. *)
Definition busyVisitor : RateLimiter.AttemptStore :=
  fold_left (fun store t => RateLimiter.recordAttempt t "ada@example.org" store)
            [50 * minute; 51 * minute; 52 * minute; 53 * minute; 54 * minute]
            (snd (RateLimiter.checkRateLimit 0 "ada@example.org" ∅)).

Definition expiredChallenge : HumanVerification.Challenge :=
  HumanVerification.mkChallenge "What is 2 + 3?" "5" 0.

End Scenario.

Module Session.
Import RateLimiter.

(** The two operations of the rate limiter on one identifier, with the
    clock reading of each. *)
Inductive Op :=
| Check (t : Z)
| Record (t : Z).

Definition opTime (o : Op) : Z :=
  match o with
  | Check t => t
  | Record t => t
  end.

Definition step (identifier : string) (store : AttemptStore) (o : Op) : AttemptStore :=
  match o with
  | Check t => snd (checkRateLimit t identifier store)
  | Record t => recordAttempt t identifier store
  end.

Definition run (identifier : string) (ops : list Op) (store : AttemptStore) : AttemptStore :=
  fold_left (step identifier) ops store.

Fixpoint recordedTimes (ops : list Op) : list Z :=
  match ops with
  | [] => []
  | Check _ :: r => recordedTimes r
  | Record t :: r => t :: recordedTimes r
  end.

End Session.

Module Cases.

(** A visitor who checks at time 0 and records an attempt at the 10th and
    at the 20th minute, with a check in between. *)
Definition twoAttempts : list Session.Op :=
  [Session.Record (10 * Scenario.minute); Session.Check (15 * Scenario.minute);
   Session.Record (20 * Scenario.minute)].

(** No character of the string is a lower-case ASCII letter. *)
Definition isLowerLetter (c : ascii) : bool :=
  let n := nat_of_ascii c in (97 <=? n)%nat && (n <=? 122)%nat.

Definition noLowerLetter (s : string) : bool :=
  Pattern.allChars (fun c => negb (isLowerLetter c)) s.

(** The strings that the pattern
    [/^[^\s@]+@[^\s@]+\.[^\s@]+$/] denotes: a local part, an [@], and a
    domain with a dot inside, each of the three pieces non-empty and free
    of white space and of [@]. *)
Definition emailShape (email : string) : Prop :=
  exists l d1 d2 : string,
    email = (l ++ "@" ++ d1 ++ "." ++ d2)%string /\
    l <> "" /\ d1 <> "" /\ d2 <> "" /\
    Validation.all Validation.notSpaceNorAt l = true /\
    Validation.all Validation.notSpaceNorAt d1 = true /\
    Validation.all Validation.notSpaceNorAt d2 = true.

(** A submission that gets as far as the registration: the form is valid
    and belongs to [email], the challenge was passed, a slot is selected,
    no active reservation is reported and the slot is reported free; the
    clock readings lie in the hour that starts at [t0]. *)
Definition reachesRegistration (email : string) (t0 : Z)
    (run : BookingPage.Env * BookingPage.State) : Prop :=
  let (env, closure) := run in
  Validation.success (Validation.validateBookingForm (BookingPage.formData closure)) = true /\
  BookingPage.isHumanVerified closure = true /\
  EmailService.email (BookingPage.formData closure) = email /\
  BookingPage.selectedSlot closure <> None /\
  (exists found : BookingPage.ReservationCount,
      BookingPage.reservationCount env = Js.Returned found /\
      BookingPage.count_success found && (BookingPage.count found >=? 1) = false) /\
  BookingPage.slotAvailability env = Js.Returned true /\
  t0 <= BookingPage.nowAtCheck env < t0 + RateLimiter.RATE_LIMIT_WINDOW /\
  t0 <= BookingPage.nowAtRecord env.

(** Submissions one after the other, each on the store the one before
    left. *)
Definition submitAll (runs : list (BookingPage.Env * BookingPage.State))
    (store : RateLimiter.AttemptStore) : RateLimiter.AttemptStore :=
  fold_left (fun s run => BookingPage.store (BookingPage.handleSubmit (fst run) s (snd run)))
            runs store.

(** Five submissions of Ada's form, ten minutes apart, each of which finds
    the slot free and then fails at the registration. *)
Definition failingEnv (n : Z) : BookingPage.Env :=
  BookingPage.mkEnv (n * 10 * Scenario.minute) (n * 10 * Scenario.minute + 1)
    (Js.Returned (BookingPage.mkReservationCount true 0))
    (Js.Returned true)
    (Js.Returned (BookingPage.mkRegistration false "users table unavailable"))
    (Js.Returned Scenario.confirmedReservation).

Definition fiveSubmissions : list (BookingPage.Env * BookingPage.State) :=
  List.map (fun n => (failingEnv n, Scenario.readyState)) [0; 1; 2; 3; 4].

(** What the booking page gets from [createReservation]: it reads the
    columns of the reservation and leaves the joined slot alone. *)
Definition created (c : Js.Completion Supabase.Joined) : Js.Completion Reservation.t :=
  match c with
  | Js.Returned row => Js.Returned (fst row)
  | Js.Thrown err => Js.Thrown err
  end.

(** The morning's tables behind a deployment without a service key. *)
Definition keylessWorld : Backend.World :=
  Backend.mkWorld Scenario.morning Scenario.initPolicies false [].

(** A submission whose user is registered and whose reservation is
    created in [w]; with an admin client the registration goes through. *)
Definition bookingIn (w : Backend.World) : BookingPage.Env :=
  BookingPage.mkEnv 0 1
    (Js.Returned (BookingPage.mkReservationCount true 0))
    (Js.Returned true)
    (fst (UserService.registerUser (Backend.ret (BookingPage.mkRegistration true "")) w))
    (created (fst (SupabaseRest.createReservation "res-2" (EmailService.mkLocalDate 2025 3 9)
                     (fun _ => 0) "slot-2" Scenario.adaForm w))).

(** The events a click can land on are those the calendar renders from
    the slots it holds; a click on the grid can land anywhere. *)
Definition rendered (clock : CalendarUtils.Clock) (slots : list Slot.t)
    (c : Calendar.Click) : Prop :=
  match c with
  | Calendar.OnDate _ => True
  | Calendar.OnEvent event => In event (Calendar.events clock slots)
  end.

(** A change that takes the slot [id] away from the visitors: the slot is
    deleted, or it is updated to a row that is not available. *)
Definition takesAway (payload : Calendar.Payload) (id : string) : Prop :=
  match payload with
  | Calendar.DELETE oldId => oldId = id
  | Calendar.UPDATE new => Slot.id new = id /\ Slot.is_available new = false
  | Calendar.INSERT _ => False
  end.

(** Half past seven, UTC: the slots of the morning are more than an hour
    away. *)
Definition halfPastSeven : CalendarUtils.Clock :=
  CalendarUtils.mkClock (7 * Scenario.hour + 30 * Scenario.minute) 0.

(** The anonymous key sees available slots only, as the select policy of
    supabase/init.sql on [slots] has it. *)
Definition hidesBookedSlots (w : Backend.World) : Prop :=
  forall s : Slot.t,
    In s (Backend.slots (Backend.db w)) ->
    Backend.anon_select_slot (Backend.rls w) s = true -> Slot.is_available s = true.

(** The error of [.single()] on no row or on several. *)
Definition noSingleRow : Js.Error :=
  Js.mkError "JSON object requested, multiple (or no) rows returned" "PGRST116".

(** A submission whose availability check is answered in [w]. *)
Definition checkingIn (slotId : string) (w : Backend.World) : BookingPage.Env :=
  BookingPage.mkEnv 0 1
    (Js.Returned (BookingPage.mkReservationCount true 0))
    (fst (Supabase.verifySlotAvailability slotId w))
    (Js.Returned (BookingPage.mkRegistration true ""))
    (Js.Returned Scenario.confirmedReservation).

(** The form filled in with a slot selected that has been booked in the
    meantime. *)
Definition staleSelection : BookingPage.State :=
  BookingPage.mkState (Some Scenario.bookedSlot) Scenario.adaForm ∅ false None false None
                      false true None None.

(** The first request goes through, the second one is refused. *)
Definition secondRequestFails : Backend.World :=
  Backend.mkWorld Scenario.morning Scenario.initPolicies true
                  [None; Some Scenario.permissionDenied].

(** A slot the anonymous key may offer at [now]: in the table, visible,
    available and not started. *)
Definition offered (now : Z) (w : Backend.World) (s : Slot.t) : Prop :=
  In s (Backend.slots (Backend.db w)) /\
  Backend.anon_select_slot (Backend.rls w) s = true /\
  Slot.is_available s = true /\
  now <= Slot.start_time s.

(** A fresh installation: the settings hold the row of the password hash
    with an empty value, as the migration inserts it. *)
Definition freshInstall : Backend.World :=
  Backend.mkWorld (Backend.mkDatabase [] [] [Setting.mk "admin_password_hash" ""])
                  Scenario.initPolicies true [].

(** An installation whose settings lack the row of the password hash. *)
Definition noSettingsRow : Backend.World :=
  Backend.mkWorld (Backend.mkDatabase [] [] []) Scenario.initPolicies true [].

(** The code units of [admin]. *)
Definition adminPassword : Auth.Password := [97; 100; 109; 105; 110].

(** A math challenge, seven plus five, handed out at the tenth minute. *)
Definition sevenPlusFive : HumanVerification.Challenge :=
  Challenges.generateMathChallenge 6 4 (10 * Scenario.minute).

(** The component showing the fourth image challenge, answered in upper
    case with blanks around. *)
Definition circleWidget : Challenges.Widget :=
  Challenges.mkWidget (Some (Challenges.generateImageChallenge 3 (10 * Scenario.minute)))
                      "  CIRCLE " "" false.

End Cases.

(* ===================================================================== *)
(** * Part II: properties *)
(* ===================================================================== *)

(** ** Auth: the password hash and the admin login *)

Section AuthFacts.
Import Js Backend Auth.

Lemma toInt32_mod (a b : Z) :
  a mod 4294967296 = b mod 4294967296 -> toInt32 a = toInt32 b.
Proof.
  intros H. unfold toInt32. f_equal.
  rewrite <- (Zplus_mod_idemp_l a), <- (Zplus_mod_idemp_l b), H. reflexivity.
Qed.

Lemma toInt32_mod_eq (a : Z) : toInt32 a mod 4294967296 = a mod 4294967296.
Proof.
  unfold toInt32.
  rewrite Zminus_mod, Zmod_mod, <- Zminus_mod.
  f_equal. lia.
Qed.

Lemma toInt32_idem (a : Z) : toInt32 (toInt32 a) = toInt32 a.
Proof. apply toInt32_mod, toInt32_mod_eq. Qed.

(** The loop body computes [hash * 32 - hash + char] cut to 32 bits. *)
Lemma hashStep_wraps (hash : Z) (char : Z) :
  hashStep hash char = toInt32 (hash * 32 - hash + char).
Proof.
  unfold hashStep, band, shl.
  rewrite Z.land_diag, toInt32_idem.
  apply toInt32_mod.
  change (5 mod 32) with 5. rewrite Z.shiftl_mul_pow2 by lia.
  change (2 ^ 5) with 32.
  rewrite <- Zplus_mod_idemp_l, <- Zminus_mod_idemp_l, toInt32_mod_eq.
  rewrite <- (Zmult_mod_idemp_l (toInt32 hash)), toInt32_mod_eq, Zmult_mod_idemp_l.
  rewrite Zminus_mod_idemp_l, Zplus_mod_idemp_l. reflexivity.
Qed.

Lemma rollingHash_fold (password : Password) :
  rollingHash password =
  fold_left (fun hash char => toInt32 (hash * 32 - hash + char)) password 0.
Proof.
  unfold rollingHash. generalize 0.
  induction password as [|c l IH]; intros h; simpl.
  - reflexivity.
  - rewrite hashStep_wraps. apply IH.
Qed.

(** The hexadecimal rendering of a number is never the empty string. *)
Lemma toString16_nonempty (n : Z) : toString16 n <> "".
Proof.
  unfold toString16, HexadecimalString.NilZero.string_of_int.
  destruct (Z.to_hex_int n) as [d | d]; [| discriminate].
  destruct d; discriminate.
Qed.

Lemma request_no_fault {A} (q : Policies -> Database -> Response A * Database) (w : World) :
  nextFault w = None ->
  request q w =
  (Returned (fst (q (rls w) (db w))),
   mkWorld (snd (q (rls w) (db w))) (rls w) (serviceKey w) (tail (faults w))).
Proof.
  unfold nextFault, request. intros H.
  destruct (faults w) as [|[e|] rest]; try discriminate;
    destruct (q (rls w) (db w)); reflexivity.
Qed.

Lemma request_fault {A} (q : Policies -> Database -> Response A * Database) (w : World) e :
  nextFault w = Some e ->
  request q w =
  (Returned (failed e), mkWorld (db w) (rls w) (serviceKey w) (tail (faults w))).
Proof.
  unfold nextFault, request. intros H.
  destruct (faults w) as [|[e'|] rest]; try discriminate.
  injection H as ->. reflexivity.
Qed.

End AuthFacts.

Example hashPassword_admin : Auth.hashPassword (Js.codeUnits "admin") = "586034f".
Proof. vm_compute. reflexivity. Qed.

Example hashPassword_negative :
  Auth.hashPassword (Js.codeUnits "Montimage2025") = "-756c4d2c".
Proof. vm_compute. reflexivity. Qed.

Example hashPassword_empty : Auth.hashPassword [] = "0".
Proof. reflexivity. Qed.

(** A password outside Latin-1: the euro sign followed by "1". *)
Example hashPassword_euro : Auth.hashPassword [8364; 49] = "3f505".
Proof. vm_compute. reflexivity. Qed.

(** C6, as stated, fails on the settings as the migration leaves them:
    the stored value is the empty string, the hash of [admin] differs from
    it, and [loginAdmin] answers 'Admin account not set up', not 'Invalid
    password'. *)
Lemma C6_empty_stored_value_counterexample : ~ Stated.login_decided_by_stored_hash.
Proof.
  intros H.
  destruct (H "" 1700000000000 (Js.codeUnits "admin") "" ∅ Cases.freshInstall
              eq_refl eq_refl eq_refl) as (r & storage' & Hreturned & _ & Hmismatch).
  vm_compute in Hreturned. injection Hreturned as <- _.
  specialize (Hmismatch ltac:(vm_compute; discriminate)).
  discriminate Hmismatch.
Qed.

Example loginAdmin_fresh_install :
  fst (Auth.loginAdmin "" 1700000000000 (Js.codeUnits "admin") ∅ Cases.freshInstall) =
  Js.Returned (Auth.mkLoginResult false None (Some "Admin account not set up"), ∅).
Proof. vm_compute. reflexivity. Qed.

(** C6, amended.  With the admin client configured and the settings table
    answering with the value stored under [admin_password_hash]:
    [loginAdmin] returns, and it succeeds exactly when the rolling hash of
    the password, rendered in hexadecimal, equals the stored value.  The
    hash is the fold of [hash * 32 - hash + charCode] cut to 32 bits over
    the code units of the password, and its rendering is never empty.  On
    success the result carries no message and a token with role admin,
    signed with HS256 under [JWT_SECRET], issued at the current second and
    expiring 3600 seconds later, and this token is stored under
    [admin_token].  On a mismatch with a stored value that is not empty
    the result is the failure with the message 'Invalid password'; with
    the empty value, which is what the migration stores, the result is the
    failure 'Admin account not set up' for every password.  A failure
    leaves the local storage as it was. *)
Theorem C6_loginAdmin_succeeds_iff_hash_matches :
  forall (secretEnv : string) (nowMs : Z) (password : Auth.Password) (stored : string)
         (storage : Auth.LocalStorage) (w : Backend.World),
    Backend.serviceKey w = true ->
    Backend.nextFault w = None ->
    List.map Setting.value
      (List.filter (fun r => String.eqb (Setting.key r) Auth.ADMIN_PASSWORD_KEY)
                   (Backend.settings (Backend.db w))) = [stored] ->
    exists (r : Auth.LoginResult) (storage' : Auth.LocalStorage),
      fst (Auth.loginAdmin secretEnv nowMs password storage w) = Js.Returned (r, storage') /\
      Auth.hashPassword password =
        Js.toString16
          (fold_left (fun hash char => Js.toInt32 (hash * 32 - hash + char)) password 0) /\
      Auth.hashPassword password <> "" /\
      (Auth.success r = true <-> Auth.hashPassword password = stored) /\
      (Auth.hashPassword password = stored ->
       exists t : Auth.Jwt,
         r = Auth.mkLoginResult true (Some t) None /\
         Auth.role t = "admin" /\ Auth.alg t = "HS256" /\
         Auth.signedWith t = Auth.JWT_SECRET secretEnv /\
         Auth.iat t = nowMs / 1000 /\
         Auth.exp t = Auth.iat t + 3600 /\
         storage' = <[Auth.TOKEN_KEY := t]> storage) /\
      (stored <> "" -> Auth.hashPassword password <> stored ->
       r = Auth.mkLoginResult false None (Some "Invalid password") /\ storage' = storage) /\
      (stored = "" ->
       r = Auth.mkLoginResult false None (Some "Admin account not set up") /\
       storage' = storage).
Proof.
  intros secretEnv nowMs password stored storage w Hkey Hfault Hrow.
  pose proof (toString16_nonempty (Auth.rollingHash password)) as Hhash.
  fold (Auth.hashPassword password) in Hhash.
  unfold Auth.loginAdmin, Backend.catchM, Backend.bindM, Backend.getServiceKey,
    Auth.queryPasswordHash.
  rewrite Hkey. cbn [negb].
  rewrite request_no_fault by assumption. cbn [fst snd].
  rewrite Hrow. cbn [Backend.single Backend.ok Backend.error Backend.data].
  destruct (String.eqb_spec stored "") as [Hempty | Hset].
  - subst stored. cbn [Js.truthy String.eqb negb Backend.ret fst].
    eexists _, _. split; [reflexivity |].
    split; [unfold Auth.hashPassword; now rewrite rollingHash_fold |].
    split; [exact Hhash |].
    split; [cbn; split; [discriminate | intros; contradiction] |].
    split; [intros; contradiction |].
    split; [intros Hn; contradiction Hn; reflexivity |].
    intros _. split; reflexivity.
  - assert (Htruthy : Js.truthy stored = true).
    { unfold Js.truthy. destruct (String.eqb_spec stored ""); [contradiction | reflexivity]. }
    rewrite Htruthy. cbn [negb].
    destruct (String.eqb_spec (Auth.hashPassword password) stored) as [Heq | Hne].
    + eexists _, _. cbn [Backend.ret fst]. split; [reflexivity |].
      split; [unfold Auth.hashPassword; now rewrite rollingHash_fold |].
      split; [exact Hhash |].
      split; [cbn; tauto |].
      split; [| split; [intros _ Hn; contradiction | intros; contradiction]].
      intros _. eexists. cbn. repeat split; reflexivity.
    + eexists _, _. cbn [Backend.ret fst]. split; [reflexivity |].
      split; [unfold Auth.hashPassword; now rewrite rollingHash_fold |].
      split; [exact Hhash |].
      split; [cbn; split; [discriminate | intros; contradiction] |].
      split; [intros; contradiction |].
      split; [intros _ _; split; reflexivity | intros; contradiction].
Qed.

Lemma C6_loginAdmin_witness :
  exists (r : Auth.LoginResult) (storage' : Auth.LocalStorage),
    fst (Auth.loginAdmin "" 1700000000000 (Js.codeUnits "admin") ∅ Scenario.adminWorld)
      = Js.Returned (r, storage') /\
    Auth.hashPassword (Js.codeUnits "admin") =
      Js.toString16
        (fold_left (fun hash char => Js.toInt32 (hash * 32 - hash + char))
                   (Js.codeUnits "admin") 0) /\
    Auth.hashPassword (Js.codeUnits "admin") <> "" /\
    (Auth.success r = true <-> Auth.hashPassword (Js.codeUnits "admin") = "586034f") /\
    (Auth.hashPassword (Js.codeUnits "admin") = "586034f" ->
     exists t : Auth.Jwt,
       r = Auth.mkLoginResult true (Some t) None /\
       Auth.role t = "admin" /\ Auth.alg t = "HS256" /\
       Auth.signedWith t = Auth.JWT_SECRET "" /\
       Auth.iat t = 1700000000000 / 1000 /\
       Auth.exp t = Auth.iat t + 3600 /\
       storage' = <[Auth.TOKEN_KEY := t]> ∅) /\
    ("586034f" <> "" -> Auth.hashPassword (Js.codeUnits "admin") <> "586034f" ->
     r = Auth.mkLoginResult false None (Some "Invalid password") /\ storage' = ∅) /\
    ("586034f" = "" ->
     r = Auth.mkLoginResult false None (Some "Admin account not set up") /\ storage' = ∅).
Proof.
  apply (C6_loginAdmin_succeeds_iff_hash_matches "" 1700000000000 (Js.codeUnits "admin")
           "586034f" ∅ Scenario.adminWorld).
  - reflexivity.
  - reflexivity.
  - reflexivity.
Defined.

(** The token of a login: signed under the default secret, issued at the
    second of the login. *)
Example loginAdmin_token :
  fst (Auth.loginAdmin "" 1700000000000 (Js.codeUnits "admin") ∅ Scenario.adminWorld) =
  Js.Returned
    (Auth.mkLoginResult true
       (Some (Auth.mkJwt "admin" "HS256" 1700000000 1700003600 "admin-secret-key")) None,
     <[Auth.TOKEN_KEY := Auth.mkJwt "admin" "HS256" 1700000000 1700003600 "admin-secret-key"]> ∅).
Proof. vm_compute. reflexivity. Qed.

Example loginAdmin_wrong_password :
  fst (Auth.loginAdmin "" 1700000000000 (Js.codeUnits "guess") ∅ Scenario.adminWorld) =
  Js.Returned (Auth.mkLoginResult false None (Some "Invalid password"), ∅).
Proof. vm_compute. reflexivity. Qed.

(** ** EmailService: the booking reference *)

Section ReferenceFacts.
Import Js EmailService Pattern.

Lemma allFrom_spec (p : Z -> bool) (n : nat) :
  forall lo, allFrom lo n p = true ->
  forall z, lo <= z < lo + Z.of_nat n -> p z = true.
Proof.
  induction n as [|n IH]; intros lo H z Hz.
  - lia.
  - simpl in H. apply andb_true_iff in H as [H0 H1].
    destruct (Z.eq_dec z lo) as [->|Hne]; [assumption |].
    apply (IH (lo + 1)); [assumption | lia].
Qed.

Lemma allFrom_range (p : Z -> bool) (lo hi : Z) :
  allFrom lo (Z.to_nat (hi - lo + 1)) p = true ->
  forall z, lo <= z <= hi -> p z = true.
Proof.
  intros H z Hz. apply (allFrom_spec p _ lo H). lia.
Qed.

Lemma year_digits (y : Z) :
  1000 <= y <= 9999 -> digitsOf 4 y (toString y) = true.
Proof.
  intros H.
  apply (allFrom_range (fun y => digitsOf 4 y (toString y)) 1000 9999); [| lia].
  vm_compute. reflexivity.
Qed.

Lemma two_digits (n : Z) :
  1 <= n <= 31 -> digitsOf 2 n (padStart (toString n) 2 "0") = true.
Proof.
  intros H.
  apply (allFrom_range (fun n => digitsOf 2 n (padStart (toString n) 2 "0")) 1 31); [| lia].
  vm_compute. reflexivity.
Qed.

Lemma suffix_char (k : Z) :
  0 <= k < 36 -> oneCharOf isUpperOrDigit (charAt characters k) = true.
Proof.
  intros H.
  apply (allFrom_range (fun k => oneCharOf isUpperOrDigit (charAt characters k)) 0 35); [| lia].
  vm_compute. reflexivity.
Qed.

Lemma digitsOf_inv n v s :
  digitsOf n v s = true ->
  String.length s = n /\ allChars isDigit s = true /\ decimalValue s = v.
Proof.
  unfold digitsOf. intros H.
  apply andb_true_iff in H as [H H3]. apply andb_true_iff in H as [H1 H2].
  apply Nat.eqb_eq in H1. apply Z.eqb_eq in H3. auto.
Qed.

Lemma append_length (a b : string) :
  String.length (a ++ b) = (String.length a + String.length b)%nat.
Proof. induction a as [|c a IH]; simpl; [reflexivity | now rewrite IH]. Qed.

Lemma allChars_append p (a b : string) :
  allChars p (a ++ b) = allChars p a && allChars p b.
Proof.
  induction a as [|c a IH]; simpl; [reflexivity |].
  rewrite IH. now rewrite andb_assoc.
Qed.

Lemma eat_append p (a r : string) :
  allChars p a = true -> eat p (String.length a) (a ++ r) = Some r.
Proof.
  induction a as [|c a IH]; simpl; intros H; [reflexivity |].
  apply andb_true_iff in H as [Hc Ha]. rewrite Hc. now apply IH.
Qed.

Lemma append_assoc (a b c : string) : ((a ++ b) ++ c = a ++ (b ++ c))%string.
Proof.
  induction a as [|x a IH]; [reflexivity |].
  change (String x ((a ++ b) ++ c) = String x (a ++ (b ++ c)))%string.
  f_equal. exact IH.
Qed.

Lemma eatLiteral_append (l r : string) : eatLiteral l (l ++ r) = Some r.
Proof.
  induction l as [|c l IH]; [reflexivity |].
  change (eatLiteral (String c l) (String c (l ++ r)) = Some r).
  cbn [eatLiteral]. rewrite Ascii.eqb_refl. exact IH.
Qed.

Lemma oneCharOf_inv p s :
  oneCharOf p s = true -> exists c, s = String c EmptyString /\ p c = true.
Proof.
  destruct s as [|c [|d r]]; simpl; intros H; try discriminate.
  exists c. auto.
Qed.

End ReferenceFacts.

(** C5.  For a clock whose local date has a four-digit year (1000..9999),
    a month 0..11 and a day 1..31, and random picks within the 36
    characters, the string returned by [generateBookingReference] is
    [ADR-] followed by four digits denoting the year, two digits denoting
    the month (counted from 1), two digits denoting the day, a hyphen, and
    four characters among A-Z and 0-9; it matches [ADR-YYYYMMDD-XXXX]. *)
Theorem C5_generateBookingReference_matches_pattern :
  forall (now : EmailService.LocalDate) (pick : nat -> Z),
    1000 <= EmailService.fullYear now <= 9999 ->
    0 <= EmailService.month now <= 11 ->
    1 <= EmailService.date now <= 31 ->
    (forall i : nat, 0 <= pick i < 36) ->
    Pattern.matchesReferencePattern (EmailService.generateBookingReference now pick) = true /\
    exists yyyy mm dd xxxx : string,
      EmailService.generateBookingReference now pick
        = ("ADR-" ++ yyyy ++ mm ++ dd ++ "-" ++ xxxx)%string /\
      Pattern.digitsOf 4 (EmailService.fullYear now) yyyy = true /\
      Pattern.digitsOf 2 (EmailService.month now + 1) mm = true /\
      Pattern.digitsOf 2 (EmailService.date now) dd = true /\
      String.length xxxx = 4%nat /\
      Pattern.allChars Pattern.isUpperOrDigit xxxx = true.
Proof.
  intros now pick Hy Hm Hd Hpick.
  pose proof (year_digits _ Hy) as HY.
  assert (HM : Pattern.digitsOf 2 (EmailService.month now + 1)
                 (Js.padStart (Js.toString (EmailService.month now + 1)) 2 "0") = true)
    by (apply two_digits; lia).
  pose proof (two_digits _ Hd) as HD.
  destruct (oneCharOf_inv _ _ (suffix_char _ (Hpick 0%nat))) as (c0 & E0 & P0).
  destruct (oneCharOf_inv _ _ (suffix_char _ (Hpick 1%nat))) as (c1 & E1 & P1).
  destruct (oneCharOf_inv _ _ (suffix_char _ (Hpick 2%nat))) as (c2 & E2 & P2).
  destruct (oneCharOf_inv _ _ (suffix_char _ (Hpick 3%nat))) as (c3 & E3 & P3).
  assert (Hsuffix : EmailService.suffixLoop pick 0 4 ""
                    = String c0 (String c1 (String c2 (String c3 EmptyString)))).
  { cbn [EmailService.suffixLoop]. rewrite E0, E1, E2, E3. reflexivity. }
  unfold EmailService.generateBookingReference, EmailService.datePart.
  rewrite Hsuffix.
  set (Y := Js.toString (EmailService.fullYear now)) in *.
  set (M := Js.padStart (Js.toString (EmailService.month now + 1)) 2 "0") in *.
  set (D := Js.padStart (Js.toString (EmailService.date now)) 2 "0") in *.
  destruct (digitsOf_inv _ _ _ HY) as (LY & AY & _).
  destruct (digitsOf_inv _ _ _ HM) as (LM & AM & _).
  destruct (digitsOf_inv _ _ _ HD) as (LD & AD & _).
  split.
  - unfold Pattern.matchesReferencePattern.
    rewrite eatLiteral_append.
    replace 8%nat with (String.length (Y ++ M ++ D)%string)
      by (rewrite !append_length, LY, LM, LD; reflexivity).
    rewrite eat_append by (rewrite !allChars_append, AY, AM, AD; reflexivity).
    rewrite eatLiteral_append.
    cbn [Pattern.eat]. rewrite P0, P1, P2, P3. reflexivity.
  - exists Y, M, D, (String c0 (String c1 (String c2 (String c3 EmptyString)))).
    split.
    + rewrite !append_assoc. reflexivity.
    + repeat split; try assumption.
      cbn [Pattern.allChars]. rewrite P0, P1, P2, P3. reflexivity.
Qed.

Lemma C5_generateBookingReference_witness :
  Pattern.matchesReferencePattern
    (EmailService.generateBookingReference (EmailService.mkLocalDate 2025 3 9)
                                           (fun i => (Z.of_nat i * 9) mod 36)) = true /\
  exists yyyy mm dd xxxx : string,
    EmailService.generateBookingReference (EmailService.mkLocalDate 2025 3 9)
                                          (fun i => (Z.of_nat i * 9) mod 36)
      = ("ADR-" ++ yyyy ++ mm ++ dd ++ "-" ++ xxxx)%string /\
    Pattern.digitsOf 4 2025 yyyy = true /\
    Pattern.digitsOf 2 (3 + 1) mm = true /\
    Pattern.digitsOf 2 9 dd = true /\
    String.length xxxx = 4%nat /\
    Pattern.allChars Pattern.isUpperOrDigit xxxx = true.
Proof.
  apply (C5_generateBookingReference_matches_pattern
           (EmailService.mkLocalDate 2025 3 9) (fun i => (Z.of_nat i * 9) mod 36)).
  - simpl. lia.
  - simpl. lia.
  - simpl. lia.
  - intros i. apply Z.mod_pos_bound. lia.
Defined.

Example generateBookingReference_sample :
  EmailService.generateBookingReference (EmailService.mkLocalDate 2025 3 9)
                                        (fun i => (Z.of_nat i * 9) mod 36)
  = "ADR-20250409-AJS1".
Proof. vm_compute. reflexivity. Qed.

(** ** HumanVerification: expiry of a challenge *)

(** C7, as stated, fails on the empty answer: the first guard of both
    functions answers before the expiry is looked at. *)
Lemma C7_empty_answer_counterexample : ~ Stated.expiry_reported_for_every_answer.
Proof.
  intros H.
  destruct (H (10 * Scenario.minute) Scenario.expiredChallenge "") as [Hmath _].
  - vm_compute. reflexivity.
  - vm_compute in Hmath. discriminate.
Qed.

Example verifyMathChallenge_empty_answer :
  HumanVerification.verifyMathChallenge (10 * Scenario.minute)
    (Some Scenario.expiredChallenge) "" = HumanVerification.BareFalse.
Proof. reflexivity. Qed.

Example verifyImageChallenge_empty_answer :
  HumanVerification.verifyImageChallenge (10 * Scenario.minute)
    (Some Scenario.expiredChallenge) ""
  = HumanVerification.mkVerdict false (Some "Invalid challenge or answer").
Proof. reflexivity. Qed.

(** C7, amended.  For every challenge and every non-empty answer, once more
    than five minutes lie between the timestamp of the challenge and the
    time of verification, [verifyMathChallenge] and [verifyImageChallenge]
    both return the failure 'Verification expired. Please try again.',
    whether or not the answer is right. *)
Theorem C7_expired_challenge_is_rejected :
  forall (now : Z) (challenge : HumanVerification.Challenge) (userAnswer : string),
    userAnswer <> "" ->
    now - HumanVerification.timestamp challenge > HumanVerification.fiveMinutes ->
    HumanVerification.verifyMathChallenge now (Some challenge) userAnswer
      = HumanVerification.Object
          (HumanVerification.mkVerdict false (Some "Verification expired. Please try again."))
    /\
    HumanVerification.verifyImageChallenge now (Some challenge) userAnswer
      = HumanVerification.mkVerdict false (Some "Verification expired. Please try again.").
Proof.
  intros now challenge userAnswer Hanswer Hlate.
  unfold HumanVerification.verifyMathChallenge, HumanVerification.verifyImageChallenge.
  assert (Ht : Js.truthy userAnswer = true).
  { unfold Js.truthy. destruct (String.eqb_spec userAnswer ""); [contradiction | reflexivity]. }
  rewrite Ht. cbn [negb].
  assert (Hgt : (now - HumanVerification.timestamp challenge >? HumanVerification.fiveMinutes) = true)
    by (apply Z.gtb_lt; lia).
  rewrite Hgt. split; reflexivity.
Qed.

Lemma C7_expired_challenge_witness :
  HumanVerification.verifyMathChallenge (10 * Scenario.minute)
      (Some Scenario.expiredChallenge) "5"
    = HumanVerification.Object
        (HumanVerification.mkVerdict false (Some "Verification expired. Please try again."))
  /\
  HumanVerification.verifyImageChallenge (10 * Scenario.minute)
      (Some Scenario.expiredChallenge) "5"
    = HumanVerification.mkVerdict false (Some "Verification expired. Please try again.").
Proof.
  apply (C7_expired_challenge_is_rejected (10 * Scenario.minute) Scenario.expiredChallenge "5").
  - discriminate.
  - vm_compute. reflexivity.
Defined.

(** ** RateLimiter *)

Section RateLimiterFacts.
Import Js RateLimiter.

Lemma truthy_nonempty (s : string) : s <> "" -> truthy s = true.
Proof.
  intros H. unfold truthy. destruct (String.eqb_spec s ""); [contradiction | reflexivity].
Qed.

(** Recording an attempt for one identifier leaves the others alone. *)
Lemma recordAttempt_other (t : Z) (id other : string) (store : AttemptStore) :
  other <> id -> recordAttempt t id store !! other = store !! other.
Proof.
  intros Hne. unfold recordAttempt.
  destruct (negb (truthy id)); [reflexivity |].
  apply lookup_insert_ne. congruence.
Qed.

Lemma checkRateLimit_other (t : Z) (id other : string) (store : AttemptStore) :
  other <> id -> snd (checkRateLimit t id store) !! other = store !! other.
Proof.
  intros Hne. unfold checkRateLimit.
  destruct (negb (truthy id)); [reflexivity |].
  cbn [snd]. apply lookup_insert_ne. congruence.
Qed.

Lemma recentAttempts_lookup (now : Z) (id : string) (s1 s2 : AttemptStore) :
  s1 !! id = s2 !! id -> recentAttempts now id s1 = recentAttempts now id s2.
Proof. unfold recentAttempts. intros ->. reflexivity. Qed.

(** What [checkRateLimit] answers, by cases on the age of the window. *)
Lemma limited_checkRateLimit (now : Z) (id : string) (store : AttemptStore) :
  id <> "" ->
  limited (fst (checkRateLimit now id store)) =
  if now - lastReset (lookupAttempts now id store) >=? RATE_LIMIT_WINDOW then false
  else Z.of_nat (length (recentAttempts now id store)) >=? MAX_ATTEMPTS.
Proof.
  intros Hid. unfold checkRateLimit. rewrite (truthy_nonempty _ Hid). cbn [negb fst limited].
  destruct (now - lastReset (lookupAttempts now id store) >=? RATE_LIMIT_WINDOW) eqn:E.
  - reflexivity.
  - cbn [attempts]. unfold recentAttempts, lookupAttempts.
    destruct (store !! id); reflexivity.
Qed.

End RateLimiterFacts.

(** C4, as stated, fails: five attempts recorded within the last ten
    minutes do not block the identifier once its window, opened an hour
    ago by an earlier check, is reset by the next check. *)
Lemma C4_window_reset_counterexample : ~ Stated.five_recent_attempts_block.
Proof.
  intros H.
  specialize (H (60 * Scenario.minute) "ada@example.org" Scenario.busyVisitor).
  assert (Hlimited : RateLimiter.limited
            (fst (RateLimiter.checkRateLimit (60 * Scenario.minute) "ada@example.org"
                    Scenario.busyVisitor)) = false)
    by (vm_compute; reflexivity).
  rewrite H in Hlimited.
  - discriminate.
  - discriminate.
  - vm_compute. lia.
Qed.

Example busyVisitor_recent :
  RateLimiter.recentAttempts (60 * Scenario.minute) "ada@example.org" Scenario.busyVisitor
  = [3000000; 3060000; 3120000; 3180000; 3240000].
Proof. vm_compute. reflexivity. Qed.

Example busyVisitor_blocked_before_the_hour :
  RateLimiter.limited
    (fst (RateLimiter.checkRateLimit (59 * Scenario.minute) "ada@example.org"
            Scenario.busyVisitor)) = true.
Proof. vm_compute. reflexivity. Qed.

(** C4, amended.  For every identifier whose window was opened less than
    an hour ago ([lastReset]), once five attempts recorded within the last
    hour are on its list, [checkRateLimit] returns limited = true; and for
    any other identifier with fewer than five attempts within the last
    hour, [checkRateLimit] returns limited = false, also after an attempt
    of the first identifier was recorded. *)
Theorem C4_rate_limit_blocks_sixth_attempt :
  forall (now : Z) (identifier : string) (store : RateLimiter.AttemptStore),
    identifier <> "" ->
    now - RateLimiter.lastReset (RateLimiter.lookupAttempts now identifier store)
      < RateLimiter.RATE_LIMIT_WINDOW ->
    (5 <= length (RateLimiter.recentAttempts now identifier store))%nat ->
    RateLimiter.limited (fst (RateLimiter.checkRateLimit now identifier store)) = true /\
    forall (other : string) (t : Z),
      other <> identifier ->
      (length (RateLimiter.recentAttempts now other store) < 5)%nat ->
      RateLimiter.limited (fst (RateLimiter.checkRateLimit now other store)) = false /\
      RateLimiter.limited
        (fst (RateLimiter.checkRateLimit now other
                (RateLimiter.recordAttempt t identifier store))) = false.
Proof.
  intros now identifier store Hid Hwindow Hfive. split.
  - rewrite limited_checkRateLimit by assumption.
    replace (now - RateLimiter.lastReset (RateLimiter.lookupAttempts now identifier store)
             >=? RateLimiter.RATE_LIMIT_WINDOW) with false
      by (symmetry; rewrite Z.geb_leb; apply Z.leb_gt; lia).
    unfold RateLimiter.MAX_ATTEMPTS. apply Z.geb_le. lia.
  - intros other t Hother Hfew.
    assert (Hfew_not_limited : forall s : RateLimiter.AttemptStore,
               s !! other = store !! other ->
               RateLimiter.limited (fst (RateLimiter.checkRateLimit now other s)) = false).
    { intros s Hs. unfold RateLimiter.checkRateLimit.
      destruct (negb (Js.truthy other)); [reflexivity |].
      cbn [fst RateLimiter.limited].
      unfold RateLimiter.recentAttempts in Hfew. unfold RateLimiter.lookupAttempts.
      rewrite Hs.
      destruct (store !! other) as [u|]; cbn [RateLimiter.attempts RateLimiter.lastReset].
      - destruct (now - RateLimiter.lastReset u >=? RateLimiter.RATE_LIMIT_WINDOW);
          cbn [RateLimiter.attempts length]; unfold RateLimiter.MAX_ATTEMPTS.
        + reflexivity.
        + rewrite Z.geb_leb. apply Z.leb_gt. lia.
      - destruct (now - now >=? RateLimiter.RATE_LIMIT_WINDOW); reflexivity. }
    split.
    + apply Hfew_not_limited. reflexivity.
    + apply Hfew_not_limited. apply recordAttempt_other. assumption.
Qed.

Lemma C4_rate_limit_witness :
  RateLimiter.limited
    (fst (RateLimiter.checkRateLimit (59 * Scenario.minute) "ada@example.org"
            Scenario.busyVisitor)) = true /\
  forall (other : string) (t : Z),
    other <> "ada@example.org" ->
    (length (RateLimiter.recentAttempts (59 * Scenario.minute) other Scenario.busyVisitor) < 5)%nat ->
    RateLimiter.limited
      (fst (RateLimiter.checkRateLimit (59 * Scenario.minute) other Scenario.busyVisitor)) = false /\
    RateLimiter.limited
      (fst (RateLimiter.checkRateLimit (59 * Scenario.minute) other
              (RateLimiter.recordAttempt t "ada@example.org" Scenario.busyVisitor))) = false.
Proof.
  apply (C4_rate_limit_blocks_sixth_attempt (59 * Scenario.minute) "ada@example.org"
           Scenario.busyVisitor).
  - discriminate.
  - vm_compute. reflexivity.
  - vm_compute. lia.
Defined.

(** ** Supabase: the slot queries *)

Section SlotQueryFacts.
Import Js Backend Supabase.

Lemma insertByStart_perm (s : Slot.t) (l : list Slot.t) :
  Permutation (insertByStart s l) (s :: l).
Proof.
  induction l as [|x r IH]; simpl.
  - apply Permutation_refl.
  - destruct (Slot.start_time s <=? Slot.start_time x).
    + apply Permutation_refl.
    + apply Permutation_trans with (x :: s :: r).
      * apply perm_skip. exact IH.
      * apply perm_swap.
Qed.

Lemma orderByStart_perm (l : list Slot.t) : Permutation (orderByStart l) l.
Proof.
  induction l as [|x r IH]; simpl.
  - apply perm_nil.
  - apply Permutation_trans with (x :: orderByStart r).
    + apply insertByStart_perm.
    + apply perm_skip. exact IH.
Qed.

Lemma insertByStart_head (s : Slot.t) (l : list Slot.t) (a : Slot.t) :
  startsBefore a s -> HdRel startsBefore a l -> HdRel startsBefore a (insertByStart s l).
Proof.
  intros Has Hl. destruct l as [|x r]; simpl.
  - constructor. exact Has.
  - destruct (Slot.start_time s <=? Slot.start_time x); constructor.
    + exact Has.
    + inversion Hl; assumption.
Qed.

Lemma insertByStart_sorted (s : Slot.t) (l : list Slot.t) :
  Sorted Backend.startsBefore l -> Sorted Backend.startsBefore (insertByStart s l).
Proof.
  induction l as [|x r IH]; intros Hs; simpl.
  - repeat constructor.
  - destruct (Slot.start_time s <=? Slot.start_time x) eqn:E.
    + constructor; [exact Hs |]. constructor. unfold startsBefore. now apply Z.leb_le.
    + inversion Hs as [|? ? Hr Hhd]; subst.
      constructor; [now apply IH |].
      apply insertByStart_head; [| exact Hhd].
      unfold startsBefore. apply Z.leb_gt in E. lia.
Qed.

Lemma orderByStart_sorted (l : list Slot.t) : Sorted Backend.startsBefore (orderByStart l).
Proof.
  induction l as [|x r IH]; simpl.
  - constructor.
  - now apply insertByStart_sorted.
Qed.

Lemma in_orderByStart (s : Slot.t) (l : list Slot.t) : In s (orderByStart l) <-> In s l.
Proof.
  split; apply Permutation_in;
    [apply orderByStart_perm | apply Permutation_sym, orderByStart_perm].
Qed.

Lemma in_selectSlots c f p d s :
  In s (selectSlots c f p d) <-> In s (slots d) /\ canSelectSlot p c s = true /\ f s = true.
Proof.
  unfold selectSlots. rewrite filter_In, andb_true_iff. tauto.
Qed.

(** What [getAvailableSlots] hands back when it returns: the slots in
    range that the answering client can read, ordered. *)
Lemma getAvailableSlots_returns startDate endDate w w' l :
  getAvailableSlots startDate endDate w = (Returned (Some l), w') ->
  db w' = db w /\
  exists c : Client,
    l = orderByStart (selectSlots c (inRange startDate endDate) (rls w) (db w)) /\
    (c = Service -> exists e, nextFault w = Some e /\ code e = "42501") /\
    (c = Service -> serviceKey w = true) /\
    (c = Anon -> nextFault w = None).
Proof.
  unfold getAvailableSlots, catchM, bindM, querySlotsInRange, getServiceKey, throw, ret,
    request, nextFault.
  destruct (faults w) as [|[e|] rest]; cbn.
  - intros H. injection H as <- <-.
    split; [reflexivity |]. exists Anon.
    repeat split; try reflexivity; intros H; discriminate.
  - destruct (String.eqb_spec (code e) "42501") as [Hcode|]; cbn;
      [| intros H; discriminate].
    destruct (serviceKey w); cbn; [| intros H; discriminate].
    destruct rest as [|[e1|] rest]; cbn; intros H; try discriminate;
      injection H as <- <-;
      (split; [reflexivity |]; exists Service; split; [reflexivity |];
       split; [intros _; exists e; auto | split; [reflexivity | discriminate]]).
  - intros H. injection H as <- <-.
    split; [reflexivity |]. exists Anon.
    repeat split; try reflexivity; intros H; discriminate.
Qed.

Lemma getClosestAvailableSlot_returns now futureDate w w' s :
  getClosestAvailableSlot now futureDate w = (Returned (Some s), w') ->
  In s (slots (db w)) /\ Slot.is_available s = true /\
  now <= Slot.start_time s <= futureDate.
Proof.
  unfold getClosestAvailableSlot, bindM, throw, ret.
  destruct (nextFault w) as [e|] eqn:Hf.
  - rewrite (request_fault _ _ _ Hf). cbn. intros H; discriminate.
  - rewrite (request_no_fault _ _ Hf). cbn [fst snd ok error data].
    match goal with |- context [firstn 1 ?l0] => set (rows := l0) end.
    assert (Hrows : forall x, In x rows ->
               In x (slots (db w)) /\ Slot.is_available x = true /\
               now <= Slot.start_time x <= futureDate).
    { intros x Hx. apply in_orderByStart, in_selectSlots in Hx as (Hin & _ & Hf').
      apply andb_true_iff in Hf' as [Hf' Hav]. apply andb_true_iff in Hf' as [H1 H2].
      apply Z.leb_le in H1, H2. apply Bool.eqb_prop in Hav. auto. }
    destruct rows as [|x rest]; cbn [firstn]; intros H; [discriminate |].
    injection H as <- _. apply Hrows. left. reflexivity.
Qed.

(** Under a policy that lets the anonymous key read available slots only
    (supabase/init.sql), an answer of the anonymous client holds available
    slots only; it is the fallback to the service key that brings the
    booked ones in. *)
Lemma getAvailableSlots_anonymous_answer startDate endDate w w' l :
  nextFault w = None ->
  (forall s, anon_select_slot (rls w) s = true -> Slot.is_available s = true) ->
  getAvailableSlots startDate endDate w = (Returned (Some l), w') ->
  forall s, In s l -> Slot.is_available s = true.
Proof.
  intros Hf Hpolicy H s Hs.
  apply getAvailableSlots_returns in H as (_ & c & -> & Hservice & _).
  apply in_orderByStart, in_selectSlots in Hs as (_ & Hsee & _).
  destruct c.
  - apply Hpolicy. exact Hsee.
  - destruct (Hservice eq_refl) as (e & He & _). congruence.
Qed.

End SlotQueryFacts.

(** C1, as stated, fails: with the anonymous read refused (42501) and the
    service key configured, the query falls back to the admin client and
    returns the booked slot of the range along with the free one. *)
Lemma C1_booked_slot_returned_counterexample : ~ Stated.only_available_slots_returned.
Proof.
  intros H.
  specialize (H 0 (24 * Scenario.hour) Scenario.deniedWorld
                (snd (Supabase.getAvailableSlots 0 (24 * Scenario.hour) Scenario.deniedWorld))
                [Scenario.bookedSlot; Scenario.freeSlot]).
  assert (Hflag : Slot.is_available Scenario.bookedSlot = true).
  { apply H; [vm_compute; reflexivity | left; reflexivity]. }
  discriminate.
Qed.

Example getAvailableSlots_open_policy :
  fst (Supabase.getAvailableSlots 0 (24 * Scenario.hour) Scenario.openWorld)
  = Js.Returned (Some [Scenario.bookedSlot; Scenario.freeSlot]).
Proof. vm_compute. reflexivity. Qed.

Example getAvailableSlots_init_policy :
  fst (Supabase.getAvailableSlots 0 (24 * Scenario.hour) Scenario.initWorld)
  = Js.Returned (Some [Scenario.freeSlot]).
Proof. vm_compute. reflexivity. Qed.

(** C1, amended.  Whenever [getAvailableSlots] returns a list for a date
    range, the list is ordered by start time, the table is left as it was,
    and the list holds exactly the slots of the table that start at or
    after [startDate], end at or before [endDate] and can be read by the
    client that answered, whatever their [is_available] flag.  The client
    that answered is the anonymous one whenever the anonymous read is
    answered; it is the service client only when the anonymous read was
    refused with the code 42501 and a service key is configured.  So,
    under a policy that lets the anonymous key read available slots only,
    an answer to the anonymous read holds available slots only.  A slot
    returned by [getClosestAvailableSlot] is always marked available. *)
Theorem C1_getAvailableSlots_returns_slots_in_range :
  forall (startDate endDate : Z) (w w' : Backend.World) (l : list Slot.t),
    Supabase.getAvailableSlots startDate endDate w = (Js.Returned (Some l), w') ->
    ((Backend.nextFault w = None /\
      forall s : Slot.t,
        In s l <->
        In s (Backend.slots (Backend.db w)) /\
        Backend.canSelectSlot (Backend.rls w) Backend.Anon s = true /\
        startDate <= Slot.start_time s /\ Slot.end_time s <= endDate) \/
     (exists e : Js.Error,
         Backend.nextFault w = Some e /\ Js.code e = "42501" /\
         Backend.serviceKey w = true /\
         forall s : Slot.t,
           In s l <->
           In s (Backend.slots (Backend.db w)) /\
           Backend.canSelectSlot (Backend.rls w) Backend.Service s = true /\
           startDate <= Slot.start_time s /\ Slot.end_time s <= endDate)) /\
    (Backend.nextFault w = None ->
     (forall s : Slot.t,
         Backend.anon_select_slot (Backend.rls w) s = true -> Slot.is_available s = true) ->
     forall s : Slot.t, In s l -> Slot.is_available s = true) /\
    Sorted Backend.startsBefore l /\
    Backend.db w' = Backend.db w /\
    (forall (now futureDate : Z) (v v' : Backend.World) (s : Slot.t),
        Supabase.getClosestAvailableSlot now futureDate v = (Js.Returned (Some s), v') ->
        Slot.is_available s = true).
Proof.
  intros startDate endDate w w' l H.
  pose proof (getAvailableSlots_anonymous_answer startDate endDate w w' l) as Hanonymous.
  pose proof H as Hreturned.
  apply getAvailableSlots_returns in H as (Hdb & c & -> & Hrefused & Hkey & Hanswered).
  assert (Hrows : forall s : Slot.t,
             In s (Backend.orderByStart
                     (Backend.selectSlots c (Supabase.inRange startDate endDate)
                        (Backend.rls w) (Backend.db w))) <->
             In s (Backend.slots (Backend.db w)) /\
             Backend.canSelectSlot (Backend.rls w) c s = true /\
             startDate <= Slot.start_time s /\ Slot.end_time s <= endDate).
  { intros s. rewrite in_orderByStart, in_selectSlots.
    unfold Supabase.inRange. rewrite andb_true_iff, !Z.leb_le. tauto. }
  split; [| split; [| split; [apply orderByStart_sorted | split; [exact Hdb |]]]].
  - destruct c.
    + left. split; [apply Hanswered; reflexivity | exact Hrows].
    + right. destruct (Hrefused eq_refl) as (e & Hfault & Hcode).
      exists e. split; [exact Hfault |]. split; [exact Hcode |].
      split; [apply Hkey; reflexivity | exact Hrows].
  - intros Hfault Hpolicy. exact (Hanonymous Hfault Hpolicy Hreturned).
  - intros now futureDate v v' s Hs.
    now apply getClosestAvailableSlot_returns in Hs.
Qed.

Lemma C1_getAvailableSlots_witness :
  ((Backend.nextFault Scenario.initWorld = None /\
    forall s : Slot.t,
      In s [Scenario.freeSlot] <->
      In s (Backend.slots (Backend.db Scenario.initWorld)) /\
      Backend.canSelectSlot (Backend.rls Scenario.initWorld) Backend.Anon s = true /\
      0 <= Slot.start_time s /\ Slot.end_time s <= 24 * Scenario.hour) \/
   (exists e : Js.Error,
       Backend.nextFault Scenario.initWorld = Some e /\ Js.code e = "42501" /\
       Backend.serviceKey Scenario.initWorld = true /\
       forall s : Slot.t,
         In s [Scenario.freeSlot] <->
         In s (Backend.slots (Backend.db Scenario.initWorld)) /\
         Backend.canSelectSlot (Backend.rls Scenario.initWorld) Backend.Service s = true /\
         0 <= Slot.start_time s /\ Slot.end_time s <= 24 * Scenario.hour)) /\
  (Backend.nextFault Scenario.initWorld = None ->
   (forall s : Slot.t,
       Backend.anon_select_slot (Backend.rls Scenario.initWorld) s = true ->
       Slot.is_available s = true) ->
   forall s : Slot.t, In s [Scenario.freeSlot] -> Slot.is_available s = true) /\
  Sorted Backend.startsBefore [Scenario.freeSlot] /\
  Backend.db (snd (Supabase.getAvailableSlots 0 (24 * Scenario.hour) Scenario.initWorld))
    = Backend.db Scenario.initWorld /\
  (forall (now futureDate : Z) (v v' : Backend.World) (s : Slot.t),
      Supabase.getClosestAvailableSlot now futureDate v = (Js.Returned (Some s), v') ->
      Slot.is_available s = true).
Proof.
  apply (C1_getAvailableSlots_returns_slots_in_range 0 (24 * Scenario.hour)
           Scenario.initWorld
           (snd (Supabase.getAvailableSlots 0 (24 * Scenario.hour) Scenario.initWorld))
           [Scenario.freeSlot]).
  vm_compute. reflexivity.
Defined.

(** The fallback at work: refused with 42501, the query answers through
    the service key and the booked slot comes along. *)
Example getAvailableSlots_fallback :
  fst (Supabase.getAvailableSlots 0 (24 * Scenario.hour) Scenario.deniedWorld)
  = Js.Returned (Some [Scenario.bookedSlot; Scenario.freeSlot]).
Proof. vm_compute. reflexivity. Qed.

Example getClosestAvailableSlot_skips_booked :
  fst (Supabase.getClosestAvailableSlot 0 (24 * Scenario.hour) Scenario.openWorld)
  = Js.Returned (Some Scenario.freeSlot).
Proof. vm_compute. reflexivity. Qed.

(** ** Supabase and userService: cancelling and deleting reservations *)

Section CancellationFacts.
Import Js Backend Supabase.

(** No request of [cancelReservation] touches the slots table. *)
Lemma cancelReservation_keeps_slots (reservationId : string) (w : World) :
  slots (db (snd (cancelReservation reservationId w))) = slots (db w).
Proof.
  unfold cancelReservation, catchM, bindM, ret, request.
  destruct (faults w) as [|[e|] rest]; reflexivity.
Qed.

(** Nor does any request of [updateReservationStatus], whatever the new
    status. *)
Lemma updateReservationStatus_keeps_slots (reservationId status reason : string) (w : World) :
  slots (db (snd (updateReservationStatus reservationId status reason w))) = slots (db w).
Proof.
  unfold updateReservationStatus, catchM, bindM, ret, throw, getServiceKey, request.
  destruct (serviceKey w); cbn; [| reflexivity].
  destruct (faults w) as [|[e|] rest]; cbn; try reflexivity;
    match goal with
    | |- context [head ?l] => destruct (head l); reflexivity
    end.
Qed.

Lemma updateSlotAvailability_sets (slotId : string) (b : bool) (d : Database) (s : Slot.t) :
  In s (slots (updateSlotAvailability slotId b d)) ->
  Slot.id s = slotId -> Slot.is_available s = b.
Proof.
  unfold updateSlotAvailability. cbn [slots]. rewrite in_map_iff.
  intros (x & Hx & _) Hid.
  destruct (String.eqb_spec (Slot.id x) slotId) as [Heq|Hne]; subst s.
  - reflexivity.
  - contradiction.
Qed.

Lemma resetSlotAvailability_sets (slotId : string) (w w' : World) (r : option Slot.t) :
  resetSlotAvailability slotId w = (Returned r, w') ->
  forall s : Slot.t,
    In s (slots (db w')) -> Slot.id s = slotId -> Slot.is_available s = true.
Proof.
  unfold resetSlotAvailability, bindM, ret, throw, getServiceKey, request.
  destruct (serviceKey w); cbn; [| intros H; discriminate].
  destruct (faults w) as [|[e|] rest]; cbn [fst snd ok failed error data];
    intros H; try discriminate;
    injection H as <- <-; intros s Hin Hid; cbn [db] in Hin;
    eapply updateSlotAvailability_sets; eassumption.
Qed.

Local Arguments resetSlotAvailability : simpl never.

(** [deleteReservation], the sibling operation, does reset the slot. *)
Lemma deleteReservation_resets_slot (reservationId : string) (w w' : World) (j : Joined) :
  deleteReservation reservationId w = (Returned j, w') ->
  Reservation.slot_id (fst j) <> "" ->
  forall s : Slot.t,
    In s (slots (db w')) -> Slot.id s = Reservation.slot_id (fst j) ->
    Slot.is_available s = true.
Proof.
  unfold deleteReservation, catchM, bindM, ret, throw, getServiceKey.
  destruct (serviceKey w); cbn; [| intros H; discriminate].
  destruct (request _ w) as [[fetched|e] w1]; [| intros H; discriminate].
  destruct (error fetched); [intros H; discriminate |].
  destruct (request _ w1) as [[deleted|e] w2]; [| intros H; discriminate].
  destruct (error deleted); [intros H; discriminate |].
  destruct (data fetched) as [reservation|]; [| intros H; discriminate].
  destruct (truthy (Reservation.slot_id (fst reservation))) eqn:Ht.
  - destruct (resetSlotAvailability (Reservation.slot_id (fst reservation)) w2)
      as [[reset|e] w3] eqn:Hreset; cbn; intros H; [| discriminate].
    injection H as <- <-. intros _.
    eapply resetSlotAvailability_sets; eassumption.
  - intros H. injection H as <- <-. intros Hne.
    rewrite (truthy_nonempty _ Hne) in Ht. discriminate.
Qed.

End CancellationFacts.

(** C2.  The code at the failing input: a confirmed reservation on a booked
    slot.  The user's [cancelReservation] reports success and removes the
    reservation, and the admin's [updateReservationStatus] sets the status
    to cancelled, but after either of them the slot is still marked
    unavailable; only [deleteReservation] marks it available again. *)
Theorem C2_cancellation_leaves_slot_unavailable :
  (exists w' : Backend.World,
      Supabase.cancelReservation "res-1" Scenario.openWorld
        = (Js.Returned (Supabase.mkCancelResult true None), w') /\
      Backend.reservations (Backend.db w') = [] /\
      Backend.slotOf (Backend.db w') "slot-1" = Some Scenario.bookedSlot /\
      Slot.is_available Scenario.bookedSlot = false) /\
  (exists (w' : Backend.World) (r : Reservation.t),
      Supabase.updateReservationStatus "res-1" "cancelled" "no show" Scenario.openWorld
        = (Js.Returned (Some (r, Some Scenario.bookedSlot)), w') /\
      Reservation.status r = "cancelled" /\
      Backend.reservations (Backend.db w') = [r] /\
      Backend.slotOf (Backend.db w') "slot-1" = Some Scenario.bookedSlot) /\
  (exists w' : Backend.World,
      Supabase.deleteReservation "res-1" Scenario.openWorld
        = (Js.Returned (Scenario.booking, Some Scenario.bookedSlot), w') /\
      Backend.reservations (Backend.db w') = [] /\
      Backend.slotOf (Backend.db w') "slot-1"
        = Some (Slot.setAvailable true Scenario.bookedSlot)).
Proof.
  split; [| split].
  - eexists. vm_compute. repeat split; reflexivity.
  - eexists _, _. vm_compute. repeat split; reflexivity.
  - eexists. vm_compute. repeat split; reflexivity.
Qed.

(** ** BookingPage: the submit handler *)

Ltac branch :=
  match goal with
  | |- context [match ?x with _ => _ end] =>
      lazymatch x with
      | context [match _ with _ => _ end] => fail
      | _ => destruct x eqn:?
      end
  end.

Ltac absurd_call H :=
  exfalso; cbn in H;
  repeat match type of H with
         | _ \/ _ => destruct H as [H | H]
         | False => exact H
         | _ = _ => discriminate H
         end.



(** The just-in-time check reads the flag of the slot off the table. *)
Lemma verifySlotAvailability_reads_flag (slotId : string) (w : Backend.World) (s : Slot.t) :
  Backend.nextFault w = None ->
  Backend.selectSlots Backend.Anon (fun x => String.eqb (Slot.id x) slotId)
                      (Backend.rls w) (Backend.db w) = [s] ->
  fst (Supabase.verifySlotAvailability slotId w) = Js.Returned (Slot.is_available s).
Proof.
  intros Hf Hrow.
  unfold Supabase.verifySlotAvailability, Supabase.queryIsAvailable,
    Backend.catchM, Backend.bindM.
  rewrite (request_no_fault _ _ Hf). cbn [fst snd]. rewrite Hrow. reflexivity.
Qed.

Example handleSubmit_goes_through :
  let run := BookingPage.handleSubmit Scenario.smoothEnv ∅ Scenario.readyState in
  BookingPage.submitSuccess (BookingPage.state run) = true /\
  BookingPage.calls run =
    [BookingPage.GetUserReservationCount "ada@example.org";
     BookingPage.VerifySlotAvailability "slot-2";
     BookingPage.RegisterUser "Ada Lovelace" "ada@example.org" "G1";
     BookingPage.CreateReservation "slot-2" Scenario.adaForm;
     BookingPage.SendBookingConfirmationEmail Scenario.adaForm Scenario.freeSlot
       "ADR-20250409-AJS1"].
Proof. vm_compute. split; reflexivity. Qed.

(** C9.  Whenever a submission reaches the reservation count and
    [getUserReservationCount] reports success with a count of at least 1,
    the handler leaves the error 'You already have an active
    reservation...', and the count query is the only call it makes: no
    availability check, no [registerUser], no [createReservation]; the
    selection and the success flag stay as they were. *)
Theorem C9_active_reservation_rejects_submission :
  forall (env : BookingPage.Env) (store : RateLimiter.AttemptStore)
         (closure : BookingPage.State) (email : string)
         (found : BookingPage.ReservationCount),
    In (BookingPage.GetUserReservationCount email)
       (BookingPage.calls (BookingPage.handleSubmit env store closure)) ->
    BookingPage.reservationCount env = Js.Returned found ->
    BookingPage.count_success found = true ->
    BookingPage.count found >= 1 ->
    let run := BookingPage.handleSubmit env store closure in
    BookingPage.submitError (BookingPage.state run)
      = Some "You already have an active reservation. Please cancel your existing reservation before making a new one. You can manage your reservations in your profile page." /\
    BookingPage.calls run = [BookingPage.GetUserReservationCount email] /\
    forallb (fun c => negb (BookingPage.registersOrCreates c)) (BookingPage.calls run) = true /\
    BookingPage.selectedSlot (BookingPage.state run) = BookingPage.selectedSlot closure /\
    BookingPage.submitSuccess (BookingPage.state run) = BookingPage.submitSuccess closure /\
    BookingPage.submitting (BookingPage.state run) = false.
Proof.
  intros env store closure email found Hin Hfound Hsuccess Hcount. revert Hin.
  unfold BookingPage.handleSubmit, BookingPage.submitBody, BookingPage.submitFromVerification.
  rewrite Hfound, Hsuccess.
  replace (BookingPage.count found >=? 1) with true by (symmetry; apply Z.geb_le; lia).
  cbn [andb].
  repeat branch; cbn; intros Hin; try (solve [absurd_call Hin]).
  destruct Hin as [Hin | []]. injection Hin as ->.
  repeat split; reflexivity.
Qed.

Lemma C9_active_reservation_witness :
  let run := BookingPage.handleSubmit Scenario.returningEnv ∅ Scenario.readyState in
  BookingPage.submitError (BookingPage.state run)
    = Some "You already have an active reservation. Please cancel your existing reservation before making a new one. You can manage your reservations in your profile page." /\
  BookingPage.calls run = [BookingPage.GetUserReservationCount "ada@example.org"] /\
  forallb (fun c => negb (BookingPage.registersOrCreates c)) (BookingPage.calls run) = true /\
  BookingPage.selectedSlot (BookingPage.state run)
    = BookingPage.selectedSlot Scenario.readyState /\
  BookingPage.submitSuccess (BookingPage.state run)
    = BookingPage.submitSuccess Scenario.readyState /\
  BookingPage.submitting (BookingPage.state run) = false.
Proof.
  apply (C9_active_reservation_rejects_submission Scenario.returningEnv ∅ Scenario.readyState
           "ada@example.org" (BookingPage.mkReservationCount true 1)).
  - vm_compute. left. reflexivity.
  - reflexivity.
  - reflexivity.
  - simpl. lia.
Defined.

(** ** EmailService and BookingPage: the confirmation email *)

Lemma or_else_nonempty (a b : string) : b <> "" -> Js.or_else a b <> "".
Proof.
  intros Hb. unfold Js.or_else, Js.truthy.
  destruct (String.eqb_spec a ""); cbn; assumption.
Qed.



Example email_not_configured :
  EmailService.sendBookingConfirmationEmail Scenario.noEmailEnv
    (Scenario.runtime (Js.Returned 200)) None
  = Js.Returned (EmailService.mkEmailResult false (Some "Email service not configured") None).
Proof. reflexivity. Qed.

Example email_gateway_rejects :
  EmailService.sendBookingConfirmationEmail Scenario.emailEnv
    (Scenario.runtime (Js.Returned 422))
    (Some (EmailService.mkBookingData (Some Scenario.adaForm)
             (Some (EmailService.mkSlotInfo "" "2025-04-09T10:00:00Z" "")) "ADR-20250409-AJS1"))
  = Js.Returned (EmailService.mkEmailResult false
                   (Some "Email service returned status: 422") None).
Proof. vm_compute. reflexivity. Qed.

(** ** CalendarUtils and BookingPage: selecting a slot *)

Section SlotSelectionFacts.
Import CalendarUtils.


End SlotSelectionFacts.




Example quickBook_selects_disabled_slot :
  CalendarUtils.isSlotDisabled Scenario.halfPastNine (Slot.start_time Scenario.freeSlot) = true /\
  BookingPage.selectedSlot
    (fst (BookingPage.quickBookEffect true (Some Scenario.freeSlot) (Js.Returned true)
            Scenario.initialState))
  = Some Scenario.freeSlot.
Proof. split; reflexivity. Qed.

(** A slot object without an id is dropped by the first guard of
    [handleSlotSelect]: nothing is selected and no error is reported. *)
Example handleSlotSelect_without_id :
  BookingPage.handleSlotSelect Scenario.halfPastNine false (Js.Returned true)
    (Some (Slot.mk "" (10 * Scenario.hour) (11 * Scenario.hour) true)) Scenario.initialState
  = (Scenario.initialState, []).
Proof. reflexivity. Qed.

(** A slot that starts after the boundary is selected once the
    availability check succeeds. *)
Example handleSlotSelect_selects_later_slot :
  BookingPage.handleSlotSelect Scenario.halfPastNine false (Js.Returned true)
    (Some (Slot.mk "slot-3" (11 * Scenario.hour) (12 * Scenario.hour) true))
    Scenario.initialState
  = (BookingPage.setSubmitError None
       (BookingPage.setSelectedSlot
          (Some (Slot.mk "slot-3" (11 * Scenario.hour) (12 * Scenario.hour) true))
          Scenario.initialState),
     [BookingPage.VerifySlotAvailability "slot-3"]).
Proof. reflexivity. Qed.

(* ===================================================================== *)
(** * Part III: further properties of the code *)
(* ===================================================================== *)

(** ** RateLimiter *)

Section LimiterSessions.
Import Js RateLimiter Session.

Lemma filter_all_true {A} (f : A -> bool) (l : list A) :
  (forall x, In x l -> f x = true) -> List.filter f l = l.
Proof.
  induction l as [|a l IH]; intros H; simpl; [reflexivity |].
  rewrite (H a) by (left; reflexivity). f_equal. apply IH.
  intros x Hx. apply H. right. exact Hx.
Qed.

Lemma filter_idem {A} (f : A -> bool) (l : list A) :
  List.filter f (List.filter f l) = List.filter f l.
Proof.
  apply filter_all_true. intros x Hx. apply filter_In in Hx. tauto.
Qed.

Lemma geb_false (a b : Z) : a < b -> (a >=? b) = false.
Proof. intros H. rewrite Z.geb_leb. apply Z.leb_gt. exact H. Qed.

Lemma geb_true (a b : Z) : b <= a -> (a >=? b) = true.
Proof. intros H. apply Z.geb_le. lia. Qed.

(** Inside the window opened at [t0], checks and recorded attempts only
    append the recorded times to the list of the identifier. *)
Lemma run_in_window (id : string) (t0 : Z) (ops : list Op) :
  id <> "" ->
  (forall o, In o ops -> t0 <= opTime o < t0 + RATE_LIMIT_WINDOW) ->
  forall (store : AttemptStore) (l : list Z),
    store !! id = Some (mkUserAttempts l t0) ->
    (forall x, In x l -> t0 <= x) ->
    run id ops store !! id = Some (mkUserAttempts (l ++ recordedTimes ops) t0).
Proof.
  intros Hid. induction ops as [|o ops IH]; intros Hops store l Hstore Hl.
  - simpl. rewrite app_nil_r. exact Hstore.
  - assert (Ho : t0 <= opTime o < t0 + RATE_LIMIT_WINDOW) by (apply Hops; left; reflexivity).
    assert (Hrest : forall o', In o' ops -> t0 <= opTime o' < t0 + RATE_LIMIT_WINDOW)
      by (intros o' Ho'; apply Hops; right; exact Ho').
    destruct o as [t | t]; cbn [run fold_left step recordedTimes opTime] in *.
    + apply (IH Hrest); [| exact Hl].
      unfold checkRateLimit. rewrite (truthy_nonempty _ Hid). cbn [negb snd].
      unfold lookupAttempts. rewrite Hstore. cbn [attempts lastReset].
      rewrite geb_false by lia.
      rewrite filter_all_true.
      * apply lookup_insert_eq.
      * intros x Hx. apply Z.ltb_lt. specialize (Hl x Hx). lia.
    + replace (l ++ t :: recordedTimes ops)%list with ((l ++ [t]) ++ recordedTimes ops)%list
        by (rewrite <- app_assoc; reflexivity).
      apply (IH Hrest).
      * unfold recordAttempt. rewrite (truthy_nonempty _ Hid). cbn [negb].
        unfold lookupAttempts. rewrite Hstore. cbn [attempts lastReset].
        apply lookup_insert_eq.
      * intros x Hx. apply in_app_or in Hx as [Hx | [<- | []]]; [apply Hl; exact Hx | lia].
Qed.

End LimiterSessions.

(** X1.  A visitor who is new to the limiter gets exactly five attempts in
    the hour that starts with the first check: after that check, whatever
    checks and recorded attempts follow within the hour, a check within
    the hour reports limited exactly when five or more attempts were
    recorded, the remaining attempts as five minus their number (never
    below zero), and the end of the hour as the reset time. *)
Theorem X1_fresh_visitor_gets_five_attempts :
  forall (identifier : string) (store : RateLimiter.AttemptStore)
         (t0 now : Z) (ops : list Session.Op),
    identifier <> "" ->
    store !! identifier = None ->
    (forall o, In o ops ->
               t0 <= Session.opTime o < t0 + RateLimiter.RATE_LIMIT_WINDOW) ->
    t0 <= now < t0 + RateLimiter.RATE_LIMIT_WINDOW ->
    let k := Z.of_nat (length (Session.recordedTimes ops)) in
    fst (RateLimiter.checkRateLimit now identifier
           (Session.run identifier ops
              (snd (RateLimiter.checkRateLimit t0 identifier store))))
    = RateLimiter.Status (5 <=? k) (Z.max 0 (5 - k))
                         (t0 + RateLimiter.RATE_LIMIT_WINDOW - now)
                         (t0 + RateLimiter.RATE_LIMIT_WINDOW).
Proof.
  intros id store t0 now ops Hid Hnew Hops Hnow k.
  assert (Hfirst : snd (RateLimiter.checkRateLimit t0 id store) !! id
                   = Some (RateLimiter.mkUserAttempts [] t0)).
  { unfold RateLimiter.checkRateLimit. rewrite (truthy_nonempty _ Hid). cbn [negb snd].
    unfold RateLimiter.lookupAttempts. rewrite Hnew. cbn [RateLimiter.attempts RateLimiter.lastReset].
    rewrite Z.sub_diag. cbn [List.filter]. rewrite lookup_insert_eq.
    destruct (0 >=? RateLimiter.RATE_LIMIT_WINDOW); reflexivity. }
  pose proof (run_in_window id t0 ops Hid Hops _ [] Hfirst ltac:(intros x [])) as Hrun.
  cbn [app] in Hrun.
  unfold RateLimiter.checkRateLimit at 1. rewrite (truthy_nonempty _ Hid). cbn [negb fst].
  unfold RateLimiter.lookupAttempts. rewrite Hrun.
  cbn [RateLimiter.attempts RateLimiter.lastReset].
  rewrite (geb_false (now - t0)) by lia. cbn [RateLimiter.attempts RateLimiter.lastReset].
  rewrite filter_all_true.
  - fold k. unfold RateLimiter.MAX_ATTEMPTS. f_equal.
    + rewrite Z.geb_leb. reflexivity.
    + lia.
  - intros x Hx. apply Z.ltb_lt.
    assert (Hx0 : t0 <= x).
    { clear - Hx Hops. induction ops as [|[t|t] ops IH]; cbn in Hx.
      - destruct Hx.
      - apply IH; [intros o Ho; apply Hops; right; exact Ho | exact Hx].
      - destruct Hx as [<- | Hx].
        + specialize (Hops (Session.Record t) ltac:(left; reflexivity)). cbn in Hops. lia.
        + apply IH; [intros o Ho; apply Hops; right; exact Ho | exact Hx]. }
    lia.
Qed.

Lemma X1_fresh_visitor_witness :
  fst (RateLimiter.checkRateLimit (30 * Scenario.minute) "ada@example.org"
         (Session.run "ada@example.org" Cases.twoAttempts
            (snd (RateLimiter.checkRateLimit 0 "ada@example.org" ∅))))
  = RateLimiter.Status false 3 (30 * Scenario.minute) (60 * Scenario.minute).
Proof.
  apply (X1_fresh_visitor_gets_five_attempts "ada@example.org" ∅ 0 (30 * Scenario.minute)
           Cases.twoAttempts).
  - discriminate.
  - reflexivity.
  - intros o Ho. cbn in Ho.
    destruct Ho as [<- | [<- | [<- | []]]]; vm_compute; (split; [discriminate | reflexivity]).
  - vm_compute. split; [discriminate | reflexivity].
Defined.

Lemma lookupAttempts_insert (now : Z) (id : string) (u : RateLimiter.UserAttempts)
    (store : RateLimiter.AttemptStore) :
  RateLimiter.lookupAttempts now id (<[id := u]> store) = u.
Proof. unfold RateLimiter.lookupAttempts. rewrite lookup_insert_eq. reflexivity. Qed.

(** X2.  Checking the limit does not use up anything: a second check at
    the same instant returns the same status and leaves the store as the
    first check left it. *)
Theorem X2_checking_twice_changes_nothing :
  forall (now : Z) (identifier : string) (store : RateLimiter.AttemptStore),
    RateLimiter.checkRateLimit now identifier
      (snd (RateLimiter.checkRateLimit now identifier store))
    = RateLimiter.checkRateLimit now identifier store.
Proof.
  intros now id store. unfold RateLimiter.checkRateLimit.
  destruct (negb (Js.truthy id)) eqn:Hid; [reflexivity |].
  cbn [snd]. rewrite !lookupAttempts_insert.
  set (u := RateLimiter.lookupAttempts now id store).
  destruct (now - RateLimiter.lastReset u >=? RateLimiter.RATE_LIMIT_WINDOW) eqn:Hreset;
    cbn [RateLimiter.attempts RateLimiter.lastReset List.filter].
  - rewrite Z.sub_diag. change (0 >=? RateLimiter.RATE_LIMIT_WINDOW) with false.
    cbn [RateLimiter.attempts RateLimiter.lastReset length].
    rewrite insert_insert_eq. reflexivity.
  - rewrite Hreset. cbn [RateLimiter.attempts RateLimiter.lastReset].
    rewrite filter_idem, insert_insert_eq. reflexivity.
Qed.

Section LimiterWaiting.
Import Js RateLimiter Session.

Lemma record_run_entry (id : string) (ts : list Z) :
  id <> "" ->
  forall (store : AttemptStore) (u : UserAttempts),
    store !! id = Some u ->
    run id (List.map Record ts) store !! id
    = Some (mkUserAttempts (attempts u ++ ts) (lastReset u)).
Proof.
  intros Hid. induction ts as [|t ts IH]; intros store u Hu.
  - cbn. rewrite app_nil_r. destruct u. exact Hu.
  - cbn [List.map run fold_left step].
    change (fold_left (step id) (List.map Record ts) (recordAttempt t id store))
      with (run id (List.map Record ts) (recordAttempt t id store)).
    rewrite (IH _ (mkUserAttempts (attempts u ++ [t]) (lastReset u))).
    + cbn [attempts lastReset]. rewrite <- app_assoc. reflexivity.
    + unfold recordAttempt. rewrite (truthy_nonempty _ Hid). cbn [negb].
      unfold lookupAttempts. rewrite Hu. apply lookup_insert_eq.
Qed.

End LimiterWaiting.

(** X3.  The waiting time that a check reports is honoured: a check made
    once that time has passed answers not limited, with all five attempts
    remaining, whatever attempts were recorded in between. *)
Theorem X3_reported_waiting_time_is_honoured :
  forall (now later : Z) (identifier : string) (store : RateLimiter.AttemptStore)
         (recorded : list Z),
    identifier <> "" ->
    now + RateLimiter.timeUntilReset (fst (RateLimiter.checkRateLimit now identifier store))
      <= later ->
    fst (RateLimiter.checkRateLimit later identifier
           (Session.run identifier (List.map Session.Record recorded)
              (snd (RateLimiter.checkRateLimit now identifier store))))
    = RateLimiter.Status false 5 RateLimiter.RATE_LIMIT_WINDOW
                         (later + RateLimiter.RATE_LIMIT_WINDOW).
Proof.
  intros now later id store recorded Hid.
  unfold RateLimiter.checkRateLimit at 1 2 3. rewrite (truthy_nonempty _ Hid).
  cbn [negb fst snd RateLimiter.timeUntilReset].
  set (u := RateLimiter.lookupAttempts now id store).
  set (u' := if now - RateLimiter.lastReset u >=? RateLimiter.RATE_LIMIT_WINDOW
             then RateLimiter.mkUserAttempts [] now
             else RateLimiter.mkUserAttempts
                    (List.filter (fun timestamp => now - timestamp <? RateLimiter.RATE_LIMIT_WINDOW)
                                 (RateLimiter.attempts u))
                    (RateLimiter.lastReset u)).
  intros Hlater.
  unfold RateLimiter.lookupAttempts.
  rewrite (record_run_entry id recorded Hid _ u') by apply lookup_insert_eq.
  cbn [RateLimiter.attempts RateLimiter.lastReset].
  rewrite (geb_true (later - RateLimiter.lastReset u')) by lia.
  cbn [RateLimiter.attempts RateLimiter.lastReset length].
  f_equal. unfold RateLimiter.RATE_LIMIT_WINDOW. lia.
Qed.

Lemma X3_reported_waiting_time_witness :
  fst (RateLimiter.checkRateLimit (110 * Scenario.minute) "ada@example.org"
         (Session.run "ada@example.org" (List.map Session.Record [100 * Scenario.minute])
            (snd (RateLimiter.checkRateLimit (59 * Scenario.minute) "ada@example.org"
                    Scenario.busyVisitor))))
  = RateLimiter.Status false 5 RateLimiter.RATE_LIMIT_WINDOW
                       (110 * Scenario.minute + RateLimiter.RATE_LIMIT_WINDOW).
Proof.
  apply (X3_reported_waiting_time_is_honoured (59 * Scenario.minute) (110 * Scenario.minute)
           "ada@example.org" Scenario.busyVisitor [100 * Scenario.minute]).
  - discriminate.
  - vm_compute. discriminate.
Defined.

(** ** HumanVerification: generated challenges *)

Section ChallengeFacts.
Import Js HumanVerification Challenges.

Lemma toString_nonempty (n : Z) : toString n <> "".
Proof.
  unfold toString, DecimalString.NilZero.string_of_int.
  destruct (Z.to_int n) as [d | d]; [| discriminate].
  destruct d; discriminate.
Qed.

Lemma trim_nonempty (u : string) : trim u <> "" -> truthy u = true.
Proof. destruct u; [intros H; contradiction H; reflexivity | reflexivity]. Qed.

Lemma lowerChar_fixed (c : ascii) :
  Cases.isLowerLetter (lowerChar c) = false -> lowerChar c = c.
Proof.
  destruct c as [[|] [|] [|] [|] [|] [|] [|] [|]]; vm_compute; intros H;
    first [reflexivity | discriminate H].
Qed.

(** Lower-casing can only have produced lower-case letters. *)
Lemma toLowerCase_inv (s a : string) :
  toLowerCase s = a -> Cases.noLowerLetter a = true -> s = a.
Proof.
  revert a. induction s as [|c s IH]; intros a Ha Hno.
  - exact Ha.
  - cbn [toLowerCase] in Ha. subst a. cbn [Cases.noLowerLetter Pattern.allChars] in Hno.
    apply andb_true_iff in Hno as [Hc Hs].
    apply negb_true_iff in Hc. rewrite (lowerChar_fixed _ Hc).
    f_equal. apply (IH _ eq_refl Hs).
Qed.

Lemma gtb_false (a b : Z) : a <= b -> (a >? b) = false.
Proof. intros H. rewrite Z.gtb_ltb. apply Z.ltb_ge. exact H. Qed.

Lemma mathQuestion_dispatch (r1 r2 t : Z) :
  includes (question (generateMathChallenge r1 r2 t)) "What is" = true.
Proof. reflexivity. Qed.

(** What [verifyChallenge] answers on a math challenge that has not
    expired. *)
Lemma verifyChallenge_math (r1 r2 t now : Z) (u : string) :
  now - t <= fiveMinutes ->
  verifyChallenge now (Some (generateMathChallenge r1 r2 t)) u =
  if truthy u then
    if String.eqb (trim u) (toString (r1 + 1 + (r2 + 1)))
    then Object (mkVerdict true None)
    else Object (mkVerdict false (Some "Incorrect answer. Please try again."))
  else BareFalse.
Proof.
  intros Ht. unfold verifyChallenge. rewrite mathQuestion_dispatch.
  unfold verifyMathChallenge. destruct (truthy u); cbn [negb]; [| reflexivity].
  cbn [timestamp generateMathChallenge answer]. rewrite (gtb_false _ _ Ht). reflexivity.
Qed.

End ChallengeFacts.

(** X4.  A generated math challenge is passed, within its five minutes,
    by exactly the answers that are the decimal sum of its two numbers once
    the white space around them is removed. *)
Theorem X4_math_challenge_accepts_exactly_the_sum :
  forall (r1 r2 t now : Z) (userAnswer : string),
    now - t <= HumanVerification.fiveMinutes ->
    Challenges.resultSuccess
      (HumanVerification.verifyChallenge now
         (Some (Challenges.generateMathChallenge r1 r2 t)) userAnswer) = true
    <-> Js.trim userAnswer = Js.toString ((r1 + 1) + (r2 + 1)).
Proof.
  intros r1 r2 t now u Ht. rewrite (verifyChallenge_math r1 r2 t now u Ht).
  destruct (String.eqb_spec (Js.trim u) (Js.toString (r1 + 1 + (r2 + 1)))) as [Heq | Hne].
  - rewrite trim_nonempty by (rewrite Heq; apply toString_nonempty). cbn. tauto.
  - destruct (Js.truthy u); cbn; split; intros H; first [discriminate H | contradiction].
Qed.

Lemma X4_math_challenge_witness :
  Challenges.resultSuccess
    (HumanVerification.verifyChallenge (12 * Scenario.minute)
       (Some (Challenges.generateMathChallenge 6 4 (10 * Scenario.minute))) " 12 ") = true
  <-> Js.trim " 12 " = Js.toString ((6 + 1) + (4 + 1)).
Proof.
  apply (X4_math_challenge_accepts_exactly_the_sum 6 4 (10 * Scenario.minute)
           (12 * Scenario.minute) " 12 ").
  vm_compute. discriminate.
Defined.

Example sevenPlusFive_question :
  HumanVerification.question Cases.sevenPlusFive = "What is 7 + 5?" /\
  HumanVerification.answer Cases.sevenPlusFive = "12".
Proof. split; reflexivity. Qed.

Section RandomChallengeFacts.
Import Js HumanVerification Challenges.

Lemma sum_has_no_letter (n : Z) :
  2 <= n <= 20 -> Cases.noLowerLetter (toString n) = true.
Proof.
  intros H.
  apply (allFrom_range (fun n => Cases.noLowerLetter (toString n)) 2 20); [| lia].
  vm_compute. reflexivity.
Qed.

(** What [verifyChallenge] answers on a challenge that has not expired and
    whose question does not hold the text 'What is'. *)
Lemma verifyChallenge_image (c : Challenge) (now : Z) (u : string) :
  includes (question c) "What is" = false ->
  now - timestamp c <= fiveMinutes ->
  verifyChallenge now (Some c) u =
  Object (if truthy u then
            if String.eqb (toLowerCase (trim u)) (toLowerCase (answer c))
            then mkVerdict true None
            else mkVerdict false (Some "Incorrect answer. Please try again.")
          else mkVerdict false (Some "Invalid challenge or answer")).
Proof.
  intros Hq Ht. unfold verifyChallenge. rewrite Hq.
  unfold verifyImageChallenge. destruct (truthy u); cbn [negb]; [| reflexivity].
  rewrite (gtb_false _ _ Ht). reflexivity.
Qed.

Lemma expired_never_passes (c : Challenge) (now : Z) (u : string) :
  now - timestamp c > fiveMinutes ->
  resultSuccess (verifyChallenge now (Some c) u) = false.
Proof.
  intros Hlate.
  assert (Hgt : (now - timestamp c >? fiveMinutes) = true) by (apply Z.gtb_lt; lia).
  unfold verifyChallenge, verifyMathChallenge, verifyImageChallenge.
  destruct (includes (question c) "What is"), (truthy u); cbn [negb];
    rewrite ?Hgt; reflexivity.
Qed.

End RandomChallengeFacts.

(** X5.  Whatever challenge [getRandomChallenge] hands out, within five
    minutes it is passed by its own answer, also when the answer comes
    with white space around it or in upper case; after five minutes
    nothing passes it. *)
Theorem X5_random_challenge_is_passed_by_its_answer :
  forall (useMathChallenge : bool) (r1 r2 randomIndex t now : Z) (userAnswer : string),
    0 <= r1 <= 9 -> 0 <= r2 <= 9 -> 0 <= randomIndex <= 5 ->
    let c := Challenges.getRandomChallenge useMathChallenge r1 r2 randomIndex t in
    (now - t <= HumanVerification.fiveMinutes ->
     Js.toLowerCase (Js.trim userAnswer) = HumanVerification.answer c ->
     Challenges.resultSuccess
       (HumanVerification.verifyChallenge now (Some c) userAnswer) = true) /\
    (now - t > HumanVerification.fiveMinutes ->
     Challenges.resultSuccess
       (HumanVerification.verifyChallenge now (Some c) userAnswer) = false).
Proof.
  intros useMath r1 r2 index t now u Hr1 Hr2 Hindex c. split.
  - intros Ht Hanswer. subst c. destruct useMath; cbn [Challenges.getRandomChallenge] in *.
    + cbn [Challenges.generateMathChallenge HumanVerification.answer] in Hanswer.
      assert (Hsum : Js.trim u = Js.toString (r1 + 1 + (r2 + 1))).
      { apply toLowerCase_inv; [exact Hanswer |]. apply sum_has_no_letter. lia. }
      rewrite (verifyChallenge_math r1 r2 t now u Ht).
      rewrite trim_nonempty by (rewrite Hsum; apply toString_nonempty).
      rewrite Hsum, String.eqb_refl. reflexivity.
    + assert (Hcases : index = 0 \/ index = 1 \/ index = 2 \/ index = 3 \/ index = 4
                       \/ index = 5) by lia.
      destruct Hcases as [-> | [-> | [-> | [-> | [-> | ->]]]]];
        (rewrite verifyChallenge_image; [| reflexivity | exact Ht]);
        (rewrite trim_nonempty;
         [ rewrite Hanswer; reflexivity
         | intros Hempty; rewrite Hempty in Hanswer; vm_compute in Hanswer;
           discriminate Hanswer ]).
  - intros Hlate. apply expired_never_passes.
    subst c. destruct useMath; cbn [Challenges.getRandomChallenge].
    + exact Hlate.
    + unfold Challenges.generateImageChallenge.
      destruct (if index <? 0 then None else nth_error Challenges.challenges (Z.to_nat index))
        as [[q a] |]; exact Hlate.
Qed.

Lemma X5_random_challenge_witness :
  let c := Challenges.getRandomChallenge false 0 0 3 (10 * Scenario.minute) in
  (12 * Scenario.minute - 10 * Scenario.minute <= HumanVerification.fiveMinutes ->
   Js.toLowerCase (Js.trim "  CIRCLE ") = HumanVerification.answer c ->
   Challenges.resultSuccess
     (HumanVerification.verifyChallenge (12 * Scenario.minute) (Some c) "  CIRCLE ") = true) /\
  (12 * Scenario.minute - 10 * Scenario.minute > HumanVerification.fiveMinutes ->
   Challenges.resultSuccess
     (HumanVerification.verifyChallenge (12 * Scenario.minute) (Some c) "  CIRCLE ") = false).
Proof.
  apply (X5_random_challenge_is_passed_by_its_answer false 0 0 3 (10 * Scenario.minute)
           (12 * Scenario.minute) "  CIRCLE "); lia.
Defined.

Example circle_answer_passes :
  HumanVerification.verifyChallenge (12 * Scenario.minute)
    (Some (Challenges.generateImageChallenge 3 (10 * Scenario.minute))) "  CIRCLE "
  = HumanVerification.Object (HumanVerification.mkVerdict true None).
Proof. vm_compute. reflexivity. Qed.

(** X6.  The verification component reports success to the booking page
    only for a challenge that has not expired and an answer that equals
    the expected one up to the white space around it and the case of its
    letters; an answer of white space alone is not passed on at all; and
    every failure replaces the challenge by a new one and clears the
    answer, so that a failed challenge cannot be answered twice. *)
Theorem X6_widget_verifies_only_correct_answers :
  forall (now : Z) (fresh : HumanVerification.Challenge) (w : Challenges.Widget),
    let after := fst (Challenges.widgetSubmit now fresh w) in
    let told := snd (Challenges.widgetSubmit now fresh w) in
    (forall isHumanVerified : bool,
        Challenges.onVerificationComplete told isHumanVerified = true ->
        isHumanVerified = true \/
        exists c : HumanVerification.Challenge,
          Challenges.challenge w = Some c /\
          now - HumanVerification.timestamp c <= HumanVerification.fiveMinutes /\
          Js.toLowerCase (Js.trim (Challenges.w_answer w))
            = Js.toLowerCase (HumanVerification.answer c)) /\
    (Js.trim (Challenges.w_answer w) = "" ->
     told = None /\ Challenges.challenge after = Challenges.challenge w) /\
    (forall e : option string,
        told = Some (Challenges.mkCompleted false e) ->
        Challenges.challenge after = Some fresh /\
        Challenges.w_answer after = "" /\
        Challenges.isVerified after = false).
Proof.
  intros now fresh w after told. subst after told. unfold Challenges.widgetSubmit.
  destruct (Js.truthy (Js.trim (Challenges.w_answer w))) eqn:Hblank; cbn [negb].
  - assert (Htrim : Js.trim (Challenges.w_answer w) <> "").
    { intros H. rewrite H in Hblank. discriminate. }
    destruct (Challenges.resultSuccess
                (HumanVerification.verifyChallenge now (Challenges.challenge w)
                   (Challenges.w_answer w))) eqn:Hok; cbn [fst snd].
    + split; [| split].
      * intros b _. right. revert Hok.
        unfold HumanVerification.verifyChallenge, HumanVerification.verifyMathChallenge,
          HumanVerification.verifyImageChallenge.
        destruct (Challenges.challenge w) as [c |]; [| intros Hok; discriminate Hok].
        destruct (Js.includes (HumanVerification.question c) "What is");
          (destruct (negb (Js.truthy (Challenges.w_answer w)));
           [intros Hok; discriminate Hok |]);
          (destruct (now - HumanVerification.timestamp c >? HumanVerification.fiveMinutes)
             eqn:Hgt; [intros Hok; discriminate Hok |]);
          rewrite Z.gtb_ltb in Hgt; apply Z.ltb_ge in Hgt.
        -- destruct (String.eqb_spec (Js.trim (Challenges.w_answer w))
                       (HumanVerification.answer c)) as [Heq |]; intros Hok;
             [| discriminate Hok].
           exists c. rewrite Heq. auto.
        -- destruct (String.eqb_spec (Js.toLowerCase (Js.trim (Challenges.w_answer w)))
                       (Js.toLowerCase (HumanVerification.answer c))) as [Heq |]; intros Hok;
             [| discriminate Hok].
           exists c. auto.
      * intros H. contradiction.
      * intros e H. discriminate H.
    + split; [| split].
      * intros b H. cbn in H. discriminate H.
      * intros H. contradiction.
      * intros e _. repeat split; reflexivity.
  - cbn [fst snd]. split; [| split].
    + intros b H. left. exact H.
    + intros _. split; reflexivity.
    + intros e H. discriminate H.
Qed.

Lemma X6_widget_witness :
  let after := fst (Challenges.widgetSubmit (12 * Scenario.minute) Cases.sevenPlusFive
                      Cases.circleWidget) in
  let told := snd (Challenges.widgetSubmit (12 * Scenario.minute) Cases.sevenPlusFive
                     Cases.circleWidget) in
  Challenges.onVerificationComplete told false = true /\
  (false = true \/
   exists c : HumanVerification.Challenge,
     Challenges.challenge Cases.circleWidget = Some c /\
     12 * Scenario.minute - HumanVerification.timestamp c <= HumanVerification.fiveMinutes /\
     Js.toLowerCase (Js.trim (Challenges.w_answer Cases.circleWidget))
       = Js.toLowerCase (HumanVerification.answer c)).
Proof.
  cbv zeta. split; [reflexivity |].
  destruct (X6_widget_verifies_only_correct_answers (12 * Scenario.minute)
              Cases.sevenPlusFive Cases.circleWidget) as [Hsound _].
  apply (Hsound false). reflexivity.
Defined.

(** ** Validation: the email pattern *)

Section EmailShapeFacts.
Import Js Validation.

Lemma all_cons p c s : all p (String c s) = p c && all p s.
Proof. reflexivity. Qed.

Lemma all_append p (a b : string) : all p (a ++ b) = all p a && all p b.
Proof.
  induction a as [|c a IH]; [reflexivity |].
  change (all p (String c (a ++ b)) = all p (String c a) && all p b).
  rewrite !all_cons, IH, andb_assoc. reflexivity.
Qed.

Lemma split_at (email domain : string) :
  afterAt email = Some domain -> email = (beforeAt email ++ "@" ++ domain)%string.
Proof.
  induction email as [|c r IH]; cbn [afterAt beforeAt]; [discriminate |].
  destruct (isAt c) eqn:Hc.
  - intros [= ->]. unfold isAt in Hc. apply Ascii.eqb_eq in Hc. subst c. reflexivity.
  - intros H. change (String c r = String c (beforeAt r ++ "@" ++ domain)).
    f_equal. apply IH. exact H.
Qed.

Lemma notSpaceNorAt_not_at c : notSpaceNorAt c = true -> isAt c = false.
Proof.
  unfold notSpaceNorAt. intros H. apply andb_true_iff in H as [_ H].
  now apply negb_true_iff in H.
Qed.

Lemma beforeAt_append (l r : string) :
  all notSpaceNorAt l = true -> beforeAt (l ++ String "@" r) = l.
Proof.
  induction l as [|c l IH]; intros H.
  - reflexivity.
  - rewrite all_cons in H. apply andb_true_iff in H as [Hc Hl].
    change (beforeAt (String c (l ++ String "@" r)) = String c l).
    cbn [beforeAt]. rewrite (notSpaceNorAt_not_at _ Hc). f_equal. apply IH. exact Hl.
Qed.

Lemma afterAt_append (l r : string) :
  all notSpaceNorAt l = true -> afterAt (l ++ String "@" r) = Some r.
Proof.
  induction l as [|c l IH]; intros H.
  - reflexivity.
  - rewrite all_cons in H. apply andb_true_iff in H as [Hc Hl].
    change (afterAt (String c (l ++ String "@" r)) = Some r).
    cbn [afterAt]. rewrite (notSpaceNorAt_not_at _ Hc). apply IH. exact Hl.
Qed.

Lemma hasInnerDot_split (s : string) :
  hasInnerDot s = true ->
  exists d1 d2 : string, s = (d1 ++ "." ++ d2)%string /\ d1 <> "" /\ d2 <> "".
Proof.
  induction s as [|a r IH]; [discriminate |].
  destruct r as [|c [|e t]]; try discriminate.
  cbn [hasInnerDot]. intros H. apply orb_true_iff in H as [Hdot | Hrest].
  - unfold isDot in Hdot. apply Ascii.eqb_eq in Hdot. subst c.
    exists (String a ""), (String e t). repeat split; discriminate.
  - destruct (IH Hrest) as (d1 & d2 & -> & H1 & H2).
    exists (String a d1), d2. repeat split; [discriminate | exact H2].
Qed.

Lemma hasInnerDot_append (d1 d2 : string) :
  d1 <> "" -> d2 <> "" -> hasInnerDot (d1 ++ "." ++ d2) = true.
Proof.
  intros H1 H2. destruct d2 as [|e t]; [contradiction |]. clear H2.
  induction d1 as [|a d1 IH]; [contradiction |]. clear H1.
  destruct d1 as [|b d1].
  - reflexivity.
  - change (hasInnerDot (String a (String b (d1 ++ "." ++ String e t))) = true).
    assert (Hrec : hasInnerDot (String b (d1 ++ "." ++ String e t)) = true)
      by (apply IH; discriminate).
    destruct (d1 ++ "." ++ String e t)%string as [|x y] eqn:Hd.
    + destruct d1; discriminate Hd.
    + cbn [hasInnerDot]. cbn [hasInnerDot] in Hrec. rewrite Hrec. apply orb_true_r.
Qed.

Lemma trim_starts_solid (c : ascii) (r : string) :
  isWhiteSpace c = false -> trim (String c r) <> "".
Proof.
  intros Hc. unfold trim. cbn [trimStart]. rewrite Hc. cbn [trimEnd].
  destruct (trimEnd r); [rewrite Hc |]; discriminate.
Qed.

End EmailShapeFacts.

(** X7.  [validateEmail] accepts exactly the strings made of a local part,
    an [@] and a domain with a dot inside it, where the local part and
    the two pieces of the domain around that dot are non-empty and hold
    neither white space nor a further [@]. *)
Theorem X7_validateEmail_accepts_exactly_the_shape :
  forall email : string,
    Validation.success (Validation.validateEmail email) = true <-> Cases.emailShape email.
Proof.
  intros email. unfold Validation.validateEmail, Cases.emailShape. split.
  - destruct (Validation.blank email); [intros H; discriminate H |].
    destruct (Validation.emailRegex_test email) eqn:Hre; [| intros H; discriminate H].
    intros _. unfold Validation.emailRegex_test in Hre.
    destruct (Validation.afterAt email) as [domain |] eqn:Hat; [| discriminate Hre].
    apply andb_true_iff in Hre as [Hre Hdot]. apply andb_true_iff in Hre as [Hre Hdom].
    apply andb_true_iff in Hre as [Hl Hlocal].
    destruct (hasInnerDot_split _ Hdot) as (d1 & d2 & -> & H1 & H2).
    rewrite all_append, all_append in Hdom.
    apply andb_true_iff in Hdom as [Hd1 Hd2]. apply andb_true_iff in Hd2 as [_ Hd2].
    exists (Validation.beforeAt email), d1, d2.
    split; [apply (split_at _ _ Hat) |].
    split; [intros H; rewrite H in Hl; discriminate Hl |]. auto.
  - intros (l & d1 & d2 & -> & Hl & H1 & H2 & Al & A1 & A2).
    assert (Hblank : Validation.blank (l ++ "@" ++ d1 ++ "." ++ d2) = false).
    { destruct l as [|c l]; [contradiction |].
      rewrite all_cons in Al. apply andb_true_iff in Al as [Hc _].
      unfold Validation.notSpaceNorAt in Hc. apply andb_true_iff in Hc as [Hc _].
      apply negb_true_iff in Hc.
      unfold Validation.blank.
      change ((String c l ++ "@" ++ d1 ++ "." ++ d2)%string)
        with (String c (l ++ "@" ++ d1 ++ "." ++ d2)).
      cbn [Js.truthy String.eqb negb orb].
      destruct (String.eqb_spec (Js.trim (String c (l ++ "@" ++ d1 ++ "." ++ d2))) "")
        as [Heq |]; [| reflexivity].
      exfalso. exact (trim_starts_solid c _ Hc Heq). }
    rewrite Hblank.
    assert (Hre : Validation.emailRegex_test (l ++ "@" ++ d1 ++ "." ++ d2) = true).
    { unfold Validation.emailRegex_test.
      change ((l ++ "@" ++ d1 ++ "." ++ d2)%string)
        with ((l ++ String "@" (d1 ++ "." ++ d2))%string).
      rewrite (afterAt_append _ _ Al), (beforeAt_append _ _ Al), Al.
      rewrite (truthy_nonempty _ Hl), !all_append, A1, A2.
      rewrite (hasInnerDot_append _ _ H1 H2). reflexivity. }
    rewrite Hre. reflexivity.
Qed.

Example validateEmail_samples :
  Validation.success (Validation.validateEmail "ada@example.org") = true /\
  Validation.validateEmail "ada@example"
    = Validation.invalid "Please enter a valid email address" "email" /\
  Validation.validateEmail "ada @example.org"
    = Validation.invalid "Please enter a valid email address" "email" /\
  Validation.validateEmail "   " = Validation.invalid "Email is required" "email".
Proof. repeat split; reflexivity. Qed.

(** ** BookingPage: what a submission does and does not do *)

(** X8.  Before the form is valid and the human verification is passed,
    [handleSubmit] calls nothing: it leaves an error, does not touch the
    rate limiter, keeps the selection and does not mark the booking
    successful. *)
Theorem X8_no_call_before_the_gates :
  forall (env : BookingPage.Env) (store : RateLimiter.AttemptStore)
         (closure : BookingPage.State),
    Validation.success (Validation.validateBookingForm (BookingPage.formData closure)) = false \/
    BookingPage.isHumanVerified closure = false ->
    let run := BookingPage.handleSubmit env store closure in
    BookingPage.calls run = [] /\
    BookingPage.store run = store /\
    BookingPage.submitError (BookingPage.state run)
      = Some (if Validation.success (Validation.validateBookingForm (BookingPage.formData closure))
              then "Please complete the human verification challenge before booking."
              else Validation.error (Validation.validateBookingForm (BookingPage.formData closure))) /\
    BookingPage.selectedSlot (BookingPage.state run) = BookingPage.selectedSlot closure /\
    BookingPage.submitSuccess (BookingPage.state run) = BookingPage.submitSuccess closure /\
    BookingPage.submitting (BookingPage.state run) = false.
Proof.
  intros env store closure Hgate.
  unfold BookingPage.handleSubmit, BookingPage.submitBody.
  destruct (Validation.success (Validation.validateBookingForm (BookingPage.formData closure)))
    eqn:Hvalid; cbn [negb].
  - destruct Hgate as [Hgate | Hgate]; [discriminate Hgate |].
    rewrite Hgate. cbn. repeat split; reflexivity.
  - cbn. repeat split; reflexivity.
Qed.

Lemma X8_no_call_witness :
  let run := BookingPage.handleSubmit Scenario.smoothEnv ∅ Scenario.initialState in
  BookingPage.calls run = [] /\
  BookingPage.store run = ∅ /\
  BookingPage.submitError (BookingPage.state run)
    = Some (if Validation.success
                 (Validation.validateBookingForm (BookingPage.formData Scenario.initialState))
            then "Please complete the human verification challenge before booking."
            else Validation.error
                   (Validation.validateBookingForm (BookingPage.formData Scenario.initialState))) /\
  BookingPage.selectedSlot (BookingPage.state run)
    = BookingPage.selectedSlot Scenario.initialState /\
  BookingPage.submitSuccess (BookingPage.state run)
    = BookingPage.submitSuccess Scenario.initialState /\
  BookingPage.submitting (BookingPage.state run) = false.
Proof.
  apply (X8_no_call_before_the_gates Scenario.smoothEnv ∅ Scenario.initialState).
  left. reflexivity.
Defined.

Section SubmissionFacts.
Import Js BookingPage.

Lemma valid_form_has_email (form : EmailService.UserData) :
  Validation.success (Validation.validateBookingForm form) = true ->
  EmailService.email form <> "".
Proof.
  unfold Validation.validateBookingForm, Validation.validateEmail, Validation.blank.
  intros H Hempty. rewrite Hempty in H. cbn in H. discriminate H.
Qed.

(** A submission that passes the gates and is not rate limited, finds no
    active reservation and the slot free, records one attempt, whatever
    happens to the registration and to the reservation. *)
Lemma handleSubmit_records (env : Env) (store : RateLimiter.AttemptStore) (closure : State)
    (found : ReservationCount) :
  Validation.success (Validation.validateBookingForm (formData closure)) = true ->
  isHumanVerified closure = true ->
  selectedSlot closure <> None ->
  RateLimiter.limited
    (fst (RateLimiter.checkRateLimit (nowAtCheck env) (EmailService.email (formData closure))
            store)) = false ->
  reservationCount env = Returned found ->
  count_success found && (count found >=? 1) = false ->
  slotAvailability env = Returned true ->
  BookingPage.store (handleSubmit env store closure)
  = RateLimiter.recordAttempt (nowAtRecord env) (EmailService.email (formData closure))
      (snd (RateLimiter.checkRateLimit (nowAtCheck env) (EmailService.email (formData closure))
              store)).
Proof.
  intros Hvalid Hhuman Hslot Hlimit Hfound Hcount Havail.
  pose proof (truthy_nonempty _ (valid_form_has_email _ Hvalid)) as Hemail.
  unfold handleSubmit, submitBody, submitFromVerification. cbv zeta.
  rewrite Hvalid, Hhuman. cbn [negb]. rewrite Hemail.
  destruct (RateLimiter.checkRateLimit (nowAtCheck env) (EmailService.email (formData closure))
              store) as [rateLimit store1].
  cbn [fst snd] in *. rewrite Hlimit, Hfound, Hcount, Havail.
  destruct (selectedSlot closure) as [slot |]; [| contradiction]. cbn [negb].
  destruct (registration env) as [reg | err]; [| reflexivity].
  destruct (negb (reg_success reg)); [reflexivity |].
  destruct (reservation env); reflexivity.
Qed.

(** A rate-limited submission stops before any call. *)
Lemma handleSubmit_limited (env : Env) (store : RateLimiter.AttemptStore) (closure : State) :
  Validation.success (Validation.validateBookingForm (formData closure)) = true ->
  isHumanVerified closure = true ->
  RateLimiter.limited
    (fst (RateLimiter.checkRateLimit (nowAtCheck env) (EmailService.email (formData closure))
            store)) = true ->
  let run := handleSubmit env store closure in
  let status := fst (RateLimiter.checkRateLimit (nowAtCheck env)
                       (EmailService.email (formData closure)) store) in
  calls run = [] /\
  submitError (state run)
    = Some ("You've reached the maximum number of booking attempts. Please try again in "
            ++ RateLimiter.formatTimeUntilReset (RateLimiter.timeUntilReset status) ++ ".") /\
  submitSuccess (state run) = submitSuccess closure /\
  selectedSlot (state run) = selectedSlot closure /\
  BookingPage.store run
    = snd (RateLimiter.checkRateLimit (nowAtCheck env) (EmailService.email (formData closure))
             store).
Proof.
  intros Hvalid Hhuman Hlimit.
  pose proof (truthy_nonempty _ (valid_form_has_email _ Hvalid)) as Hemail.
  unfold handleSubmit, submitBody. cbv zeta.
  rewrite Hvalid, Hhuman. cbn [negb]. rewrite Hemail.
  destruct (RateLimiter.checkRateLimit (nowAtCheck env) (EmailService.email (formData closure))
              store) as [rateLimit store1].
  cbn [fst snd] in *. rewrite Hlimit. cbn. repeat split; reflexivity.
Qed.

(** The entry of the visitor grows by one recorded time with every
    submission that reaches the registration, as long as fewer than five
    are on it. *)
Lemma submitAll_entry (email : string) (t0 : Z)
    (runs : list (Env * State)) :
  Forall (Cases.reachesRegistration email t0) runs ->
  forall (store : RateLimiter.AttemptStore) (l : list Z),
    store !! email = Some (RateLimiter.mkUserAttempts l t0) ->
    (forall x, In x l -> t0 <= x) ->
    (length l + length runs <= 5)%nat ->
    Cases.submitAll runs store !! email
    = Some (RateLimiter.mkUserAttempts (l ++ List.map (fun r => nowAtRecord (fst r)) runs) t0).
Proof.
  induction 1 as [| [env closure] runs Hrun Hruns IH]; intros store l Hstore Hl Hlen.
  - cbn. rewrite app_nil_r. exact Hstore.
  - destruct Hrun as (Hvalid & Hhuman & Hemail & Hslot & (found & Hfound & Hcount)
                      & Havail & Hcheck & Hrecord).
    pose proof (valid_form_has_email _ Hvalid) as Hne. rewrite Hemail in Hne.
    cbn [length] in Hlen.
    assert (Hchecked : RateLimiter.checkRateLimit (nowAtCheck env) email store
                       = (RateLimiter.Status false
                            (Z.max 0 (RateLimiter.MAX_ATTEMPTS - Z.of_nat (length l)))
                            (Z.max 0 (t0 + RateLimiter.RATE_LIMIT_WINDOW - nowAtCheck env))
                            (t0 + RateLimiter.RATE_LIMIT_WINDOW),
                          <[email := RateLimiter.mkUserAttempts l t0]> store)).
    { unfold RateLimiter.checkRateLimit. rewrite (truthy_nonempty _ Hne). cbn [negb].
      unfold RateLimiter.lookupAttempts. rewrite Hstore.
      cbn [RateLimiter.attempts RateLimiter.lastReset].
      rewrite (geb_false (nowAtCheck env - t0)) by lia.
      cbn [RateLimiter.attempts RateLimiter.lastReset].
      rewrite filter_all_true
        by (intros x Hx; apply Z.ltb_lt; specialize (Hl x Hx); lia).
      rewrite (geb_false (Z.of_nat (length l))) by (unfold RateLimiter.MAX_ATTEMPTS; lia).
      reflexivity. }
    cbn [Cases.submitAll fold_left fst snd List.map].
    rewrite (handleSubmit_records env store closure found Hvalid Hhuman Hslot);
      try assumption; rewrite Hemail, Hchecked; cbn [fst snd]; [| reflexivity].
    change (fold_left _ runs ?s) with (Cases.submitAll runs s).
    replace (l ++ nowAtRecord env :: List.map (fun r => nowAtRecord (fst r)) runs)%list
      with ((l ++ [nowAtRecord env]) ++ List.map (fun r => nowAtRecord (fst r)) runs)%list
      by (rewrite <- app_assoc; reflexivity).
    apply IH.
    + unfold RateLimiter.recordAttempt. rewrite (truthy_nonempty _ Hne). cbn [negb].
      rewrite lookupAttempts_insert. cbn [RateLimiter.attempts RateLimiter.lastReset].
      apply lookup_insert_eq.
    + intros x Hx. apply in_app_or in Hx as [Hx | [<- | []]]; [apply Hl; exact Hx | lia].
    + rewrite length_app. cbn [length]. lia.
Qed.

End SubmissionFacts.

Section SubmissionLimits.
Import Js BookingPage.

(** X9.  The rate limiter as the booking page drives it: once five
    submissions of one email address have got as far as the registration
    within an hour of the first, whether they then succeeded or failed,
    the next submission of that address within the hour makes no call at
    all and tells how long is left of the hour. *)
Theorem X9_sixth_submission_within_the_hour_is_blocked :
  forall (email : string) (first : Env * State) (rest : list (Env * State))
         (store : RateLimiter.AttemptStore) (env : Env) (closure : State),
    store !! email = None ->
    Forall (Cases.reachesRegistration email (nowAtCheck (fst first))) (first :: rest) ->
    length rest = 4%nat ->
    Validation.success (Validation.validateBookingForm (formData closure)) = true ->
    isHumanVerified closure = true ->
    EmailService.email (formData closure) = email ->
    nowAtCheck (fst first) <= nowAtCheck env
      < nowAtCheck (fst first) + RateLimiter.RATE_LIMIT_WINDOW ->
    let run := handleSubmit env (Cases.submitAll (first :: rest) store) closure in
    calls run = [] /\
    submitError (state run)
      = Some ("You've reached the maximum number of booking attempts. Please try again in "
              ++ RateLimiter.formatTimeUntilReset
                   (nowAtCheck (fst first) + RateLimiter.RATE_LIMIT_WINDOW - nowAtCheck env)
              ++ ".") /\
    submitSuccess (state run) = submitSuccess closure.
Proof.
  intros email [env1 closure1] rest store env closure Hfresh Hruns Hlen
         Hvalid Hhuman Hemail Hnow.
  cbn [fst] in *. set (t0 := nowAtCheck env1) in *.
  inversion Hruns as [| ? ? Hfirst Hrest]; subst.
  destruct Hfirst as (Hvalid1 & Hhuman1 & Hemail1 & Hslot1 & (found & Hfound & Hcount)
                      & Havail1 & Hcheck1 & Hrecord1).
  pose proof (valid_form_has_email _ Hvalid1) as Hne. rewrite Hemail1 in Hne.
  set (email := EmailService.email (formData closure)) in *.
  (* the first submission opens the window *)
  assert (Hchecked : RateLimiter.checkRateLimit t0 email store
                     = (RateLimiter.Status false 5 RateLimiter.RATE_LIMIT_WINDOW
                          (t0 + RateLimiter.RATE_LIMIT_WINDOW),
                        <[email := RateLimiter.mkUserAttempts [] t0]> store)).
  { unfold RateLimiter.checkRateLimit. rewrite (truthy_nonempty _ Hne). cbn [negb].
    unfold RateLimiter.lookupAttempts. rewrite Hfresh.
    cbn [RateLimiter.attempts RateLimiter.lastReset filter length].
    rewrite (geb_false (t0 - t0)) by (unfold RateLimiter.RATE_LIMIT_WINDOW; lia).
    cbn [RateLimiter.attempts RateLimiter.lastReset length].
    f_equal. f_equal; unfold RateLimiter.RATE_LIMIT_WINDOW; lia. }
  assert (Hfive : Cases.submitAll ((env1, closure1) :: rest) store !! email
                  = Some (RateLimiter.mkUserAttempts
                            ([nowAtRecord env1]
                             ++ List.map (fun r => nowAtRecord (fst r)) rest) t0)).
  { cbn [Cases.submitAll fold_left fst snd].
    change (fold_left _ rest ?s) with (Cases.submitAll rest s).
    rewrite (handleSubmit_records env1 store closure1 found Hvalid1 Hhuman1 Hslot1);
      try assumption; rewrite Hemail1; fold t0; rewrite Hchecked; cbn [fst snd];
      [| reflexivity].
    apply (submitAll_entry email t0 rest Hrest).
    - unfold RateLimiter.recordAttempt. rewrite (truthy_nonempty _ Hne). cbn [negb].
      rewrite lookupAttempts_insert. cbn [RateLimiter.attempts RateLimiter.lastReset app].
      apply lookup_insert_eq.
    - intros x [<- | []]. exact Hrecord1.
    - cbn [length]. lia. }
  set (store5 := Cases.submitAll ((env1, closure1) :: rest) store) in *.
  assert (Hsixth : RateLimiter.checkRateLimit (nowAtCheck env) email store5
                   = (RateLimiter.Status true 0
                        (t0 + RateLimiter.RATE_LIMIT_WINDOW - nowAtCheck env)
                        (t0 + RateLimiter.RATE_LIMIT_WINDOW),
                      <[email := RateLimiter.mkUserAttempts
                                   ([nowAtRecord env1]
                                    ++ List.map (fun r => nowAtRecord (fst r)) rest) t0]>
                        store5)).
  { unfold RateLimiter.checkRateLimit. rewrite (truthy_nonempty _ Hne). cbn [negb].
    unfold RateLimiter.lookupAttempts. rewrite Hfive.
    cbn [RateLimiter.attempts RateLimiter.lastReset].
    rewrite (geb_false (nowAtCheck env - t0)) by lia.
    cbn [RateLimiter.attempts RateLimiter.lastReset].
    rewrite filter_all_true.
    - rewrite length_app, length_map, Hlen. cbn [length Nat.add].
      unfold RateLimiter.MAX_ATTEMPTS.
      change (Z.of_nat 5 >=? 5) with true. change (Z.max 0 (5 - Z.of_nat 5)) with 0.
      rewrite Z.max_r by lia. reflexivity.
    - intros x Hx. apply Z.ltb_lt.
      assert (t0 <= x); [| lia].
      apply in_app_or in Hx as [[<- | []] | Hx]; [exact Hrecord1 |].
      apply in_map_iff in Hx as ([e c] & <- & Hin).
      rewrite List.Forall_forall in Hrest. specialize (Hrest _ Hin).
      cbn [fst]. unfold Cases.reachesRegistration in Hrest. tauto. }
  pose proof (handleSubmit_limited env store5 closure Hvalid Hhuman) as Hblocked.
  fold email in Hblocked. rewrite Hsixth in Hblocked. cbn [fst snd] in Hblocked.
  specialize (Hblocked eq_refl). cbv zeta in Hblocked.
  cbn [RateLimiter.timeUntilReset] in Hblocked.
  destruct Hblocked as (Hcalls & Herror & Hsuccess & _).
  cbv zeta. repeat split; assumption.
Qed.

Lemma X9_sixth_submission_witness :
  let run := handleSubmit (Cases.failingEnv 5)
               (Cases.submitAll Cases.fiveSubmissions ∅) Scenario.readyState in
  calls run = [] /\
  submitError (state run)
    = Some ("You've reached the maximum number of booking attempts. Please try again in "
            ++ RateLimiter.formatTimeUntilReset
                 (0 + RateLimiter.RATE_LIMIT_WINDOW - 50 * Scenario.minute)
            ++ ".") /\
  submitSuccess (state run) = false.
Proof.
  apply (X9_sixth_submission_within_the_hour_is_blocked "ada@example.org"
           (Cases.failingEnv 0, Scenario.readyState)
           (List.map (fun n => (Cases.failingEnv n, Scenario.readyState)) [1; 2; 3; 4])
           ∅ (Cases.failingEnv 5) Scenario.readyState).
  - reflexivity.
  - repeat constructor; try (vm_compute; congruence);
      try (eexists; split; reflexivity).
  - reflexivity.
  - reflexivity.
  - reflexivity.
  - reflexivity.
  - vm_compute. split; [discriminate | reflexivity].
Defined.

Lemma onBookingError_keeps (err : Error) (st : State) :
  submitSuccess (onBookingError err st) = submitSuccess st /\
  selectedSlot (onBookingError err st) = selectedSlot st /\
  confirmedBooking (onBookingError err st) = confirmedBooking st /\
  exists msg, submitError (onBookingError err st) = Some msg /\ msg <> "".
Proof.
  unfold onBookingError.
  destruct (truthy (message err) && includes (message err) "Service key not configured");
    [| destruct (String.eqb (code err) "42501")]; cbn;
    repeat split; try reflexivity; eexists; (split; [reflexivity |]);
    try discriminate.
  apply or_else_nonempty. discriminate.
Qed.

Local Arguments onBookingError : simpl never.

(** X10.  [handleSubmit] marks a booking successful only after every step
    went through: the form is valid, the challenge was passed, the address
    is within its rate limit, no active reservation was reported, the slot
    was reported free, the registration succeeded and the reservation was
    created.  The confirmation then shows the reference of that
    reservation, and the calls end with the availability check, the
    registration, the creation and the confirmation email, in this
    order. *)
Theorem X10_success_needs_every_step :
  forall (env : Env) (store : RateLimiter.AttemptStore) (closure : State),
    submitSuccess closure = false ->
    submitSuccess (state (handleSubmit env store closure)) = true ->
    let form := formData closure in
    Validation.success (Validation.validateBookingForm form) = true /\
    isHumanVerified closure = true /\
    RateLimiter.limited
      (fst (RateLimiter.checkRateLimit (nowAtCheck env) (EmailService.email form) store))
      = false /\
    (exists found, reservationCount env = Returned found /\
                   count_success found && (count found >=? 1) = false) /\
    slotAvailability env = Returned true /\
    (exists reg, registration env = Returned reg /\ reg_success reg = true) /\
    exists slot created,
      selectedSlot closure = Some slot /\
      reservation env = Returned created /\
      confirmedBooking (state (handleSubmit env store closure))
        = Some (mkConfirmedBooking slot form (Reservation.reference created)) /\
      submitError (state (handleSubmit env store closure)) = None /\
      calls (handleSubmit env store closure)
        = [GetUserReservationCount (EmailService.email form);
           VerifySlotAvailability (Slot.id slot);
           RegisterUser (EmailService.name form) (EmailService.email form)
                        (EmailService.groupId form);
           CreateReservation (Slot.id slot) form;
           SendBookingConfirmationEmail form slot (Reservation.reference created)].
Proof.
  intros env store closure Hbefore.
  unfold handleSubmit, submitBody, submitFromVerification. cbv zeta.
  destruct (Validation.success (Validation.validateBookingForm (formData closure)))
    eqn:Hvalid; cbn [negb]; [| cbn; congruence].
  pose proof (truthy_nonempty _ (valid_form_has_email _ Hvalid)) as Hemail.
  rewrite Hemail.
  destruct (isHumanVerified closure); cbn [negb]; [| cbn; congruence].
  destruct (RateLimiter.checkRateLimit (nowAtCheck env) (EmailService.email (formData closure))
              store) as [rateLimit store1].
  cbn [fst].
  destruct (RateLimiter.limited rateLimit); [cbn; congruence |].
  destruct (reservationCount env) as [found | err];
    [| cbn; rewrite (proj1 (onBookingError_keeps _ _)); cbn; congruence].
  destruct (count_success found && (count found >=? 1)) eqn:Hcount; [cbn; congruence |].
  destruct (selectedSlot closure) as [slot |];
    [| cbn; rewrite (proj1 (onBookingError_keeps _ _)); cbn; congruence].
  destruct (slotAvailability env) as [[|] | err]; cbn [negb];
    [| cbn; congruence | cbn; rewrite (proj1 (onBookingError_keeps _ _)); cbn; congruence].
  destruct (registration env) as [reg | err];
    [| cbn; rewrite (proj1 (onBookingError_keeps _ _)); cbn; congruence].
  destruct (reg_success reg) eqn:Hreg; cbn [negb];
    [| cbn; rewrite (proj1 (onBookingError_keeps _ _)); cbn; congruence].
  destruct (reservation env) as [created | err];
    [| cbn; rewrite (proj1 (onBookingError_keeps _ _)); cbn; congruence].
  intros _. cbn.
  repeat split; try reflexivity.
  - exists found. split; [reflexivity | exact Hcount].
  - exists reg. split; [reflexivity | exact Hreg].
  - exists slot, created. repeat split; reflexivity.
Qed.

Lemma X10_success_witness :
  let form := formData Scenario.readyState in
  Validation.success (Validation.validateBookingForm form) = true /\
  isHumanVerified Scenario.readyState = true /\
  RateLimiter.limited
    (fst (RateLimiter.checkRateLimit (nowAtCheck Scenario.smoothEnv)
            (EmailService.email form) ∅)) = false /\
  (exists found, reservationCount Scenario.smoothEnv = Returned found /\
                 count_success found && (count found >=? 1) = false) /\
  slotAvailability Scenario.smoothEnv = Returned true /\
  (exists reg, registration Scenario.smoothEnv = Returned reg /\ reg_success reg = true) /\
  exists slot created,
    selectedSlot Scenario.readyState = Some slot /\
    reservation Scenario.smoothEnv = Returned created /\
    confirmedBooking (state (handleSubmit Scenario.smoothEnv ∅ Scenario.readyState))
      = Some (mkConfirmedBooking slot form (Reservation.reference created)) /\
    submitError (state (handleSubmit Scenario.smoothEnv ∅ Scenario.readyState)) = None /\
    calls (handleSubmit Scenario.smoothEnv ∅ Scenario.readyState)
      = [GetUserReservationCount (EmailService.email form);
         VerifySlotAvailability (Slot.id slot);
         RegisterUser (EmailService.name form) (EmailService.email form)
                      (EmailService.groupId form);
         CreateReservation (Slot.id slot) form;
         SendBookingConfirmationEmail form slot (Reservation.reference created)].
Proof.
  apply (X10_success_needs_every_step Scenario.smoothEnv ∅ Scenario.readyState);
    reflexivity.
Defined.

End SubmissionLimits.

Section SubmissionFailures.
Import Js BookingPage.

Local Arguments onBookingError : simpl never.

Ltac not_called :=
  let Hin := fresh "Hin" in
  intros Hin; exfalso; cbn in Hin; intuition discriminate.

Ltac failed_after_registration :=
  intros _; cbn; split; [reflexivity | right];
  repeat match goal with
         | |- context [onBookingError ?e ?st] =>
             let H := fresh "Hkept" in
             pose proof (onBookingError_keeps e st) as H;
             destruct H as (-> & -> & _ & ?msg & -> & ?);
             cbn
         end;
  repeat split; try reflexivity; try assumption;
  [eexists; split; [reflexivity | assumption]
  | intros ? ? ? ?Hin; cbn in Hin; intuition discriminate].

(** X11.  A submission that got as far as calling [registerUser] has used
    up one attempt of the rate limiter, whether the booking then
    succeeded or not.  If it did not succeed, the visitor keeps the
    selected slot and sees a message, and no confirmation email is
    requested. *)
Theorem X11_failed_booking_costs_an_attempt :
  forall (env : Env) (store : RateLimiter.AttemptStore) (closure : State),
    let form := formData closure in
    let run := handleSubmit env store closure in
    In (RegisterUser (EmailService.name form) (EmailService.email form)
                     (EmailService.groupId form)) (calls run) ->
    BookingPage.store run
      = RateLimiter.recordAttempt (nowAtRecord env) (EmailService.email form)
          (snd (RateLimiter.checkRateLimit (nowAtCheck env) (EmailService.email form) store)) /\
    (submitSuccess (state run) = true \/
     (selectedSlot (state run) = selectedSlot closure /\
      submitSuccess (state run) = submitSuccess closure /\
      (exists msg, submitError (state run) = Some msg /\ msg <> "") /\
      forall userData slot reference,
        ~ In (SendBookingConfirmationEmail userData slot reference) (calls run))).
Proof.
  intros env store closure. cbv zeta.
  unfold handleSubmit, submitBody, submitFromVerification. cbv zeta.
  destruct (Validation.success (Validation.validateBookingForm (formData closure)))
    eqn:Hvalid; cbn [negb]; [| not_called].
  pose proof (truthy_nonempty _ (valid_form_has_email _ Hvalid)) as Hemail.
  rewrite Hemail.
  destruct (isHumanVerified closure); cbn [negb]; [| not_called].
  destruct (RateLimiter.checkRateLimit (nowAtCheck env) (EmailService.email (formData closure))
              store) as [rateLimit store1].
  cbn [snd].
  destruct (RateLimiter.limited rateLimit); [not_called |].
  destruct (reservationCount env) as [found | err]; [| not_called].
  destruct (count_success found && (count found >=? 1)); [not_called |].
  destruct (selectedSlot closure) as [slot |] eqn:Hslot; [| not_called].
  destruct (slotAvailability env) as [[|] | err]; cbn [negb]; [| not_called | not_called].
  destruct (registration env) as [reg | err]; [| failed_after_registration].
  destruct (reg_success reg); cbn [negb]; [| failed_after_registration].
  destruct (reservation env) as [created | err]; [| failed_after_registration].
  intros _. cbn. split; [reflexivity | left; reflexivity].
Qed.

Lemma X11_failed_booking_witness :
  let form := formData Scenario.readyState in
  let run := handleSubmit (Cases.failingEnv 0) ∅ Scenario.readyState in
  BookingPage.store run
    = RateLimiter.recordAttempt (nowAtRecord (Cases.failingEnv 0)) (EmailService.email form)
        (snd (RateLimiter.checkRateLimit (nowAtCheck (Cases.failingEnv 0))
                (EmailService.email form) ∅)) /\
  (submitSuccess (state run) = true \/
   (selectedSlot (state run) = selectedSlot Scenario.readyState /\
    submitSuccess (state run) = submitSuccess Scenario.readyState /\
    (exists msg, submitError (state run) = Some msg /\ msg <> "") /\
    forall userData slot reference,
      ~ In (SendBookingConfirmationEmail userData slot reference) (calls run))).
Proof.
  apply (X11_failed_booking_costs_an_attempt (Cases.failingEnv 0) ∅ Scenario.readyState).
  vm_compute. right. right. left. reflexivity.
Defined.

(** X12.  Without a service key neither [registerUser] nor
    [createReservation] sends anything: the first answers with the failure
    'Admin access is required to register users. Service key not
    configured.', the second throws 'Admin access is required to complete
    reservations. Service key not configured.', and the tables and the
    pending requests are as they were.  A submission that gets as far as
    [registerUser] then shows the message about admin permissions, keeps
    the selected slot, is not marked successful and never calls
    [createReservation]. *)
Theorem X12_missing_service_key_stops_the_booking :
  forall (w : Backend.World) (rowId : string) (today : EmailService.LocalDate)
         (pick : nat -> Z) (slotId : string) (userData : EmailService.UserData)
         (lookupAndStore : Backend.M Registration)
         (env : Env) (store : RateLimiter.AttemptStore) (closure : State),
    Backend.serviceKey w = false ->
    registration env = fst (UserService.registerUser lookupAndStore w) ->
    In (RegisterUser (EmailService.name (formData closure))
                     (EmailService.email (formData closure))
                     (EmailService.groupId (formData closure)))
       (calls (handleSubmit env store closure)) ->
    UserService.registerUser lookupAndStore w
      = (Returned (mkRegistration false "Admin access is required to register users. Service key not configured."), w) /\
    SupabaseRest.createReservation rowId today pick slotId userData w
      = (Thrown (mkError "Admin access is required to complete reservations. Service key not configured." ""), w) /\
    submitError (state (handleSubmit env store closure))
      = Some "Admin permissions required. Please add a service key in your .env.local file to complete bookings." /\
    selectedSlot (state (handleSubmit env store closure)) = selectedSlot closure /\
    submitSuccess (state (handleSubmit env store closure)) = submitSuccess closure /\
    forall (id : string) (form : FormData),
      ~ In (CreateReservation id form) (calls (handleSubmit env store closure)).
Proof.
  intros w rowId today pick slotId userData lookupAndStore env store closure Hkey.
  assert (Hrefused :
            UserService.registerUser lookupAndStore w
            = (Returned (mkRegistration false "Admin access is required to register users. Service key not configured."), w)).
  { unfold UserService.registerUser, Backend.catchM, Backend.bindM, Backend.getServiceKey.
    rewrite Hkey. reflexivity. }
  assert (Hthrows :
            SupabaseRest.createReservation rowId today pick slotId userData w
            = (Thrown (mkError "Admin access is required to complete reservations. Service key not configured." ""), w)).
  { unfold SupabaseRest.createReservation, Backend.bindM, Backend.getServiceKey.
    rewrite Hkey. reflexivity. }
  rewrite Hrefused, Hthrows. cbn [fst]. intros Hregistration Hcalled.
  split; [reflexivity |]. split; [reflexivity |].
  revert Hcalled.
  unfold handleSubmit, submitBody, submitFromVerification. cbv zeta.
  rewrite Hregistration.
  destruct (Validation.success (Validation.validateBookingForm (formData closure)))
    eqn:Hvalid; cbn [negb]; [| not_called].
  pose proof (truthy_nonempty _ (valid_form_has_email _ Hvalid)) as Hemail.
  rewrite Hemail.
  destruct (isHumanVerified closure); cbn [negb]; [| not_called].
  destruct (RateLimiter.checkRateLimit (nowAtCheck env) (EmailService.email (formData closure))
              store) as [rateLimit store1].
  destruct (RateLimiter.limited rateLimit); [not_called |].
  destruct (reservationCount env) as [found | err]; [| not_called].
  destruct (count_success found && (count found >=? 1)); [not_called |].
  destruct (selectedSlot closure) as [slot |] eqn:Hslot; [| not_called].
  destruct (slotAvailability env) as [[|] | err]; cbn [negb]; [| not_called | not_called].
  intros _. cbn. unfold onBookingError. cbn.
  change (includes _ "Service key not configured") with true.
  cbn. rewrite Hslot. repeat split; try reflexivity.
  intros id form Hin. cbn in Hin. intuition discriminate.
Qed.

Lemma X12_missing_service_key_witness :
  UserService.registerUser (Backend.ret (mkRegistration true "")) Cases.keylessWorld
    = (Returned (mkRegistration false "Admin access is required to register users. Service key not configured."), Cases.keylessWorld) /\
  SupabaseRest.createReservation "res-2" (EmailService.mkLocalDate 2025 3 9) (fun _ => 0)
    "slot-2" Scenario.adaForm Cases.keylessWorld
    = (Thrown (mkError "Admin access is required to complete reservations. Service key not configured." ""), Cases.keylessWorld) /\
  submitError (state (handleSubmit (Cases.bookingIn Cases.keylessWorld) ∅ Scenario.readyState))
    = Some "Admin permissions required. Please add a service key in your .env.local file to complete bookings." /\
  selectedSlot (state (handleSubmit (Cases.bookingIn Cases.keylessWorld) ∅ Scenario.readyState))
    = selectedSlot Scenario.readyState /\
  submitSuccess (state (handleSubmit (Cases.bookingIn Cases.keylessWorld) ∅ Scenario.readyState))
    = submitSuccess Scenario.readyState /\
  forall (id : string) (form : FormData),
    ~ In (CreateReservation id form)
         (calls (handleSubmit (Cases.bookingIn Cases.keylessWorld) ∅ Scenario.readyState)).
Proof.
  apply (X12_missing_service_key_stops_the_booking Cases.keylessWorld "res-2"
           (EmailService.mkLocalDate 2025 3 9) (fun _ => 0) "slot-2" Scenario.adaForm
           (Backend.ret (mkRegistration true ""))
           (Cases.bookingIn Cases.keylessWorld) ∅ Scenario.readyState).
  - reflexivity.
  - reflexivity.
  - vm_compute. right. right. left. reflexivity.
Defined.

(** With the service key the same submission goes through to the
    reservation. *)
Example booking_with_service_key :
  submitSuccess (state (handleSubmit (Cases.bookingIn Scenario.initWorld) ∅ Scenario.readyState))
  = true.
Proof. vm_compute. reflexivity. Qed.

End SubmissionFailures.

(** ** Calendar.jsx: what a click can select *)

Section CalendarFacts.
Import Calendar.

Lemma head_filter_some {A} (f : A -> bool) (l : list A) (a : A) :
  head (List.filter f l) = Some a -> In a l /\ f a = true.
Proof.
  intros H. apply filter_In.
  destruct (List.filter f l) as [| x r] eqn:Hf; [discriminate H |].
  injection H as ->. left. reflexivity.
Qed.

Lemma same_id_same_slot (slots : list Slot.t) (a b : Slot.t) :
  List.NoDup (List.map Slot.id slots) ->
  In a slots -> In b slots -> Slot.id a = Slot.id b -> a = b.
Proof.
  induction slots as [| x r IH]; intros Hnodup Ha Hb Hid; [destruct Ha |].
  cbn [List.map] in Hnodup. inversion Hnodup as [| ? ? Hfresh Hrest]; subst.
  destruct Ha as [-> | Ha], Hb as [-> | Hb].
  - reflexivity.
  - exfalso. apply Hfresh. rewrite Hid. apply in_map. exact Hb.
  - exfalso. apply Hfresh. rewrite <- Hid. apply in_map. exact Ha.
  - apply IH; assumption.
Qed.

(** An event of the calendar stands for a slot of the list that is not
    disabled. *)
Lemma event_has_slot (clock : CalendarUtils.Clock) (slots : list Slot.t) (event : Event) :
  In event (events clock slots) ->
  exists slot, In slot slots /\
               CalendarUtils.isSlotDisabled clock (Slot.start_time slot) = false /\
               ev_id event = Slot.id slot /\
               ev_isAvailable event = Slot.is_available slot.
Proof.
  unfold events. intros Hin.
  apply in_map_iff in Hin as (slot & <- & Hslot).
  apply filter_In in Hslot as [Hslot Hshown].
  exists slot. repeat split; try assumption.
  destruct (CalendarUtils.isSlotDisabled clock (Slot.start_time slot));
    [discriminate Hshown | reflexivity].
Qed.

(** What a click hands to [onSlotSelect]. *)
Lemma clicked_slot (clock : CalendarUtils.Clock) (slots : list Slot.t) (c : Click)
    (slot : Slot.t) :
  clicked c slots = Some slot ->
  In slot slots /\
  match c with
  | OnDate clickedDate =>
      Slot.is_available slot = true /\
      Slot.start_time slot <= clickedDate < Slot.end_time slot
  | OnEvent event => ev_isAvailable event = true /\ Slot.id slot = ev_id event
  end.
Proof.
  destruct c as [clickedDate | event]; cbn [clicked].
  - unfold handleSlotClick. intros H. apply head_filter_some in H as [Hin Hcovers].
    split; [exact Hin |]. unfold coversClick in Hcovers.
    destruct (Slot.is_available slot); cbn [negb] in Hcovers; [| discriminate Hcovers].
    apply andb_prop in Hcovers as [Hstart Hend].
    apply Z.leb_le in Hstart. apply Z.ltb_lt in Hend. split; [reflexivity | lia].
  - unfold handleEventClick.
    destruct (ev_isAvailable event); cbn [negb]; [| discriminate].
    intros H. apply find_some in H as [Hin Hid].
    apply String.eqb_eq in Hid. repeat split; assumption.
Qed.

End CalendarFacts.

(** X13.  A click on the calendar, on the grid or on one of the events it
    renders, makes a slot the selected slot of the booking page only if
    the calendar holds that slot, the slot is marked available there, it
    starts later than the hour after the current one, and
    [verifySlotAvailability] has just answered that it is free.  The ids
    of the slots the calendar holds are taken to be distinct. *)
Theorem X13_click_selects_only_bookable_slots :
  forall (clock : CalendarUtils.Clock) (hasQuick : bool)
         (availability : Js.Completion bool) (c : Calendar.Click)
         (slots : list Slot.t) (st : BookingPage.State) (slot : Slot.t),
    List.NoDup (List.map Slot.id slots) ->
    Cases.rendered clock slots c ->
    BookingPage.selectedSlot st <> Some slot ->
    BookingPage.selectedSlot (fst (Calendar.click clock hasQuick availability c slots st))
      = Some slot ->
    In slot slots /\
    Slot.is_available slot = true /\
    CalendarUtils.isSlotDisabled clock (Slot.start_time slot) = false /\
    availability = Js.Returned true.
Proof.
  intros clock hasQuick availability c slots st slot Hnodup Hrendered Hbefore.
  unfold Calendar.click.
  destruct (Calendar.clicked c slots) as [s |] eqn:Hclicked; [| cbn; congruence].
  unfold BookingPage.handleSlotSelect.
  destruct (Js.truthy (Slot.id s)); cbn [negb]; [| cbn; congruence].
  destruct (CalendarUtils.isSlotDisabled clock (Slot.start_time s)) eqn:Hdisabled;
    [cbn; congruence |].
  destruct availability as [[|] | err]; cbn; try congruence.
  intros Hselected. injection Hselected as ->.
  apply (clicked_slot clock) in Hclicked as [Hin Hclick].
  repeat split; try assumption; try reflexivity.
  destruct c as [clickedDate | event]; [tauto |].
  destruct Hclick as [Havailable Hid].
  apply event_has_slot in Hrendered as (shown & Hshown & _ & Hsame & Hflag).
  rewrite (same_id_same_slot slots slot shown Hnodup Hin Hshown) by congruence.
  congruence.
Qed.

Lemma X13_click_witness :
  In Scenario.freeSlot [Scenario.bookedSlot; Scenario.freeSlot] /\
  Slot.is_available Scenario.freeSlot = true /\
  CalendarUtils.isSlotDisabled Cases.halfPastSeven (Slot.start_time Scenario.freeSlot) = false /\
  Js.Returned true = Js.Returned true.
Proof.
  apply (X13_click_selects_only_bookable_slots Cases.halfPastSeven false (Js.Returned true)
           (Calendar.OnDate (10 * Scenario.hour + 15 * Scenario.minute))
           [Scenario.bookedSlot; Scenario.freeSlot] Scenario.initialState Scenario.freeSlot).
  - repeat constructor; cbn; intuition discriminate.
  - exact I.
  - discriminate.
  - reflexivity.
Defined.

(** X14.  Once the subscription has reported that a slot was deleted, or
    updated to a row that is not available, no click on the calendar, on
    the grid or on an event rendered from the new list, hands a slot with
    that id to the booking page. *)
Theorem X14_taken_slot_cannot_be_clicked :
  forall (payload : Calendar.Payload) (id : string) (clock : CalendarUtils.Clock)
         (slots : list Slot.t) (c : Calendar.Click) (slot : Slot.t),
    Cases.takesAway payload id ->
    Cases.rendered clock (Calendar.onSlotChange payload slots) c ->
    Calendar.clicked c (Calendar.onSlotChange payload slots) = Some slot ->
    Slot.id slot <> id.
Proof.
  intros payload id clock slots c slot Htaken Hrendered Hclicked Hid.
  apply (clicked_slot clock) in Hclicked as [Hin Hclick].
  destruct payload as [new | new | oldId]; cbn [Cases.takesAway] in Htaken.
  - destruct Htaken as [Hnew Hbooked].
    assert (Hupdated : forall s, In s (Calendar.onSlotChange (Calendar.UPDATE new) slots) ->
                                 Slot.id s = id -> Slot.is_available s = false).
    { intros s Hs Hsid. cbn [Calendar.onSlotChange] in Hs.
      apply in_map_iff in Hs as (old & Hold & _).
      destruct (String.eqb_spec (Slot.id old) (Slot.id new)) as [_ | Hother];
        [subst s; exact Hbooked | subst s; congruence]. }
    destruct c as [clickedDate | event].
    + destruct Hclick as [Havailable _].
      rewrite (Hupdated slot Hin Hid) in Havailable. discriminate Havailable.
    + destruct Hclick as [Havailable Hsame].
      apply event_has_slot in Hrendered as (shown & Hshown & _ & Hshownid & Hflag).
      rewrite (Hupdated shown Hshown) in Hflag by congruence. congruence.
  - destruct Htaken.
  - subst oldId. cbn [Calendar.onSlotChange] in Hin.
    apply filter_In in Hin as [_ Hkept].
    rewrite Hid, String.eqb_refl in Hkept. discriminate Hkept.
Qed.

Lemma X14_taken_slot_witness :
  Slot.id (Slot.setAvailable true Scenario.bookedSlot) <> "slot-2".
Proof.
  apply (X14_taken_slot_cannot_be_clicked
           (Calendar.UPDATE (Slot.setAvailable false Scenario.freeSlot)) "slot-2"
           Cases.halfPastSeven
           [Slot.setAvailable true Scenario.bookedSlot; Scenario.freeSlot]
           (Calendar.OnDate (9 * Scenario.hour + 15 * Scenario.minute))
           (Slot.setAvailable true Scenario.bookedSlot)).
  - split; reflexivity.
  - exact I.
  - reflexivity.
Defined.

(** ** supabase.js: creating a reservation and what follows from it *)

Section ReservationFacts.
Import Js Backend Supabase SupabaseRest.

Lemma reference_truthy (today : EmailService.LocalDate) (pick : nat -> Z) :
  truthy (EmailService.generateBookingReference today pick) = true.
Proof. reflexivity. Qed.

Lemma no_faults_next (w : World) : faults w = [] -> nextFault w = None.
Proof. unfold nextFault. intros ->. reflexivity. Qed.

(** The tables once the row is inserted and the slot marked. *)
Lemma createReservation_succeeds (w : World) (rowId : string)
    (today : EmailService.LocalDate) (pick : nat -> Z) (slotId : string)
    (userData : EmailService.UserData) :
  serviceKey w = true ->
  faults w = [] ->
  let row := reservationRow rowId slotId userData
               (EmailService.generateBookingReference today pick) in
  let inserted := mkDatabase (slots (db w)) (reservations (db w) ++ [row])%list
                             (settings (db w)) in
  createReservation rowId today pick slotId userData w
  = (Returned (join inserted row),
     mkWorld (updateSlotAvailability slotId false inserted) (rls w) true []).
Proof.
  intros Hkey Hfaults. cbv zeta.
  unfold createReservation, bindM, catchM, getServiceKey. rewrite Hkey. cbn [negb].
  rewrite (request_no_fault _ _ (no_faults_next w Hfaults)).
  rewrite Hfaults, Hkey. cbn [fst snd insertReservation error data ok tail head].
  rewrite request_no_fault by reflexivity.
  cbn [fst snd error data ok tail head db rls serviceKey faults join reservationRow
       Reservation.reference].
  rewrite reference_truthy. reflexivity.
Qed.

Lemma updated_slot (slotId : string) (b : bool) (d : Database) (s : Slot.t) :
  In s (slots (updateSlotAvailability slotId b d)) ->
  (Slot.id s = slotId /\ Slot.is_available s = b) \/
  (Slot.id s <> slotId /\ In s (slots d)).
Proof.
  unfold updateSlotAvailability. cbn [slots]. intros Hin.
  apply in_map_iff in Hin as (old & Hold & Hin).
  destruct (String.eqb_spec (Slot.id old) slotId) as [Hid | Hid]; subst s.
  - left. split; [exact Hid | reflexivity].
  - right. split; assumption.
Qed.

(** Without a fault the just-in-time check answers from the rows the
    anonymous key may see: the flag of the single row, or PGRST116. *)
Lemma verifySlotAvailability_no_fault (slotId : string) (w : World) :
  nextFault w = None ->
  verifySlotAvailability slotId w
  = (match selectSlots Anon (fun x => String.eqb (Slot.id x) slotId) (rls w) (db w) with
     | [s] => Returned (Slot.is_available s)
     | _ => Thrown (mkError "JSON object requested, multiple (or no) rows returned" "PGRST116")
     end,
     mkWorld (db w) (rls w) (serviceKey w) (tail (faults w))).
Proof.
  intros Hf.
  unfold verifySlotAvailability, queryIsAvailable, catchM, bindM.
  rewrite (request_no_fault _ _ Hf). cbn [fst snd].
  destruct (selectSlots Anon (fun x => String.eqb (Slot.id x) slotId) (rls w) (db w))
    as [| s [| s' rest]]; cbn; try reflexivity.
  all: destruct (serviceKey w); reflexivity.
Qed.

End ReservationFacts.

(** X15.  With the service key set and no request failing,
    [createReservation] returns the row it inserted, with the status
    [confirmed] and the reference it generated; afterwards the row is the
    last one of the table, every slot with the given id is unavailable and
    the other slots are as before. *)
Theorem X15_createReservation_books_the_slot :
  forall (w : Backend.World) (rowId : string) (today : EmailService.LocalDate)
         (pick : nat -> Z) (slotId : string) (userData : EmailService.UserData),
    Backend.serviceKey w = true ->
    Backend.faults w = [] ->
    exists (created : Supabase.Joined) (w' : Backend.World),
      SupabaseRest.createReservation rowId today pick slotId userData w
        = (Js.Returned created, w') /\
      Reservation.slot_id (fst created) = slotId /\
      Reservation.user_email (fst created) = EmailService.email userData /\
      Reservation.status (fst created) = "confirmed" /\
      Reservation.reference (fst created) = EmailService.generateBookingReference today pick /\
      Backend.reservations (Backend.db w')
        = (Backend.reservations (Backend.db w) ++ [fst created])%list /\
      (forall s, In s (Backend.slots (Backend.db w')) -> Slot.id s = slotId ->
                 Slot.is_available s = false) /\
      (forall s, Slot.id s <> slotId ->
                 (In s (Backend.slots (Backend.db w')) <-> In s (Backend.slots (Backend.db w)))).
Proof.
  intros w rowId today pick slotId userData Hkey Hfaults.
  pose proof (createReservation_succeeds w rowId today pick slotId userData Hkey Hfaults)
    as Hcreated. cbv zeta in Hcreated.
  eexists _, _. split; [exact Hcreated |].
  cbn [fst Supabase.join SupabaseRest.reservationRow Reservation.slot_id
       Reservation.user_email Reservation.status Reservation.reference
       Backend.db Backend.reservations Backend.updateSlotAvailability Backend.slots].
  do 5 (split; [reflexivity |]). split.
  - intros s Hin Hid. apply in_map_iff in Hin as (old & Hold & _).
    destruct (String.eqb_spec (Slot.id old) slotId); subst s; [reflexivity | contradiction].
  - intros s Hother. split; intros Hin.
    + apply in_map_iff in Hin as (old & Hold & Hin).
      destruct (String.eqb_spec (Slot.id old) slotId) as [Hid | _]; subst s;
        [contradiction (Hother Hid) | exact Hin].
    + apply in_map_iff. exists s. split; [| exact Hin].
      destruct (String.eqb_spec (Slot.id s) slotId); [contradiction | reflexivity].
Qed.

Lemma X15_createReservation_witness :
  exists (created : Supabase.Joined) (w' : Backend.World),
    SupabaseRest.createReservation "res-2" (EmailService.mkLocalDate 2025 3 9) (fun _ => 0)
      "slot-2" Scenario.adaForm Scenario.initWorld = (Js.Returned created, w') /\
    Reservation.slot_id (fst created) = "slot-2" /\
    Reservation.user_email (fst created) = EmailService.email Scenario.adaForm /\
    Reservation.status (fst created) = "confirmed" /\
    Reservation.reference (fst created)
      = EmailService.generateBookingReference (EmailService.mkLocalDate 2025 3 9) (fun _ => 0) /\
    Backend.reservations (Backend.db w')
      = (Backend.reservations (Backend.db Scenario.initWorld) ++ [fst created])%list /\
    (forall s, In s (Backend.slots (Backend.db w')) -> Slot.id s = "slot-2" ->
               Slot.is_available s = false) /\
    (forall s, Slot.id s <> "slot-2" ->
               (In s (Backend.slots (Backend.db w'))
                <-> In s (Backend.slots (Backend.db Scenario.initWorld)))).
Proof.
  apply (X15_createReservation_books_the_slot Scenario.initWorld "res-2"
           (EmailService.mkLocalDate 2025 3 9) (fun _ => 0) "slot-2" Scenario.adaForm);
    reflexivity.
Defined.

(** X16.  Once [createReservation] has gone through, the just-in-time
    check of the slot no longer answers that it is free, whatever the
    policies let the anonymous key see. *)
Theorem X16_booked_slot_fails_the_availability_check :
  forall (w : Backend.World) (rowId : string) (today : EmailService.LocalDate)
         (pick : nat -> Z) (slotId : string) (userData : EmailService.UserData),
    Backend.serviceKey w = true ->
    Backend.faults w = [] ->
    fst (Supabase.verifySlotAvailability slotId
           (snd (SupabaseRest.createReservation rowId today pick slotId userData w)))
    <> Js.Returned true.
Proof.
  intros w rowId today pick slotId userData Hkey Hfaults.
  pose proof (createReservation_succeeds w rowId today pick slotId userData Hkey Hfaults)
    as Hcreated. cbv zeta in Hcreated. rewrite Hcreated. cbn [snd].
  rewrite verifySlotAvailability_no_fault by reflexivity. cbn [fst Backend.db Backend.rls].
  destruct (Backend.selectSlots _ _ _ _) as [| s [| s' rest]] eqn:Hrows; try discriminate.
  assert (Hin : In s [s]) by (left; reflexivity).
  rewrite <- Hrows in Hin. apply in_selectSlots in Hin as (Hin & _ & Hid).
  apply String.eqb_eq in Hid.
  apply updated_slot in Hin as [[_ Hflag] | [Hother _]]; [| contradiction].
  rewrite Hflag. discriminate.
Qed.

Lemma X16_booked_slot_witness :
  fst (Supabase.verifySlotAvailability "slot-2"
         (snd (SupabaseRest.createReservation "res-2" (EmailService.mkLocalDate 2025 3 9)
                 (fun _ => 0) "slot-2" Scenario.adaForm Scenario.openWorld)))
  <> Js.Returned true.
Proof.
  apply (X16_booked_slot_fails_the_availability_check Scenario.openWorld "res-2"
           (EmailService.mkLocalDate 2025 3 9) (fun _ => 0) "slot-2" Scenario.adaForm);
    reflexivity.
Defined.

(** What the check answers when booked slots are hidden from the
    anonymous key. *)
Lemma check_under_hiding (w : Backend.World) (slotId : string) :
  Backend.nextFault w = None ->
  Cases.hidesBookedSlots w ->
  fst (Supabase.verifySlotAvailability slotId w) <> Js.Returned false /\
  ((forall s, In s (Backend.slots (Backend.db w)) -> Slot.id s = slotId ->
              Slot.is_available s = false) ->
   fst (Supabase.verifySlotAvailability slotId w) = Js.Thrown Cases.noSingleRow).
Proof.
  intros Hfault Hpolicy.
  rewrite verifySlotAvailability_no_fault by exact Hfault. cbn [fst].
  destruct (Backend.selectSlots _ _ _ _) as [| s rest] eqn:Hrows.
  - split; [discriminate | reflexivity].
  - assert (Hin : In s (s :: rest)) by (left; reflexivity).
    rewrite <- Hrows in Hin. apply in_selectSlots in Hin as (Hin & Hseen & Hid).
    apply String.eqb_eq in Hid. cbn [Backend.canSelectSlot] in Hseen.
    pose proof (Hpolicy s Hin Hseen) as Havailable.
    split.
    + destruct rest; [rewrite Havailable |]; discriminate.
    + intros Hbooked. rewrite (Hbooked s Hin Hid) in Havailable. discriminate Havailable.
Qed.

(** X17.  When the anonymous key sees available slots only, the
    just-in-time check never answers that a slot is taken: for a booked
    slot the query finds no row and [verifySlotAvailability] throws the
    error PGRST116 of [.single()], without a second try through the
    service key. *)
Theorem X17_hidden_slot_makes_the_check_throw :
  forall (w : Backend.World) (slotId : string),
    Backend.nextFault w = None ->
    Cases.hidesBookedSlots w ->
    fst (Supabase.verifySlotAvailability slotId w) <> Js.Returned false /\
    ((forall s, In s (Backend.slots (Backend.db w)) -> Slot.id s = slotId ->
                Slot.is_available s = false) ->
     fst (Supabase.verifySlotAvailability slotId w) = Js.Thrown Cases.noSingleRow).
Proof.
  intros w slotId. apply check_under_hiding.
Qed.

Lemma X17_hidden_slot_witness :
  fst (Supabase.verifySlotAvailability "slot-1" Scenario.initWorld) <> Js.Returned false /\
  ((forall s, In s (Backend.slots (Backend.db Scenario.initWorld)) -> Slot.id s = "slot-1" ->
              Slot.is_available s = false) ->
   fst (Supabase.verifySlotAvailability "slot-1" Scenario.initWorld)
   = Js.Thrown Cases.noSingleRow).
Proof.
  apply (X17_hidden_slot_makes_the_check_throw Scenario.initWorld "slot-1").
  - reflexivity.
  - intros s _ Hseen. exact Hseen.
Defined.

(** X18.  With such policies a submission never takes the selection
    away: the branch of [handleSubmit] that clears the selected slot needs
    the check to answer [false], and the check answers [true] or throws.
    For a slot that is booked the visitor sees the message of PGRST116 and
    keeps the slot selected. *)
Theorem X18_hidden_slot_keeps_the_selection :
  forall (w : Backend.World) (slotId : string) (env : BookingPage.Env)
         (store : RateLimiter.AttemptStore) (closure : BookingPage.State),
    Backend.nextFault w = None ->
    Cases.hidesBookedSlots w ->
    BookingPage.slotAvailability env = fst (Supabase.verifySlotAvailability slotId w) ->
    let run := BookingPage.handleSubmit env store closure in
    BookingPage.selectedSlot (BookingPage.state run) = BookingPage.selectedSlot closure /\
    ((forall s, In s (Backend.slots (Backend.db w)) -> Slot.id s = slotId ->
                Slot.is_available s = false) ->
     In (BookingPage.VerifySlotAvailability slotId) (BookingPage.calls run) ->
     BookingPage.submitError (BookingPage.state run)
       = Some "JSON object requested, multiple (or no) rows returned" /\
     forall c, In c (BookingPage.calls run) -> BookingPage.registersOrCreates c = false).
Proof.
  intros w slotId env store closure Hfault Hpolicy Hanswer.
  destruct (check_under_hiding w slotId Hfault Hpolicy) as [Hnever Hthrows].
  rewrite <- Hanswer in Hnever, Hthrows. clear Hanswer. cbv zeta.
  unfold BookingPage.handleSubmit, BookingPage.submitBody, BookingPage.submitFromVerification.
  cbv zeta. split.
  - repeat branch; cbn;
      rewrite ?(proj1 (proj2 (onBookingError_keeps _ _))); cbn; try reflexivity.
    all: try congruence.
    all: match goal with
         | H : negb ?b = true |- _ =>
             destruct b; [discriminate H | exfalso; apply Hnever; reflexivity]
         end.
  - intros Hbooked. specialize (Hthrows Hbooked). rewrite Hthrows.
    repeat branch; cbn; intros Hcalled;
      try (exfalso; intuition discriminate).
    all: split; [reflexivity |].
    all: intros c Hc; cbn in Hc; intuition (subst; reflexivity).
Qed.

Lemma X18_hidden_slot_witness :
  let run := BookingPage.handleSubmit (Cases.checkingIn "slot-1" Scenario.initWorld) ∅
               Cases.staleSelection in
  BookingPage.selectedSlot (BookingPage.state run)
    = BookingPage.selectedSlot Cases.staleSelection /\
  ((forall s, In s (Backend.slots (Backend.db Scenario.initWorld)) -> Slot.id s = "slot-1" ->
              Slot.is_available s = false) ->
   In (BookingPage.VerifySlotAvailability "slot-1") (BookingPage.calls run) ->
   BookingPage.submitError (BookingPage.state run)
     = Some "JSON object requested, multiple (or no) rows returned" /\
   forall c, In c (BookingPage.calls run) -> BookingPage.registersOrCreates c = false).
Proof.
  apply (X18_hidden_slot_keeps_the_selection Scenario.initWorld "slot-1"
           (Cases.checkingIn "slot-1" Scenario.initWorld) ∅ Cases.staleSelection).
  - reflexivity.
  - intros s _ Hseen. exact Hseen.
  - reflexivity.
Defined.

Example stale_selection_is_kept :
  let run := BookingPage.handleSubmit (Cases.checkingIn "slot-1" Scenario.initWorld) ∅
               Cases.staleSelection in
  BookingPage.selectedSlot (BookingPage.state run) = Some Scenario.bookedSlot /\
  BookingPage.submitError (BookingPage.state run)
    = Some "JSON object requested, multiple (or no) rows returned" /\
  BookingPage.calls run
    = [BookingPage.GetUserReservationCount "ada@example.org";
       BookingPage.VerifySlotAvailability "slot-1"].
Proof. vm_compute. repeat split; reflexivity. Qed.

Section UndoFacts.
Import Js Backend Supabase SupabaseRest.

Lemma fetch_new_row (rowId : string) (rs : list Reservation.t) (row : Reservation.t) :
  (forall r, In r rs -> Reservation.id r <> rowId) ->
  Reservation.id row = rowId ->
  List.filter (hasId rowId) (rs ++ [row]) = [row] /\
  List.filter (fun x => negb (hasId rowId x)) (rs ++ [row]) = rs.
Proof.
  intros Hfresh Hrow.
  induction rs as [| a r IH]; cbn [app List.filter].
  - unfold hasId. rewrite Hrow, String.eqb_refl. split; reflexivity.
  - destruct IH as [IH1 IH2]; [intros x Hx; apply Hfresh; right; exact Hx |].
    rewrite IH1, IH2. unfold hasId.
    rewrite (proj2 (String.eqb_neq _ _) (Hfresh a (or_introl eq_refl))).
    split; reflexivity.
Qed.

Lemma set_then_reset (slotId : string) (l : list Slot.t) :
  (forall s, In s l -> Slot.id s = slotId -> Slot.is_available s = true) ->
  List.map (fun s => if String.eqb (Slot.id s) slotId then Slot.setAvailable true s else s)
    (List.map (fun s => if String.eqb (Slot.id s) slotId then Slot.setAvailable false s else s)
       l) = l.
Proof.
  induction l as [| a r IH]; intros H; [reflexivity |].
  cbn [List.map]. rewrite IH by (intros s Hs; apply H; right; exact Hs). f_equal.
  destruct (String.eqb_spec (Slot.id a) slotId) as [Hid | Hid].
  - cbn [Slot.setAvailable Slot.id]. rewrite (proj2 (String.eqb_eq _ _) Hid).
    specialize (H a (or_introl eq_refl) Hid). destruct a as [i s e b].
    cbn in H |- *. rewrite H. reflexivity.
  - rewrite (proj2 (String.eqb_neq _ _) Hid). reflexivity.
Qed.

End UndoFacts.

(** X19.  Deleting a reservation undoes its creation: after
    [createReservation] and then [deleteReservation] of the new row, the
    tables are what they were, provided the slot was available to begin
    with, the slot id is not empty, no other reservation carries the id of
    the new row and no request fails. *)
Theorem X19_deleteReservation_undoes_createReservation :
  forall (w : Backend.World) (rowId : string) (today : EmailService.LocalDate)
         (pick : nat -> Z) (slotId : string) (userData : EmailService.UserData),
    Backend.serviceKey w = true ->
    Backend.faults w = [] ->
    slotId <> "" ->
    (forall r, In r (Backend.reservations (Backend.db w)) -> Reservation.id r <> rowId) ->
    (forall s, In s (Backend.slots (Backend.db w)) -> Slot.id s = slotId ->
               Slot.is_available s = true) ->
    let booked := SupabaseRest.createReservation rowId today pick slotId userData w in
    exists deleted : Supabase.Joined,
      Supabase.deleteReservation rowId (snd booked) = (Js.Returned deleted, w) /\
      Js.Returned (fst deleted) = Cases.created (fst booked).
Proof.
  intros w rowId today pick slotId userData Hkey Hfaults Hslot Hfresh Havailable.
  pose proof (createReservation_succeeds w rowId today pick slotId userData Hkey Hfaults)
    as Hcreated. cbv zeta in Hcreated. cbv zeta. rewrite Hcreated.
  cbn [fst snd Cases.created Supabase.join].
  set (reference := EmailService.generateBookingReference today pick).
  set (row := SupabaseRest.reservationRow rowId slotId userData reference).
  destruct (fetch_new_row rowId (Backend.reservations (Backend.db w)) row Hfresh eq_refl)
    as [Hfetch Hdelete].
  eexists. split.
  - unfold Supabase.deleteReservation, Backend.bindM, Backend.catchM, Backend.getServiceKey.
    cbn [Backend.serviceKey negb].
    rewrite request_no_fault by reflexivity.
    cbn [fst snd Backend.db Backend.rls Backend.serviceKey Backend.faults tail
         Backend.updateSlotAvailability Backend.reservations Backend.slots Backend.settings].
    rewrite Hfetch.
    cbn [List.map Backend.single Backend.error Backend.data Backend.ok].
    rewrite request_no_fault by reflexivity.
    cbn [fst snd Backend.db Backend.rls Backend.serviceKey Backend.faults tail
         Backend.reservations Backend.slots Backend.settings Backend.error Backend.data
         Backend.ok Backend.updateSlotAvailability].
    rewrite Hdelete. cbn [fst Supabase.join].
    change (Reservation.slot_id row) with slotId.
    rewrite (truthy_nonempty _ Hslot).
    unfold Supabase.resetSlotAvailability, Backend.bindM, Backend.getServiceKey.
    cbn [Backend.serviceKey negb].
    rewrite request_no_fault by reflexivity.
    cbn [fst snd Backend.db Backend.rls Backend.serviceKey Backend.faults tail
         Backend.updateSlotAvailability Backend.reservations Backend.slots Backend.settings
         Backend.error Backend.data Backend.ok Backend.ret].
    unfold Backend.updateSlotAvailability at 2.
    cbn [Backend.slots Backend.reservations Backend.settings].
    rewrite (set_then_reset slotId _ Havailable).
    apply f_equal2; [reflexivity |].
    destruct w as [[slots reservations settings] policies key faults].
    cbn in Hkey, Hfaults |- *. subst key faults. reflexivity.
  - reflexivity.
Qed.

Lemma X19_deleteReservation_witness :
  let booked := SupabaseRest.createReservation "res-2" (EmailService.mkLocalDate 2025 3 9)
                  (fun _ => 0) "slot-2" Scenario.adaForm Scenario.initWorld in
  exists deleted : Supabase.Joined,
    Supabase.deleteReservation "res-2" (snd booked) = (Js.Returned deleted, Scenario.initWorld) /\
    Js.Returned (fst deleted) = Cases.created (fst booked).
Proof.
  apply (X19_deleteReservation_undoes_createReservation Scenario.initWorld "res-2"
           (EmailService.mkLocalDate 2025 3 9) (fun _ => 0) "slot-2" Scenario.adaForm).
  - reflexivity.
  - reflexivity.
  - discriminate.
  - intros r [<- | []]. discriminate.
  - intros s [<- | [<- | []]]; [discriminate | reflexivity].
Defined.

(** X20.  [createReservation] does not take the reservation back when
    marking the slot fails: if the insert goes through and the update of
    the slot is answered with an error, the function throws that error
    and the new row stays in the table of reservations. *)
Theorem X20_failed_slot_update_leaves_the_reservation :
  forall (w : Backend.World) (rowId : string) (today : EmailService.LocalDate)
         (pick : nat -> Z) (slotId : string) (userData : EmailService.UserData)
         (updateError : Js.Error) (rest : list (option Js.Error)),
    Backend.serviceKey w = true ->
    Backend.faults w = None :: Some updateError :: rest ->
    exists w' : Backend.World,
      SupabaseRest.createReservation rowId today pick slotId userData w
        = (Js.Thrown updateError, w') /\
      Backend.reservations (Backend.db w')
        = (Backend.reservations (Backend.db w)
           ++ [SupabaseRest.reservationRow rowId slotId userData
                 (EmailService.generateBookingReference today pick)])%list /\
      Backend.faults w' = rest.
Proof.
  intros w rowId today pick slotId userData updateError rest Hkey Hfaults.
  unfold SupabaseRest.createReservation, Backend.bindM, Backend.catchM, Backend.getServiceKey.
  rewrite Hkey. cbn [negb].
  rewrite request_no_fault by (unfold Backend.nextFault; rewrite Hfaults; reflexivity).
  rewrite Hfaults.
  cbn [fst snd SupabaseRest.insertReservation Backend.error Backend.data Backend.ok tail].
  rewrite (request_fault _ _ updateError) by reflexivity.
  cbn [fst snd Backend.error Backend.data Backend.failed Backend.throw Backend.db
       Backend.faults tail Backend.reservations].
  eexists. split; [reflexivity |]. split; reflexivity.
Qed.

Lemma X20_failed_slot_update_witness :
  exists w' : Backend.World,
    SupabaseRest.createReservation "res-2" (EmailService.mkLocalDate 2025 3 9) (fun _ => 0)
      "slot-2" Scenario.adaForm Cases.secondRequestFails
      = (Js.Thrown Scenario.permissionDenied, w') /\
    Backend.reservations (Backend.db w')
      = (Backend.reservations (Backend.db Cases.secondRequestFails)
         ++ [SupabaseRest.reservationRow "res-2" "slot-2" Scenario.adaForm
               (EmailService.generateBookingReference (EmailService.mkLocalDate 2025 3 9)
                  (fun _ => 0))])%list /\
    Backend.faults w' = [].
Proof.
  apply (X20_failed_slot_update_leaves_the_reservation Cases.secondRequestFails "res-2"
           (EmailService.mkLocalDate 2025 3 9) (fun _ => 0) "slot-2" Scenario.adaForm
           Scenario.permissionDenied []); reflexivity.
Defined.

(** ** supabase.js: the closest slot and the count of slots *)

Section ClosestFacts.
Import Js Backend Supabase SupabaseRest.

Lemma offered_selected (now futureDate : Z) (w : World) (s : Slot.t) :
  In s (selectSlots Anon
          (fun s => (now <=? Slot.start_time s) && (Slot.start_time s <=? futureDate)
                    && Bool.eqb (Slot.is_available s) true) (rls w) (db w))
  <-> Cases.offered now w s /\ Slot.start_time s <= futureDate.
Proof.
  rewrite in_selectSlots. unfold Cases.offered. cbn [canSelectSlot].
  rewrite !andb_true_iff, !Z.leb_le.
  destruct (Slot.is_available s); cbn [Bool.eqb]; intuition congruence.
Qed.

Lemma offered_counted (now : Z) (w : World) (s : Slot.t) :
  In s (selectSlots Anon (upcomingAvailable now) (rls w) (db w)) <-> Cases.offered now w s.
Proof.
  rewrite in_selectSlots. unfold Cases.offered, upcomingAvailable. cbn [canSelectSlot].
  rewrite !andb_true_iff, !Z.leb_le.
  destruct (Slot.is_available s); cbn [Bool.eqb]; intuition congruence.
Qed.

Lemma sorted_head_first (s : Slot.t) (rest : list Slot.t) :
  Sorted startsBefore (s :: rest) ->
  forall x, In x (s :: rest) -> Slot.start_time s <= Slot.start_time x.
Proof.
  intros Hsorted x Hx.
  apply Sorted_StronglySorted in Hsorted;
    [| intros a b c; unfold startsBefore; lia].
  inversion Hsorted as [| ? ? _ Hall]; subst.
  destruct Hx as [<- | Hx]; [lia |].
  rewrite List.Forall_forall in Hall. apply Hall. exact Hx.
Qed.

(** What [getClosestAvailableSlot] answers when its request goes
    through. *)
Lemma getClosestAvailableSlot_no_fault (now futureDate : Z) (w : World) :
  nextFault w = None ->
  getClosestAvailableSlot now futureDate w
  = (Returned (head (orderByStart
                       (selectSlots Anon
                          (fun s => (now <=? Slot.start_time s)
                                    && (Slot.start_time s <=? futureDate)
                                    && Bool.eqb (Slot.is_available s) true) (rls w) (db w)))),
     mkWorld (db w) (rls w) (serviceKey w) (tail (faults w))).
Proof.
  intros Hf. unfold getClosestAvailableSlot, bindM.
  rewrite (request_no_fault _ _ Hf). cbn [fst snd ok error data].
  destruct (orderByStart _) as [| s rest]; reflexivity.
Qed.

Lemma checkSlotsExist_no_fault (now : Z) (w : World) :
  nextFault w = None ->
  checkSlotsExist now w
  = (Returned (Z.of_nat (length (selectSlots Anon (upcomingAvailable now) (rls w) (db w)))
               >? 0),
     mkWorld (db w) (rls w) (serviceKey w) (tail (faults w))).
Proof.
  intros Hf. unfold checkSlotsExist, bindM.
  rewrite (request_no_fault _ _ Hf). reflexivity.
Qed.

End ClosestFacts.

(** X21.  When its request goes through, [getClosestAvailableSlot] leaves
    the tables alone and answers with the earliest of the slots that the
    anonymous key may offer and that start between now and a month from
    now; it answers with no slot exactly when there is none. *)
Theorem X21_closest_slot_is_the_earliest :
  forall (now futureDate : Z) (w : Backend.World),
    Backend.nextFault w = None ->
    exists found : option Slot.t,
      fst (Supabase.getClosestAvailableSlot now futureDate w) = Js.Returned found /\
      Backend.db (snd (Supabase.getClosestAvailableSlot now futureDate w)) = Backend.db w /\
      match found with
      | Some s =>
          Cases.offered now w s /\ Slot.start_time s <= futureDate /\
          forall other, Cases.offered now w other -> Slot.start_time other <= futureDate ->
                        Slot.start_time s <= Slot.start_time other
      | None =>
          forall other, Cases.offered now w other -> futureDate < Slot.start_time other
      end.
Proof.
  intros now futureDate w Hf.
  rewrite (getClosestAvailableSlot_no_fault now futureDate w Hf). cbn [fst snd Backend.db].
  eexists. split; [reflexivity |]. split; [reflexivity |].
  pose proof (orderByStart_sorted
                (Backend.selectSlots Backend.Anon
                   (fun s => (now <=? Slot.start_time s) && (Slot.start_time s <=? futureDate)
                             && Bool.eqb (Slot.is_available s) true)
                   (Backend.rls w) (Backend.db w))) as Hsorted.
  assert (Hrows : forall x,
             In x (Backend.orderByStart
                     (Backend.selectSlots Backend.Anon
                        (fun s => (now <=? Slot.start_time s)
                                  && (Slot.start_time s <=? futureDate)
                                  && Bool.eqb (Slot.is_available s) true)
                        (Backend.rls w) (Backend.db w)))
             <-> Cases.offered now w x /\ Slot.start_time x <= futureDate).
  { intros x. rewrite in_orderByStart. apply offered_selected. }
  destruct (Backend.orderByStart _) as [| s rest]; cbn [head].
  - intros other Hother.
    destruct (Z.lt_ge_cases futureDate (Slot.start_time other)) as [Hlate | Hsoon];
      [exact Hlate |].
    exfalso. apply (proj2 (Hrows other)). split; assumption.
  - destruct (proj1 (Hrows s) (or_introl eq_refl)) as [Hoffered Hsoon].
    repeat split; try assumption; try apply Hoffered.
    intros other Hother Hothersoon.
    apply (sorted_head_first s rest Hsorted). apply Hrows. split; assumption.
Qed.

Lemma X21_closest_slot_witness :
  exists found : option Slot.t,
    fst (Supabase.getClosestAvailableSlot (8 * Scenario.hour) (720 * Scenario.hour)
           Scenario.initWorld) = Js.Returned found /\
    Backend.db (snd (Supabase.getClosestAvailableSlot (8 * Scenario.hour) (720 * Scenario.hour)
                       Scenario.initWorld)) = Backend.db Scenario.initWorld /\
    match found with
    | Some s =>
        Cases.offered (8 * Scenario.hour) Scenario.initWorld s /\
        Slot.start_time s <= 720 * Scenario.hour /\
        forall other, Cases.offered (8 * Scenario.hour) Scenario.initWorld other ->
                      Slot.start_time other <= 720 * Scenario.hour ->
                      Slot.start_time s <= Slot.start_time other
    | None =>
        forall other, Cases.offered (8 * Scenario.hour) Scenario.initWorld other ->
                      720 * Scenario.hour < Slot.start_time other
    end.
Proof.
  apply (X21_closest_slot_is_the_earliest (8 * Scenario.hour) (720 * Scenario.hour)
           Scenario.initWorld).
  reflexivity.
Defined.

(** X22.  When its request goes through, [checkSlotsExist] answers [true]
    exactly when the anonymous key may offer some slot; when it answers
    [false], [getClosestAvailableSlot] finds no slot either. *)
Theorem X22_checkSlotsExist_counts_the_offered_slots :
  forall (now futureDate : Z) (w : Backend.World),
    Backend.nextFault w = None ->
    exists any : bool,
      fst (SupabaseRest.checkSlotsExist now w) = Js.Returned any /\
      (any = true <-> exists s, Cases.offered now w s) /\
      (any = false ->
       fst (Supabase.getClosestAvailableSlot now futureDate w) = Js.Returned None).
Proof.
  intros now futureDate w Hf.
  rewrite (checkSlotsExist_no_fault now w Hf),
          (getClosestAvailableSlot_no_fault now futureDate w Hf). cbn [fst].
  eexists. split; [reflexivity |].
  pose proof (offered_counted now w) as Hcounted.
  destruct (Backend.selectSlots Backend.Anon (SupabaseRest.upcomingAvailable now)
              (Backend.rls w) (Backend.db w)) as [| s rest] eqn:Hrows.
  - cbn. split.
    + split; [discriminate |]. intros [s Hs]. apply Hcounted in Hs. destruct Hs.
    + intros _.
      destruct (Backend.orderByStart _) as [| s rest] eqn:Hordered; [reflexivity |].
      exfalso. assert (Hin : In s (s :: rest)) by (left; reflexivity).
      rewrite <- Hordered in Hin. apply in_orderByStart, offered_selected in Hin as [Hin _].
      apply Hcounted in Hin. destruct Hin.
  - assert (Hany : (Z.of_nat (length (s :: rest)) >? 0) = true)
      by (apply Z.gtb_lt; cbn [length]; lia).
    rewrite Hany. split; [| discriminate].
    split; [| reflexivity]. intros _. exists s. apply Hcounted. left. reflexivity.
Qed.

Lemma X22_checkSlotsExist_witness :
  exists any : bool,
    fst (SupabaseRest.checkSlotsExist (12 * Scenario.hour) Scenario.initWorld)
      = Js.Returned any /\
    (any = true <-> exists s, Cases.offered (12 * Scenario.hour) Scenario.initWorld s) /\
    (any = false ->
     fst (Supabase.getClosestAvailableSlot (12 * Scenario.hour) (720 * Scenario.hour)
            Scenario.initWorld) = Js.Returned None).
Proof.
  apply (X22_checkSlotsExist_counts_the_offered_slots (12 * Scenario.hour)
           (720 * Scenario.hour) Scenario.initWorld).
  reflexivity.
Defined.

(** ** auth.js: setting the password up, logging in, the session *)

Section SetupFacts.
Import Js Backend Auth AuthSession.

(** After [storePasswordHash] every row of the password key holds the
    new hash. *)
Lemma stored_hash (hashedPassword : string) (rows : list Setting.t) :
  List.map Setting.value
    (List.filter (fun r => String.eqb (Setting.key r) ADMIN_PASSWORD_KEY)
       (List.map (fun r => if String.eqb (Setting.key r) ADMIN_PASSWORD_KEY
                           then Setting.mk (Setting.key r) hashedPassword
                           else r) rows))
  = List.map (fun _ => hashedPassword)
      (List.filter (fun r => String.eqb (Setting.key r) ADMIN_PASSWORD_KEY) rows).
Proof.
  induction rows as [| a r IH]; [reflexivity |].
  cbn [List.map List.filter].
  destruct (String.eqb (Setting.key a) ADMIN_PASSWORD_KEY) eqn:Hkey.
  - cbn [Setting.key]. rewrite Hkey. cbn [List.map Setting.value]. rewrite IH. reflexivity.
  - rewrite Hkey. exact IH.
Qed.

Lemma setupAdminPassword_no_fault (password : Password) (w : World) :
  serviceKey w = true ->
  nextFault w = None ->
  setupAdminPassword password w
  = (Returned true,
     mkWorld (storePasswordHash (hashPassword password) (db w)) (rls w) true
             (tail (faults w))).
Proof.
  intros Hkey Hf. unfold setupAdminPassword, catchM, bindM, getServiceKey.
  rewrite Hkey. cbn [negb]. rewrite (request_no_fault _ _ Hf), Hkey. reflexivity.
Qed.

Lemma two_step_collision (hash : Z) :
  hashStep (hashStep hash 65) 97 = hashStep (hashStep hash 66) 66.
Proof.
  rewrite !hashStep_wraps. apply toInt32_mod.
  replace (toInt32 (hash * 32 - hash + 65) * 32 - toInt32 (hash * 32 - hash + 65) + 97)
    with (toInt32 (hash * 32 - hash + 65) * 31 + 97) by lia.
  replace (toInt32 (hash * 32 - hash + 66) * 32 - toInt32 (hash * 32 - hash + 66) + 66)
    with (toInt32 (hash * 32 - hash + 66) * 31 + 66) by lia.
  rewrite <- Zplus_mod_idemp_l, <- Zmult_mod_idemp_l, toInt32_mod_eq,
    Zmult_mod_idemp_l, Zplus_mod_idemp_l.
  symmetry.
  rewrite <- Zplus_mod_idemp_l, <- Zmult_mod_idemp_l, toInt32_mod_eq,
    Zmult_mod_idemp_l, Zplus_mod_idemp_l.
  f_equal. lia.
Qed.

End SetupFacts.

(** X23.  Setting the admin password up and logging in with it: when the
    settings hold the row of the password hash and no request fails,
    [setupAdminPassword] answers [true], [isFirstTimeSetup] then answers
    [false], [loginAdmin] with the same password succeeds and stores a
    token, and [isAdminAuthenticated] accepts that token at once. *)
Theorem X23_setup_then_login :
  forall (w : Backend.World) (secretEnv : string) (nowMs : Z) (password : Auth.Password)
         (storage : Auth.LocalStorage) (row : Setting.t),
    Backend.serviceKey w = true ->
    Backend.faults w = [] ->
    List.filter (fun r => String.eqb (Setting.key r) Auth.ADMIN_PASSWORD_KEY)
                (Backend.settings (Backend.db w)) = [row] ->
    fst (AuthSession.setupAdminPassword password w) = Js.Returned true /\
    fst (AuthSession.isFirstTimeSetup (snd (AuthSession.setupAdminPassword password w)))
      = Js.Returned false /\
    exists token : Auth.Jwt,
      fst (Auth.loginAdmin secretEnv nowMs password storage
             (snd (AuthSession.setupAdminPassword password w)))
        = Js.Returned (Auth.mkLoginResult true (Some token) None,
                       <[Auth.TOKEN_KEY := token]> storage) /\
      AuthSession.isAdminAuthenticated secretEnv nowMs (<[Auth.TOKEN_KEY := token]> storage)
        = (true, <[Auth.TOKEN_KEY := token]> storage).
Proof.
  intros w secretEnv nowMs password storage row Hkey Hfaults Hrow.
  rewrite (setupAdminPassword_no_fault password w Hkey (no_faults_next w Hfaults)).
  cbn [fst snd]. split; [reflexivity |].
  assert (Hstored :
            List.map Setting.value
              (List.filter (fun r => String.eqb (Setting.key r) Auth.ADMIN_PASSWORD_KEY)
                 (Backend.settings
                    (AuthSession.storePasswordHash (Auth.hashPassword password)
                       (Backend.db w))))
            = [Auth.hashPassword password]).
  { unfold AuthSession.storePasswordHash. cbn [Backend.settings].
    rewrite stored_hash, Hrow. reflexivity. }
  pose proof (truthy_nonempty _ (toString16_nonempty (Auth.rollingHash password))) as Htruthy.
  fold (Auth.hashPassword password) in Htruthy.
  split.
  - unfold AuthSession.isFirstTimeSetup, Backend.catchM, Backend.bindM,
      Backend.getServiceKey, Auth.queryPasswordHash.
    cbn [Backend.serviceKey negb].
    rewrite request_no_fault by (rewrite Hfaults; reflexivity).
    cbn [fst snd Backend.db]. rewrite Hstored.
    cbn [Backend.single Backend.ok Backend.error Backend.data].
    rewrite Htruthy. reflexivity.
  - eexists. split.
    + unfold Auth.loginAdmin, Backend.catchM, Backend.bindM,
        Backend.getServiceKey, Auth.queryPasswordHash.
      cbn [Backend.serviceKey negb].
      rewrite request_no_fault by (rewrite Hfaults; reflexivity).
      cbn [fst snd Backend.db]. rewrite Hstored.
      cbn [Backend.single Backend.ok Backend.error Backend.data].
      rewrite Htruthy, String.eqb_refl. reflexivity.
    + unfold AuthSession.isAdminAuthenticated. rewrite lookup_insert_eq.
      unfold AuthSession.jwtVerify, Auth.signJWT, Auth.oneHour.
      cbn [Auth.signedWith Auth.exp]. rewrite String.eqb_refl.
      replace (nowMs / 1000 <? nowMs / 1000 + 60 * 60) with true
        by (symmetry; apply Z.ltb_lt; lia).
      reflexivity.
Qed.

Lemma X23_setup_witness :
  fst (AuthSession.setupAdminPassword Cases.adminPassword Cases.freshInstall)
    = Js.Returned true /\
  fst (AuthSession.isFirstTimeSetup
         (snd (AuthSession.setupAdminPassword Cases.adminPassword Cases.freshInstall)))
    = Js.Returned false /\
  exists token : Auth.Jwt,
    fst (Auth.loginAdmin "" 0 Cases.adminPassword ∅
           (snd (AuthSession.setupAdminPassword Cases.adminPassword Cases.freshInstall)))
      = Js.Returned (Auth.mkLoginResult true (Some token) None,
                     <[Auth.TOKEN_KEY := token]> ∅) /\
    AuthSession.isAdminAuthenticated "" 0 (<[Auth.TOKEN_KEY := token]> ∅)
      = (true, <[Auth.TOKEN_KEY := token]> ∅).
Proof.
  apply (X23_setup_then_login Cases.freshInstall "" 0 Cases.adminPassword ∅
           (Setting.mk "admin_password_hash" "")); reflexivity.
Defined.

(** X24.  When the settings lack the row of the password hash,
    [setupAdminPassword] still answers [true], yet nothing is stored:
    the update matches no row.  [isFirstTimeSetup] goes on answering
    [true] and [loginAdmin] with the same password fails with 'Error
    retrieving admin credentials'. *)
Theorem X24_setup_without_the_row_stores_nothing :
  forall (w : Backend.World) (secretEnv : string) (nowMs : Z) (password : Auth.Password)
         (storage : Auth.LocalStorage),
    Backend.serviceKey w = true ->
    Backend.faults w = [] ->
    List.filter (fun r => String.eqb (Setting.key r) Auth.ADMIN_PASSWORD_KEY)
                (Backend.settings (Backend.db w)) = [] ->
    AuthSession.setupAdminPassword password w = (Js.Returned true, w) /\
    fst (AuthSession.isFirstTimeSetup w) = Js.Returned true /\
    fst (Auth.loginAdmin secretEnv nowMs password storage w)
      = Js.Returned (Auth.failure "Error retrieving admin credentials", storage).
Proof.
  intros w secretEnv nowMs password storage Hkey Hfaults Hrow.
  split; [| split].
  - rewrite (setupAdminPassword_no_fault password w Hkey (no_faults_next w Hfaults)).
    f_equal. destruct w as [[slots reservations settings] policies key faults].
    cbn in Hkey, Hfaults, Hrow |- *. subst key faults.
    unfold AuthSession.storePasswordHash. cbn [Backend.slots Backend.reservations
                                                 Backend.settings].
    do 2 f_equal.
    induction settings as [| a r IH]; [reflexivity |].
    cbn [List.filter] in Hrow. cbn [List.map].
    destruct (String.eqb (Setting.key a) Auth.ADMIN_PASSWORD_KEY); [discriminate Hrow |].
    rewrite (IH Hrow). reflexivity.
  - unfold AuthSession.isFirstTimeSetup, Backend.catchM, Backend.bindM,
      Backend.getServiceKey, Auth.queryPasswordHash.
    rewrite Hkey. cbn [negb].
    rewrite request_no_fault by (apply no_faults_next; exact Hfaults).
    cbn [fst snd]. rewrite Hrow. reflexivity.
  - unfold Auth.loginAdmin, Backend.catchM, Backend.bindM,
      Backend.getServiceKey, Auth.queryPasswordHash.
    rewrite Hkey. cbn [negb].
    rewrite request_no_fault by (apply no_faults_next; exact Hfaults).
    cbn [fst snd]. rewrite Hrow. reflexivity.
Qed.

Lemma X24_setup_without_the_row_witness :
  AuthSession.setupAdminPassword Cases.adminPassword Cases.noSettingsRow
    = (Js.Returned true, Cases.noSettingsRow) /\
  fst (AuthSession.isFirstTimeSetup Cases.noSettingsRow) = Js.Returned true /\
  fst (Auth.loginAdmin "" 0 Cases.adminPassword ∅ Cases.noSettingsRow)
    = Js.Returned (Auth.failure "Error retrieving admin credentials", ∅).
Proof.
  apply (X24_setup_without_the_row_stores_nothing Cases.noSettingsRow "" 0
           Cases.adminPassword ∅); reflexivity.
Defined.

(** X25.  The session of the admin lasts an hour: with the token of a
    login in the local storage, [isAdminAuthenticated] answers [true]
    as long as the clock, in whole seconds, is less than 3600 seconds past
    the login and leaves the storage alone; from then on it answers
    [false] and removes the token.  After [logoutAdmin] it answers
    [false] and there is no token to get. *)
Theorem X25_session_lasts_an_hour :
  forall (secretEnv : string) (issuedMs nowMs : Z) (storage : Auth.LocalStorage),
    let token := Auth.signJWT issuedMs "admin" (Auth.JWT_SECRET secretEnv) Auth.oneHour in
    let logged := <[Auth.TOKEN_KEY := token]> storage in
    AuthSession.isAdminAuthenticated secretEnv nowMs logged
      = (if nowMs / 1000 <? issuedMs / 1000 + 3600
         then (true, logged)
         else (false, delete Auth.TOKEN_KEY storage)) /\
    AuthSession.isAdminAuthenticated secretEnv nowMs (AuthSession.logoutAdmin logged)
      = (false, AuthSession.logoutAdmin logged) /\
    AuthSession.getAuthToken (AuthSession.logoutAdmin logged) = None.
Proof.
  intros secretEnv issuedMs nowMs storage token logged.
  unfold AuthSession.isAdminAuthenticated, AuthSession.getAuthToken, AuthSession.logoutAdmin.
  subst logged. rewrite lookup_insert_eq, lookup_delete_eq, delete_insert_eq.
  unfold AuthSession.jwtVerify. subst token.
  unfold Auth.signJWT, Auth.oneHour. cbn [Auth.signedWith Auth.exp].
  rewrite String.eqb_refl. cbn [andb].
  change (60 * 60) with 3600.
  destruct (nowMs / 1000 <? issuedMs / 1000 + 3600); repeat split; reflexivity.
Qed.

(** X26.  [hashPassword] does not tell every two passwords apart: the
    passwords that differ only in that one has [Aa] where the other has
    [BB] get the same hash, so [loginAdmin] gives both the same answer. *)
Theorem X26_hashPassword_collides :
  forall (before after : Auth.Password),
    Auth.hashPassword (before ++ [65; 97] ++ after)%list
      = Auth.hashPassword (before ++ [66; 66] ++ after)%list /\
    forall (secretEnv : string) (nowMs : Z) (storage : Auth.LocalStorage) (w : Backend.World),
      Auth.loginAdmin secretEnv nowMs (before ++ [65; 97] ++ after)%list storage w
      = Auth.loginAdmin secretEnv nowMs (before ++ [66; 66] ++ after)%list storage w.
Proof.
  intros before after.
  assert (Hsame : Auth.hashPassword (before ++ [65; 97] ++ after)%list
                  = Auth.hashPassword (before ++ [66; 66] ++ after)%list).
  { unfold Auth.hashPassword, Auth.rollingHash.
    rewrite !fold_left_app. cbn [fold_left]. rewrite two_step_collision. reflexivity. }
  split; [exact Hsame |].
  intros secretEnv nowMs storage w. unfold Auth.loginAdmin. rewrite Hsame. reflexivity.
Qed.

Example Aa_and_BB_collide :
  Auth.hashPassword [65; 97] = "840" /\ Auth.hashPassword [66; 66] = "840".
Proof. vm_compute. split; reflexivity. Qed.

(** ** emailService.js: what a sent confirmation means *)

(** X27.  [sendBookingConfirmationEmail] reports success only if the
    public key is set, the booking comes with its user data and its slot,
    and the gateway answered 200 to a message addressed to the visitor
    that carries the reference of the booking, or a generated one when
    the booking has none; that reference is the one reported back.
    Without the public key the function answers 'Email service not
    configured', whatever the service and template ids are: these two
    fall back to defaults and never fail the check. *)
Theorem X27_confirmation_success_means_sent :
  forall (env : EmailService.EmailEnv) (rt : EmailService.Runtime)
         (bookingData : option EmailService.BookingData),
    (forall r : EmailService.EmailResult,
        EmailService.sendBookingConfirmationEmail env rt bookingData = Js.Returned r ->
        EmailService.success r = true ->
        EmailService.VITE_EMAILJS_PUBLIC_KEY env <> "" /\
        exists (bd : EmailService.BookingData) (ud : EmailService.UserData)
               (sl : EmailService.SlotInfo) (params : EmailService.TemplateParams),
          bookingData = Some bd /\
          EmailService.userData bd = Some ud /\
          EmailService.slot bd = Some sl /\
          EmailService.emailjs_send rt (EmailService.EMAIL_SERVICE_ID env)
            (EmailService.EMAIL_TEMPLATE_ID env) params = Js.Returned 200 /\
          EmailService.to_email params = EmailService.email ud /\
          EmailService.booking_reference params
            = Js.or_else (EmailService.reference bd)
                (EmailService.generateBookingReference (EmailService.today rt)
                   (EmailService.pick rt)) /\
          EmailService.result_reference r = Some (EmailService.booking_reference params) /\
          EmailService.booking_reference params <> "") /\
    (EmailService.VITE_EMAILJS_PUBLIC_KEY env = "" ->
     EmailService.sendBookingConfirmationEmail env rt bookingData
     = Js.Returned (EmailService.mkEmailResult false (Some "Email service not configured")
                      None)).
Proof.
  intros env rt bookingData. split.
  - intros r.
    unfold EmailService.sendBookingConfirmationEmail, Js.try_catch, Js.bind, EmailService.read.
    destruct (EmailService.VITE_EMAILJS_PUBLIC_KEY env) as [| c key] eqn:Hkey.
    { unfold EmailService.EMAIL_PUBLIC_KEY. rewrite Hkey. cbn.
      rewrite !orb_true_r. intros Hr Hs. injection Hr as <-. discriminate Hs. }
    destruct (negb (Js.truthy (EmailService.EMAIL_SERVICE_ID env))
              || negb (Js.truthy (EmailService.EMAIL_TEMPLATE_ID env))
              || negb (Js.truthy (EmailService.EMAIL_PUBLIC_KEY env)));
      [intros Hr Hs; injection Hr as <-; discriminate Hs |].
    destruct bookingData as [bd |];
      [| intros Hr Hs; injection Hr as <-; discriminate Hs].
    destruct (EmailService.userData bd) as [ud |] eqn:Hud;
      [| destruct (match EmailService.formatBookingDate rt bd with
                   | Js.Returned a => Js.Returned a
                   | Js.Thrown _ => _
                   end);
         intros Hr Hs; injection Hr as <-; discriminate Hs].
    destruct (EmailService.slot bd) as [sl |] eqn:Hsl;
      [| destruct (match EmailService.formatBookingDate rt bd with
                   | Js.Returned a => Js.Returned a
                   | Js.Thrown _ => _
                   end);
         intros Hr Hs; injection Hr as <-; discriminate Hs].
    destruct (match EmailService.formatBookingDate rt bd with
              | Js.Returned a => Js.Returned a
              | Js.Thrown _ => _
              end) as [formatted | err];
      [| intros Hr Hs; injection Hr as <-; discriminate Hs].
    match goal with
    | |- context [EmailService.emailjs_send rt ?sid ?tid ?params] =>
        destruct (EmailService.emailjs_send rt sid tid params) as [status | err] eqn:Hsend
    end;
      [| intros Hr Hs; injection Hr as <-; discriminate Hs].
    destruct (status =? 200) eqn:Hstatus;
      [| intros Hr Hs; injection Hr as <-; discriminate Hs].
    apply Z.eqb_eq in Hstatus. subst status.
    intros Hr _. injection Hr as <-.
    split; [discriminate |].
    eexists bd, ud, sl, _.
    split; [reflexivity |]. split; [exact Hud |]. split; [exact Hsl |].
    split; [exact Hsend |]. cbn [EmailService.to_email EmailService.booking_reference
                                 EmailService.result_reference].
    repeat split. apply or_else_nonempty. discriminate.
  - intros Hkey.
    unfold EmailService.sendBookingConfirmationEmail, EmailService.EMAIL_PUBLIC_KEY.
    rewrite Hkey. cbn. rewrite !orb_true_r. reflexivity.
Qed.

(** ** calendarUtils.js: the passing of time *)

(** X28.  As time goes on, in one time zone, a slot that [isSlotDisabled]
    refuses stays refused, and the calendar shows no event that it did not
    show before for the same slots. *)
Theorem X28_disabled_slots_stay_disabled :
  forall (now later tz : Z),
    now <= later ->
    (forall startTime : Z,
        CalendarUtils.isSlotDisabled (CalendarUtils.mkClock now tz) startTime = true ->
        CalendarUtils.isSlotDisabled (CalendarUtils.mkClock later tz) startTime = true) /\
    (forall (slots : list Slot.t) (event : Calendar.Event),
        In event (Calendar.events (CalendarUtils.mkClock later tz) slots) ->
        In event (Calendar.events (CalendarUtils.mkClock now tz) slots)).
Proof.
  intros now later tz Hlater.
  assert (Hstays : forall startTime : Z,
             CalendarUtils.isSlotDisabled (CalendarUtils.mkClock now tz) startTime = true ->
             CalendarUtils.isSlotDisabled (CalendarUtils.mkClock later tz) startTime = true).
  { intros startTime.
    unfold CalendarUtils.isSlotDisabled, CalendarUtils.oneHourFromNow,
      CalendarUtils.addOneHour, CalendarUtils.setMinutes000, CalendarUtils.msPerHour.
    cbn [CalendarUtils.now CalendarUtils.tzOffset].
    rewrite !Z.leb_le. intros Hdisabled.
    assert (Hhours : (now + tz) / 3600000 <= (later + tz) / 3600000)
      by (apply Z.div_le_mono; lia).
    lia. }
  split; [exact Hstays |].
  intros slots event. unfold Calendar.events. rewrite !in_map_iff.
  intros (slot & Hevent & Hshown). exists slot. split; [exact Hevent |].
  apply filter_In in Hshown as [Hin Hshown]. apply filter_In. split; [exact Hin |].
  destruct (CalendarUtils.isSlotDisabled (CalendarUtils.mkClock now tz) (Slot.start_time slot))
    eqn:Hbefore; [| reflexivity].
  rewrite (Hstays _ Hbefore) in Hshown. discriminate Hshown.
Qed.

Lemma X28_disabled_slots_witness :
  (forall startTime : Z,
      CalendarUtils.isSlotDisabled
        (CalendarUtils.mkClock (7 * Scenario.hour + 30 * Scenario.minute) 0) startTime = true ->
      CalendarUtils.isSlotDisabled
        (CalendarUtils.mkClock (9 * Scenario.hour + 30 * Scenario.minute) 0) startTime = true) /\
  (forall (slots : list Slot.t) (event : Calendar.Event),
      In event (Calendar.events
                  (CalendarUtils.mkClock (9 * Scenario.hour + 30 * Scenario.minute) 0) slots) ->
      In event (Calendar.events
                  (CalendarUtils.mkClock (7 * Scenario.hour + 30 * Scenario.minute) 0) slots)).
Proof.
  apply (X28_disabled_slots_stay_disabled (7 * Scenario.hour + 30 * Scenario.minute)
           (9 * Scenario.hour + 30 * Scenario.minute) 0).
  vm_compute. discriminate.
Defined.
